(** * VDCET-Backend: college student-record API

    A shallow embedding of the route handlers of [src/routes/admin.js],
    [src/routes/auth.js] and [src/routes/student.js], of the Student schema
    ([src/unnamed/part_000]), of the access-control middleware
    ([src/unnamed/part_001]), of the contact controller
    ([src/controllers/contactController.js]), of the seeding scripts
    ([src/scripts/seed.js], [src/unnamed/part_000]) and of the tables of the
    PDF generator class ([src/routes/auth.js]), together with the
    properties of the specification that concern them and further
    properties read off the code.

    Conventions of the embedding.
    - The two collections are finite maps from document ids to documents.
    - A handler is a function from the store (and the request) to a response
      and a new store; [Date.now()] is an explicit argument.
    - JavaScript objects used as dictionaries (the nested [address],
      [guardianInfo], [emergencyContact], [academicInfo]) are finite maps
      from keys to strings or to JSON values; object spread
      [{...a, ...b}] is the right-biased union.
    - A rejected promise ([save()] failing the schema validation, a missing
      signing secret) is the [catch] branch of the handler: the 500 answer
      together with the writes made before it.
    - Library primitives whose code is not part of the repository (e-mail
      and date recognisers of the validation library, password hashing,
      token signing) are fields of the class [Externals]; the store and the
      mail transport of the contact controller are fields of the class
      [Contact.Transport].

    Outside the embedding: the setters of the schema ([trim], [lowercase]),
    the removal of keys unknown to the schema, the coercion of strings to
    numbers, the validators and the unique indexes of the User schema
    ([models/User.js] is not among the sources), failures of the store
    itself, and the interleaving of concurrent requests (each request is
    served atomically).  The answer of PUT /api/admin/students/:id/status
    reads the name of the populated owner after the update; its embedding
    gives the answer for a record whose owner is stored. *)

From Stdlib Require Import ZArith String Ascii List Bool Lia.
From stdpp Require Import base option list sorting gmap strings pretty fin_maps.

Open Scope string_scope.
Open Scope Z_scope.

(* ===================================================================== *)
(** * JavaScript values *)
(* ===================================================================== *)

Module JS.

(** The JSON values that occur in request bodies and stored documents.
    Numbers are the integral ones, and a numeric field carries a JSON
    number (the coercion of numeric strings is not modelled). *)
Inductive jsval : Type :=
| JStr (s : string)
| JNum (n : Z)
| JBool (b : bool)
| JNull.

#[global] Instance jsval_eq_dec : EqDecision jsval.
Proof. solve_decision. Defined.

(** [if (x)] for a possibly absent string field of the request body. *)
Definition truthy_str (o : option string) : bool :=
  match o with
  | Some s => negb (String.eqb s "")
  | None => false
  end.

(** [x || d] on a possibly absent number: [undefined] and [0] are falsy. *)
Definition num_or (x : option Z) (d : Z) : Z :=
  match x with
  | Some n => if n =? 0 then d else n
  | None => d
  end.

(** [x ? a : b] on a possibly absent boolean. *)
Definition truthy_bool (o : option bool) : bool :=
  match o with
  | Some b => b
  | None => false
  end.

(** [{ ...a, ...b }]: the keys of [b] override those of [a]. *)
Definition spread {V : Type} (a b : gmap string V) : gmap string V := b ∪ a.

End JS.
Import JS.

Abbreviation obj := (gmap string jsval).
Abbreviation strobj := (gmap string string).

(* ===================================================================== *)
(** * Regular expressions of the source *)
(* ===================================================================== *)

(** The patterns written in the source ([/^[\+]?[1-9][\d]{0,15}$/] and the
    guardian e-mail pattern of the schema) are anchored on both sides, so
    [RegExp.test] is a whole-string match; it is decided here with
    derivatives. *)
Module Regex.

Inductive re : Type :=
| Void
| Eps
| Class (p : ascii → bool)
| Cat (r1 r2 : re)
| Alt (r1 r2 : re)
| Star (r : re).

Fixpoint nullable (r : re) : bool :=
  match r with
  | Void => false
  | Eps => true
  | Class _ => false
  | Cat r1 r2 => nullable r1 && nullable r2
  | Alt r1 r2 => nullable r1 || nullable r2
  | Star _ => true
  end.

Fixpoint deriv (c : ascii) (r : re) : re :=
  match r with
  | Void => Void
  | Eps => Void
  | Class p => if p c then Eps else Void
  | Cat r1 r2 =>
      if nullable r1
      then Alt (Cat (deriv c r1) r2) (deriv c r2)
      else Cat (deriv c r1) r2
  | Alt r1 r2 => Alt (deriv c r1) (deriv c r2)
  | Star r1 => Cat (deriv c r1) (Star r1)
  end.

Fixpoint test (r : re) (s : string) : bool :=
  match s with
  | EmptyString => nullable r
  | String c s' => test (deriv c r) s'
  end.

Definition Opt (r : re) : re := Alt r Eps.
Definition Plus (r : re) : re := Cat r (Star r).

(** [r{0,n}] *)
Fixpoint UpTo (n : nat) (r : re) : re :=
  match n with
  | O => Eps
  | S n' => Opt (Cat r (UpTo n' r))
  end.

Definition between (lo hi : nat) (c : ascii) : bool :=
  (lo <=? nat_of_ascii c)%nat && (nat_of_ascii c <=? hi)%nat.

Definition is_digit (c : ascii) : bool := between 48 57 c.
Definition is_digit19 (c : ascii) : bool := between 49 57 c.
Definition is_upper (c : ascii) : bool := between 65 90 c.
Definition is_lower (c : ascii) : bool := between 97 122 c.
(** [\w] *)
Definition is_word (c : ascii) : bool :=
  is_digit c || is_upper c || is_lower c || Ascii.eqb c "_"%char.
Definition is_char (x : ascii) (c : ascii) : bool := Ascii.eqb c x.
(** [[.-]] *)
Definition is_dot_dash (c : ascii) : bool :=
  Ascii.eqb c "."%char || Ascii.eqb c "-"%char.

(** [/^[\+]?[1-9][\d]{0,15}$/] *)
Definition phoneRe : re :=
  Cat (Opt (Class (is_char "+"%char)))
      (Cat (Class is_digit19) (UpTo 15 (Class is_digit))).

(** [/^\w+([.-]?\w+)*@\w+([.-]?\w+)*(\.\w{2,3})+$/] *)
Definition guardianEmailRe : re :=
  let w := Class is_word in
  let seg := Star (Cat (Opt (Class is_dot_dash)) (Plus w)) in
  Cat (Plus w)
    (Cat seg
       (Cat (Class (is_char "@"%char))
          (Cat (Plus w)
             (Cat seg
                (Plus (Cat (Class (is_char "."%char))
                           (Cat w (Cat w (Opt w))))))))).

(** The strings a pattern denotes. *)
Inductive Matches : re → string → Prop :=
| MEps : Matches Eps ""
| MClass p c : p c = true → Matches (Class p) (String c "")
| MCat r1 r2 s1 s2 :
    Matches r1 s1 → Matches r2 s2 → Matches (Cat r1 r2) (s1 +:+ s2)
| MAltL r1 r2 s : Matches r1 s → Matches (Alt r1 r2) s
| MAltR r1 r2 s : Matches r2 s → Matches (Alt r1 r2) s
| MStarNil r : Matches (Star r) ""
| MStarApp r s1 s2 :
    Matches r s1 → Matches (Star r) s2 → Matches (Star r) (s1 +:+ s2).

End Regex.

(* ===================================================================== *)
(** * Validators of the request-validation library *)
(* ===================================================================== *)

Module Validator.

Definition strlen (s : string) : Z := Z.of_nat (String.length s).

(** [.notEmpty()] *)
Definition notEmpty (s : string) : bool := negb (String.eqb s "").

(** [.isLength({ min, max })] *)
Definition isLength (lo : Z) (hi : option Z) (s : string) : bool :=
  (lo <=? strlen s) &&
  match hi with Some h => strlen s <=? h | None => true end.

(** [.isIn([...])] *)
Definition isIn (l : list string) (s : string) : bool :=
  existsb (String.eqb s) l.

(** [.isAlphanumeric()] (default locale): [/^[0-9A-Z]+$/i]. *)
Definition isAlphanumeric (s : string) : bool :=
  Regex.test
    (Regex.Plus (Regex.Class (λ c, Regex.is_digit c || Regex.is_upper c
                                       || Regex.is_lower c))) s.

(** [.matches(/^[\+]?[1-9][\d]{0,15}$/)] *)
Definition isPhone (s : string) : bool := Regex.test Regex.phoneRe s.

(** [.isInt({ min, max })] on a JSON value of the body. *)
Definition isIntBetween (lo : Z) (hi : option Z) (v : jsval) : bool :=
  match v with
  | JNum n => (lo <=? n) && match hi with Some h => n <=? h | None => true end
  | _ => false
  end.

Definition isStringVal (v : jsval) : bool :=
  match v with JStr _ => true | _ => false end.

(** A validation chain on one field: the message is recorded when the
    check fails. *)
Definition check (ok : bool) (msg : string) : list string :=
  if ok then [] else [msg].

(** [.optional()]: an absent field is not checked. *)
Definition optional {A : Type} (o : option A) (f : A → list string)
  : list string :=
  match o with
  | Some a => f a
  | None => []
  end.

(** A required field: an absent field fails the check. *)
Definition required {A : Type} (o : option A) (ok : A → bool) (msg : string)
  : list string :=
  match o with
  | Some a => check (ok a) msg
  | None => [msg]
  end.

End Validator.

(* ===================================================================== *)
(** * Data model *)
(* ===================================================================== *)

(** Document ids ([ObjectId]) and instants ([Date], milliseconds). *)
Abbreviation ObjectId := N.
Abbreviation Date := Z.

(** A User document.  [models/User.js] is not among the sources; the fields
    are those the handlers read and write. *)
Record User : Type := mkUser {
  username : string;
  email : string;
  password : string;          (* the stored hash *)
  firstName : string;
  lastName : string;
  role : string;
  isActive : bool;
  lastLogin : option Date
}.

(** [financialInfo] and [hostelInfo] of the Student schema (the numeric and
    boolean fields the fee-structure document reads); every field may be
    absent, as the optional chaining of the source allows. *)
Record FinancialInfo : Type := mkFinancialInfo {
  feeStructure : option string;
  totalFees : option Z;
  paidFees : option Z;
  scholarshipAmount : option Z
}.

Record HostelInfo : Type := mkHostelInfo {
  hostelFees : option Z;
  isHostelite : option bool
}.

(** A date of birth is what the body carried (an ISO-8601 string) or, on
    registration without one, [new Date()]. *)
Inductive BirthDate : Type :=
| BirthISO (s : string)
| BirthAt (t : Date).

(** A Student document (schema of [src/unnamed/part_000]). *)
Record Student : Type := mkStudent {
  userId : ObjectId;
  studentId : string;
  dateOfBirth : BirthDate;
  gender : string;
  phone : string;
  address : strobj;
  academicInfo : obj;
  guardianInfo : strobj;
  emergencyContact : strobj;
  financialInfo : option FinancialInfo;
  hostelInfo : option HostelInfo;
  status : string;
  enrollmentDate : Date;
  graduationDate : option Date;
  createdAt : Date
}.

(** The persistent state: the Users and Students collections. *)
Record Store : Type := mkStore {
  users : gmap ObjectId User;
  students : gmap ObjectId Student
}.

Definition emptyStore : Store := {| users := ∅; students := ∅ |}.

Definition set_users (f : gmap ObjectId User → gmap ObjectId User) (s : Store)
  : Store :=
  {| users := f (users s); students := students s |}.

Definition set_students
  (f : gmap ObjectId Student → gmap ObjectId Student) (s : Store) : Store :=
  {| users := users s; students := f (students s) |}.

(** A fresh [ObjectId] for [new User] / [new Student]. *)
Definition newObjectId (s : Store) : ObjectId :=
  fresh (dom (users s) ∪ dom (students s)).

(* ===================================================================== *)
(** * Fee-structure document (GET /api/admin/students/:id/fee-structure) *)
(* ===================================================================== *)

Module FeeStructure.

(** A cell of the table: literal text or an interpolated number. *)
Inductive cell : Type :=
| Txt (s : string)
| Num (n : Z).

Definition isHosteliteOf (student : Student) : bool :=
  truthy_bool (hostelInfo student ≫= isHostelite).

(** [student.financialInfo?.totalFees || 40000] *)
Definition tuition (student : Student) : Z :=
  num_or (financialInfo student ≫= totalFees) 40000.

(** The amount of the rows 'Hostel Fee' and 'Hostel Fees:':
    [student.hostelInfo?.hostelFees || 15000]. *)
Definition hostelRowAmount (student : Student) : Z :=
  num_or (hostelInfo student ≫= hostelFees) 15000.

(** The hostel term inside the rows 'Total Fees:' and 'Balance Amount:':
    [isHostelite ? (student.hostelInfo?.hostelFees || 0) : 0]. *)
Definition hostelTerm (student : Student) : Z :=
  if isHosteliteOf student
  then num_or (hostelInfo student ≫= hostelFees) 0
  else 0.

Definition scholarship (student : Student) : Z :=
  num_or (financialInfo student ≫= scholarshipAmount) 0.

Definition paid (student : Student) : Z :=
  num_or (financialInfo student ≫= paidFees) 0.

(** The value printed in the row 'Total Fees:'. *)
Definition totalFeesRow (student : Student) : Z :=
  tuition student + hostelTerm student.

(** The value printed in the row 'Balance Amount:'. *)
Definition balanceRow (student : Student) : Z :=
  (tuition student + hostelTerm student)
  - scholarship student - paid student.

Definition feeBreakdown (student : Student) : list (list cell) :=
  [ [Txt "Fee Component"; Txt "Amount (₹)"; Txt "Due Date"; Txt "Status"];
    [Txt "Tuition Fee"; Txt "25,000"; Txt "15th Aug"; Txt "Paid"];
    [Txt "Laboratory Fee"; Txt "5,000"; Txt "15th Aug"; Txt "Paid"];
    [Txt "Library Fee"; Txt "2,000"; Txt "15th Aug"; Txt "Paid"];
    [Txt "Examination Fee"; Txt "3,000"; Txt "15th Aug"; Txt "Paid"];
    [Txt "Sports Fee"; Txt "1,000"; Txt "15th Aug"; Txt "Paid"];
    [Txt "Student Activity Fee"; Txt "1,500"; Txt "15th Aug"; Txt "Paid"];
    [Txt "Development Fee"; Txt "2,500"; Txt "15th Aug"; Txt "Paid"];
    [Txt "Hostel Fee";
     (if isHosteliteOf student then Num (hostelRowAmount student)
      else Txt "N/A");
     Txt "15th Aug";
     (if isHosteliteOf student then Txt "Paid" else Txt "N/A")];
    [Txt ""; Txt ""; Txt ""; Txt ""];
    [Txt "Total Academic Fees:"; Txt "40,000"; Txt ""; Txt ""];
    [Txt "Hostel Fees:";
     (if isHosteliteOf student then Num (hostelRowAmount student)
      else Txt "0");
     Txt ""; Txt ""];
    [Txt "Total Fees:"; Num (totalFeesRow student); Txt ""; Txt ""];
    [Txt "Scholarship Amount:"; Num (scholarship student); Txt ""; Txt ""];
    [Txt "Paid Amount:"; Num (paid student); Txt ""; Txt ""];
    [Txt "Balance Amount:"; Num (balanceRow student); Txt ""; Txt ""] ].

(** The totals as the specification words them:
    [totalFees = studentTotalFees||40000
                 + (isHostelite ? hostelFees||15000 : 0)],
    [balance = totalFees - scholarshipAmount - paidFees]. *)
Definition spec_totalFees (student : Student) : Z :=
  num_or (financialInfo student ≫= totalFees) 40000
  + (if isHosteliteOf student
     then num_or (hostelInfo student ≫= hostelFees) 15000
     else 0).

Definition spec_balance (student : Student) : Z :=
  spec_totalFees student
  - num_or (financialInfo student ≫= scholarshipAmount) 0
  - num_or (financialInfo student ≫= paidFees) 0.

End FeeStructure.

(* ===================================================================== *)
(** * Responses and external primitives *)
(* ===================================================================== *)

(** What [user.getPublicProfile()] exposes ([models/User.js] is not among
    the sources: the identity fields without the password). *)
Record PublicUser : Type := mkPublicUser {
  pu_id : ObjectId;
  pu_username : string;
  pu_email : string;
  pu_firstName : string;
  pu_lastName : string;
  pu_role : string;
  pu_isActive : bool
}.

Definition getPublicProfile (id : ObjectId) (u : User) : PublicUser :=
  {| pu_id := id; pu_username := username u; pu_email := email u;
     pu_firstName := firstName u; pu_lastName := lastName u;
     pu_role := role u; pu_isActive := isActive u |}.

(** The [data] member of a success envelope. *)
Inductive Data : Type :=
| DataSession (user : PublicUser) (token : string) (isFirstAdmin : option bool)
| DataUser (user : PublicUser)
| DataStudent (id : ObjectId) (student : Student)
| DataStudents (page : list (ObjectId * Student)) (currentPage totalPages : Z)
    (totalStudents : Z) (hasNextPage hasPrevPage : bool).

(** The JSON envelope [{status, message, errors, error, data}] with its HTTP
    status code; an absent member is [None]. *)
Record Response : Type := mkResponse {
  http : Z;
  envelope : string;
  message : option string;
  errors : option (list string);
  error : option (list string);
  data : option Data
}.

Definition failure (c : Z) (msg : string) : Response :=
  {| http := c; envelope := "error"; message := Some msg;
     errors := None; error := None; data := None |}.

(** [res.status(400).json({status:'error', message:'Validation failed',
    errors: errors.array()})] *)
Definition validationFailed (errs : list string) : Response :=
  {| http := 400; envelope := "error"; message := Some "Validation failed";
     errors := Some errs; error := None; data := None |}.

(** The [catch] branch of a handler. *)
Definition serverError (msg : string) (err : list string) : Response :=
  {| http := 500; envelope := "error"; message := Some msg;
     errors := None; error := Some err; data := None |}.

Definition success (c : Z) (msg : string) (d : option Data) : Response :=
  {| http := c; envelope := "success"; message := Some msg;
     errors := None; error := None; data := d |}.

(** A success envelope without [message]. *)
Definition successData (c : Z) (d : Data) : Response :=
  {| http := c; envelope := "success"; message := None;
     errors := None; error := None; data := Some d |}.

(** [process.env] and the connection state read by the handlers. *)
Record Env : Type := mkEnv {
  JWT_SECRET : option string;
  readyState : Z
}.

(** Primitives of the libraries the handlers call, and what the handlers
    use of [models/User.js], which is not among the sources. *)
Class Externals : Type := {
  (** [isEmail()] and [isISO8601()] of the validation library *)
  isEmail : string → bool;
  isISO8601 : string → bool;
  (** the password hash computed when a User is saved *)
  hashPassword : string → string;
  (** [user.comparePassword(candidate)] *)
  comparePassword : User → string → bool;
  (** [jwt.sign({ id }, secret, ...)] and [jwt.verify(token, secret)];
      verification yields the [id] of the payload or throws *)
  jwtSign : string → ObjectId → string;
  jwtVerify : option string → string → option ObjectId;
  (** the schema default of [User.isActive] *)
  defaultIsActive : bool
}.

(* ===================================================================== *)
(** * Validation performed by the Student schema *)
(* ===================================================================== *)

Module Schema.

Definition genderEnum : list string := ["male"; "female"; "other"].
Definition feeStructureEnum : list string :=
  ["general"; "obc"; "sc"; "st"; "ews"].
Definition statusEnum : list string :=
  ["active"; "inactive"; "suspended"; "graduated"; "transferred"; "dropped"].

(** [match: [re, msg]]: the empty string is left to [required]. *)
Definition matchRe (r : Regex.re) (s : string) : bool :=
  String.eqb s "" || Regex.test r s.

(** A [required] string path of a nested all-string object, with its
    message, and its [match] validator [ok] with message [okMsg].  [full]
    tells whether the whole document is validated ([save()]) or only the
    paths that are present (update validators). *)
Definition strPath (full : bool) (o : strobj) (k : string) (reqMsg : string)
  (ok : string → bool) (okMsg : string) : list string :=
  match o !! k with
  | Some s =>
      Validator.check (Validator.notEmpty s) reqMsg
      ++ Validator.check (ok s) okMsg
  | None => Validator.check (negb full) reqMsg
  end.

(** A string path of [academicInfo], [required] when [reqMsg] is given; a
    number or a boolean is cast to a non-empty string. *)
Definition strVal (full : bool) (o : obj) (k : string)
  (reqMsg : option string) : list string :=
  match reqMsg with
  | Some msg =>
      match o !! k with
      | Some (JStr s) => Validator.check (Validator.notEmpty s) msg
      | Some JNull => [msg]
      | Some _ => []
      | None => Validator.check (negb full) msg
      end
  | None => []
  end.

(** A number path of [academicInfo] with its [min] and [max] validators. *)
Definition numVal (full : bool) (o : obj) (k : string)
  (reqMsg : option string) (lo : Z) (loMsg : string)
  (hi : option (Z * string)) : list string :=
  match o !! k with
  | Some (JNum n) =>
      Validator.check (lo <=? n) loMsg
      ++ match hi with
         | Some (h, hiMsg) => Validator.check (n <=? h) hiMsg
         | None => []
         end
  | Some _ => ["Cast to Number failed for path " ++ k]
  | None =>
      match reqMsg with
      | Some msg => Validator.check (negb full) msg
      | None => []
      end
  end.

Definition optNonNeg (x : option Z) (msg : string) : list string :=
  match x with
  | Some n => Validator.check (0 <=? n) msg
  | None => []
  end.

Definition anyStr (s : string) : bool := true.

Definition enumMsg (path : string) : string :=
  "not a valid enum value for path " ++ path.

(** The validators of the nested objects, for [save()] ([full = true])
    and for an update with [runValidators] ([full = false]). *)
Definition validateAddress (full : bool) (a : strobj) : list string :=
  strPath full a "street" "Street address is required" anyStr ""
  ++ strPath full a "city" "City is required" anyStr ""
  ++ strPath full a "state" "State is required" anyStr ""
  ++ strPath full a "zipCode" "ZIP code is required" anyStr ""
  ++ strPath full a "country" "Country is required" anyStr "".

Definition validateAcademicInfo (full : bool) (a : obj) : list string :=
  strVal full a "collegeName" (Some "College name is required")
  ++ strVal full a "department" (Some "Department is required")
  ++ strVal full a "course" (Some "Course is required")
  ++ strVal full a "specialization" None
  ++ numVal full a "year" (Some "Year is required")
       1 "Year must be at least 1" (Some (5, "Year cannot exceed 5"))
  ++ numVal full a "semester" (Some "Semester is required")
       1 "Semester must be at least 1" (Some (8, "Semester cannot exceed 8"))
  ++ numVal full a "cgpa" None
       0 "CGPA cannot be negative" (Some (10, "CGPA cannot exceed 10"))
  ++ numVal full a "totalCredits" None
       0 "Total credits cannot be negative" None
  ++ numVal full a "earnedCredits" None
       0 "Earned credits cannot be negative" None
  ++ numVal full a "attendancePercentage" None
       0 "Attendance percentage cannot be negative"
       (Some (100, "Attendance percentage cannot exceed 100")).

Definition validateGuardianInfo (full : bool) (g : strobj) : list string :=
  strPath full g "name" "Guardian name is required" anyStr ""
  ++ strPath full g "relationship" "Relationship with guardian is required"
       anyStr ""
  ++ strPath full g "phone" "Guardian phone is required"
       (matchRe Regex.phoneRe) "Please enter a valid phone number"
  ++ strPath full g "email" "Guardian email is required"
       (matchRe Regex.guardianEmailRe) "Please enter a valid email".

Definition validateEmergencyContact (full : bool) (e : strobj)
  : list string :=
  strPath full e "name" "Emergency contact name is required" anyStr ""
  ++ strPath full e "relationship"
       "Relationship with emergency contact is required" anyStr ""
  ++ strPath full e "phone" "Emergency contact phone is required"
       (matchRe Regex.phoneRe) "Please enter a valid phone number".

Definition validatePhone (p : string) : list string :=
  Validator.check (Validator.notEmpty p) "Phone number is required"
  ++ Validator.check (matchRe Regex.phoneRe p)
       "Please enter a valid phone number".

Definition validateStatus (st : string) : list string :=
  Validator.check (Validator.isIn statusEnum st) (enumMsg "status").

Definition validateFinancialInfo (f : option FinancialInfo) : list string :=
  match f with
  | Some fi =>
      match feeStructure fi with
      | Some c => Validator.check (Validator.isIn feeStructureEnum c)
                    (enumMsg "financialInfo.feeStructure")
      | None => []
      end
      ++ optNonNeg (totalFees fi) "Total fees cannot be negative"
      ++ optNonNeg (paidFees fi) "Paid fees cannot be negative"
      ++ optNonNeg (scholarshipAmount fi)
           "Scholarship amount cannot be negative"
  | None => []
  end.

Definition validateHostelInfo (h : option HostelInfo) : list string :=
  match h with
  | Some hi => optNonNeg (hostelFees hi) "Hostel fees cannot be negative"
  | None => []
  end.

(** The validation run by [student.save()]. *)
Definition validate (st : Student) : list string :=
  Validator.check (Validator.notEmpty (studentId st))
    "Student ID is required"
  ++ Validator.check (Validator.notEmpty (gender st)) "Gender is required"
  ++ Validator.check (Validator.isIn genderEnum (gender st)) (enumMsg "gender")
  ++ validatePhone (phone st)
  ++ validateAddress true (address st)
  ++ validateAcademicInfo true (academicInfo st)
  ++ validateGuardianInfo true (guardianInfo st)
  ++ validateEmergencyContact true (emergencyContact st)
  ++ validateFinancialInfo (financialInfo st)
  ++ validateHostelInfo (hostelInfo st)
  ++ validateStatus (status st).

(** The defaults of the schema for the paths the constructor is not
    given. *)
Definition addressDefaults : strobj := {[ "country" := "India" ]}.

Definition academicInfoDefaults : obj :=
  {[ "specialization" := JStr "";
     "cgpa" := JNum 0;
     "totalCredits" := JNum 0;
     "earnedCredits" := JNum 0;
     "attendancePercentage" := JNum 0 ]}.

Definition financialInfoDefault : FinancialInfo :=
  {| feeStructure := Some "general"; totalFees := Some 0;
     paidFees := Some 0; scholarshipAmount := Some 0 |}.

Definition hostelInfoDefault : HostelInfo :=
  {| hostelFees := Some 0; isHostelite := Some false |}.

(** [new Student({ userId, studentId, dateOfBirth, gender, phone, address,
    academicInfo, guardianInfo, emergencyContact })] at instant [now]; an
    absent nested object is the empty one. *)
Definition newStudent (now : Date) (uid : ObjectId) (sid : string)
  (dob : BirthDate) (g ph : string) (addr : option strobj)
  (acad : option obj) (guard emerg : option strobj) : Student :=
  {| userId := uid;
     studentId := sid;
     dateOfBirth := dob;
     gender := g;
     phone := ph;
     address := spread addressDefaults (default ∅ addr);
     academicInfo := spread academicInfoDefaults (default ∅ acad);
     guardianInfo := default ∅ guard;
     emergencyContact := default ∅ emerg;
     financialInfo := Some financialInfoDefault;
     hostelInfo := Some hostelInfoDefault;
     status := "active";
     enrollmentDate := now;
     graduationDate := None;
     createdAt := now |}.

End Schema.

(* ===================================================================== *)
(** * Queries on the collections *)
(* ===================================================================== *)

Module Query.

(** [Model.findOne(cond)]: some document satisfying the condition. *)
Definition findOne {A : Type} (cond : A → bool) (m : gmap ObjectId A)
  : option (ObjectId * A) :=
  head (filter (λ kv, cond kv.2 = true) (map_to_list m)).

(** [Model.countDocuments(cond)] *)
Definition countDocuments {A : Type} (cond : A → bool)
  (m : gmap ObjectId A) : nat :=
  size (filter (λ kv, cond kv.2 = true) m).

(** [Model.findOneAndDelete(cond)] *)
Definition findOneAndDelete {A : Type} (cond : A → bool)
  (m : gmap ObjectId A) : gmap ObjectId A :=
  match findOne cond m with
  | Some (k, _) => delete k m
  | None => m
  end.

End Query.

(* ===================================================================== *)
(** * Admin routes on Users and deletion ([src/routes/admin.js]) *)
(* ===================================================================== *)

Definition isAdmin (u : User) : bool := String.eqb (role u) "admin".
Definition isStudent (u : User) : bool := String.eqb (role u) "student".

(** [User.countDocuments({ role: 'admin' })] *)
Definition adminCount (s : Store) : nat :=
  Query.countDocuments isAdmin (users s).

(** The number of admin Users whose [isActive] flag is set. *)
Definition activeAdminCount (s : Store) : nat :=
  Query.countDocuments (λ u, isAdmin u && isActive u) (users s).

(** DELETE /api/admin/students/:id *)
Definition adminDeleteStudent (s : Store) (id : ObjectId) : Response * Store :=
  match students s !! id with
  | None => (failure 404 "Student not found", s)
  | Some student =>
      (* Delete student profile *)
      let s1 := set_students (delete id) s in
      (* Delete associated user *)
      let s2 := set_users (delete (userId student)) s1 in
      (success 200 "Student deleted successfully" None, s2)
  end.

(** DELETE /api/admin/users/:id *)
Definition deleteUser (s : Store) (userId' : ObjectId) : Response * Store :=
  match users s !! userId' with
  | None => (failure 404 "User not found", s)
  | Some user =>
      (* Check if user is the last admin *)
      if isAdmin user && (adminCount s <=? 1)%nat
      then (failure 400 "Cannot delete the last admin user", s)
      else
        let s1 := set_users (delete userId') s in
        (* If user was a student, also delete student profile *)
        let s2 :=
          if isStudent user
          then set_students
                 (Query.findOneAndDelete (λ st, N.eqb (userId st) userId')) s1
          else s1 in
        (success 200 "User deleted successfully" None, s2)
  end.

Module UpdateUser.

(** The body of PUT /api/admin/users/:id. *)
Record Body : Type := mkBody {
  firstName : option string;
  lastName : option string;
  email : option string;
  role : option string;
  isActive : option jsval
}.

(** [.isBoolean()] *)
Definition isBoolean (v : jsval) : bool :=
  match v with
  | JBool _ => true
  | JStr s => Validator.isIn ["true"; "false"; "1"; "0"] s
  | JNum n => (n =? 0) || (n =? 1)
  | JNull => false
  end.

End UpdateUser.

Section AdminUsers.
Context `{Externals}.

Definition validateUpdateUser (b : UpdateUser.Body) : list string :=
  Validator.optional (UpdateUser.firstName b)
    (λ v, Validator.check (Validator.notEmpty v) "First name cannot be empty")
  ++ Validator.optional (UpdateUser.lastName b)
    (λ v, Validator.check (Validator.notEmpty v) "Last name cannot be empty")
  ++ Validator.optional (UpdateUser.email b)
    (λ v, Validator.check (isEmail v) "Please provide a valid email")
  ++ Validator.optional (UpdateUser.role b)
    (λ v, Validator.check (Validator.isIn ["admin"; "student"] v)
            "Role must be either admin or student")
  ++ Validator.optional (UpdateUser.isActive b)
    (λ v, Validator.check (UpdateUser.isBoolean v)
            "isActive must be a boolean").

(** [if (x) updateData.x = x] followed by the update of that field. *)
Definition orKeep (new : option string) (old : string) : string :=
  if truthy_str new then default old new else old.

(** [User.findByIdAndUpdate(userId, updateData)] for the [updateData] the
    handler builds from the body. *)
Definition applyUserUpdate (b : UpdateUser.Body) (u : User) : User :=
  {| username := username u;
     email := orKeep (UpdateUser.email b) (email u);
     password := password u;
     firstName := orKeep (UpdateUser.firstName b) (firstName u);
     lastName := orKeep (UpdateUser.lastName b) (lastName u);
     role := orKeep (UpdateUser.role b) (role u);
     isActive :=
       match UpdateUser.isActive b with
       | Some (JBool v) => v        (* typeof isActive === 'boolean' *)
       | _ => isActive u
       end;
     lastLogin := lastLogin u |}.

(** PUT /api/admin/users/:id *)
Definition updateUser (s : Store) (userId' : ObjectId) (b : UpdateUser.Body)
  : Response * Store :=
  match validateUpdateUser b with
  | (_ :: _) as errs => (validationFailed errs, s)
  | [] =>
      match users s !! userId' with
      | None => (failure 404 "User not found", s)
      | Some user =>
          let taken :=
            match UpdateUser.email b with
            | Some e =>
                (* email && email !== user.email *)
                negb (String.eqb e "") && negb (String.eqb e (email user))
                && bool_decide
                     (is_Some (Query.findOne (λ u, String.eqb (email u) e)
                                 (users s)))
            | None => false
            end in
          if taken
          then (failure 400 "User with this email already exists", s)
          else
            let updatedUser := applyUserUpdate b user in
            (success 200 "User updated successfully"
               (Some (DataUser (getPublicProfile userId' updatedUser))),
             set_users (<[userId' := updatedUser]>) s)
      end
  end.

End AdminUsers.

(* ===================================================================== *)
(** * Admin routes on Students ([src/routes/admin.js]) *)
(* ===================================================================== *)

(** The four status values every route validator admits. *)
Definition routeStatuses : list string :=
  ["active"; "inactive"; "suspended"; "graduated"].

(** A nested field [o.k] of the body, absent when [o] is. *)
Definition field {V : Type} (o : option (gmap string V)) (k : string)
  : option V := o ≫= (λ m, m !! k).

Module CreateStudent.

(** The body of POST /api/admin/students.  A scalar that the body lacks is
    the empty string, which the validators treat alike. *)
Record Body : Type := mkBody {
  username : string;
  email : string;
  password : string;
  firstName : string;
  lastName : string;
  studentId : string;
  dateOfBirth : string;
  gender : string;
  phone : string;
  address : option strobj;
  academicInfo : option obj;
  guardianInfo : option strobj;
  emergencyContact : option strobj
}.

End CreateStudent.

Module UpdateStudent.

(** The body of PUT /api/admin/students/:id. *)
Record Body : Type := mkBody {
  firstName : option string;
  lastName : option string;
  email : option string;
  phone : option string;
  address : option strobj;
  academicInfo : option obj;
  guardianInfo : option strobj;
  emergencyContact : option strobj;
  status : option string
}.

End UpdateStudent.

(** [.notEmpty()] on a JSON value: its string form is not empty. *)
Definition notEmptyVal (v : jsval) : bool :=
  match v with
  | JStr s => Validator.notEmpty s
  | JNum _ | JBool _ => true
  | JNull => false
  end.

(** The [$set] that [Student.findByIdAndUpdate(id, data)] performs, for the
    update objects the handlers build: [None] leaves the path as it is. *)
Record StudentUpdate : Type := mkStudentUpdate {
  up_phone : option string;
  up_address : option strobj;
  up_academicInfo : option obj;
  up_guardianInfo : option strobj;
  up_emergencyContact : option strobj;
  up_status : option string;
  up_graduationDate : option Date
}.

Definition applyStudentUpdate (d : StudentUpdate) (st : Student) : Student :=
  {| userId := userId st;
     studentId := studentId st;
     dateOfBirth := dateOfBirth st;
     gender := gender st;
     phone := default (phone st) (up_phone d);
     address := default (address st) (up_address d);
     academicInfo := default (academicInfo st) (up_academicInfo d);
     guardianInfo := default (guardianInfo st) (up_guardianInfo d);
     emergencyContact := default (emergencyContact st) (up_emergencyContact d);
     financialInfo := financialInfo st;
     hostelInfo := hostelInfo st;
     status := default (status st) (up_status d);
     enrollmentDate := enrollmentDate st;
     graduationDate :=
       match up_graduationDate d with
       | Some t => Some t
       | None => graduationDate st
       end;
     createdAt := createdAt st |}.

(** The update validators ([runValidators: true]) on the paths of the
    update. *)
Definition validateStudentUpdate (d : StudentUpdate) : list string :=
  Validator.optional (up_phone d) Schema.validatePhone
  ++ Validator.optional (up_address d) (Schema.validateAddress false)
  ++ Validator.optional (up_academicInfo d) (Schema.validateAcademicInfo false)
  ++ Validator.optional (up_guardianInfo d) (Schema.validateGuardianInfo false)
  ++ Validator.optional (up_emergencyContact d)
       (Schema.validateEmergencyContact false)
  ++ Validator.optional (up_status d) Schema.validateStatus.

(** [if (x) data.x = x] for a string of the body. *)
Definition whenTruthy (o : option string) : option string :=
  if truthy_str o then o else None.

(** The graduation stamp shared by the two status-writing handlers:
    [if (status === 'graduated' && student.status !== 'graduated')
       data.graduationDate = new Date()]. *)
Definition graduationStamp (now : Date) (newStatus : option string)
  (student : Student) : option Date :=
  match newStatus with
  | Some st =>
      if String.eqb st "graduated"
         && negb (String.eqb (status student) "graduated")
      then Some now
      else None
  | None => None
  end.

(** PUT /api/admin/students/:id/status *)
Definition adminSetStatus (s : Store) (now : Date) (id : ObjectId)
  (status' : string) : Response * Store :=
  match Validator.check (Validator.isIn routeStatuses status')
          "Invalid status" with
  | (_ :: _) as errs => (validationFailed errs, s)
  | [] =>
      match students s !! id with
      | None => (failure 404 "Student not found", s)
      | Some student =>
          let updateData :=
            {| up_phone := None; up_address := None; up_academicInfo := None;
               up_guardianInfo := None; up_emergencyContact := None;
               up_status := Some status';
               up_graduationDate :=
                 graduationStamp now (Some status') student |} in
          let updatedStudent := applyStudentUpdate updateData student in
          (success 200 "Student status updated successfully"
             (Some (DataStudent id updatedStudent)),
           set_students (<[id := updatedStudent]>) s)
      end
  end.

Section AdminStudents.
Context `{Externals}.

Definition validateCreateStudent (b : CreateStudent.Body) : list string :=
  let addr := field (CreateStudent.address b) in
  let acad := field (CreateStudent.academicInfo b) in
  let guard := field (CreateStudent.guardianInfo b) in
  let emerg := field (CreateStudent.emergencyContact b) in
  Validator.check (Validator.isLength 3 (Some 30) (CreateStudent.username b))
    "Username must be between 3 and 30 characters"
  ++ Validator.check (isEmail (CreateStudent.email b))
       "Please provide a valid email"
  ++ Validator.check (Validator.isLength 6 None (CreateStudent.password b))
       "Password must be at least 6 characters long"
  ++ Validator.check (Validator.notEmpty (CreateStudent.firstName b))
       "First name is required"
  ++ Validator.check (Validator.notEmpty (CreateStudent.lastName b))
       "Last name is required"
  ++ Validator.check (Validator.notEmpty (CreateStudent.studentId b))
       "Student ID is required"
  ++ Validator.check (isISO8601 (CreateStudent.dateOfBirth b))
       "Please provide a valid date of birth"
  ++ Validator.check (Validator.isIn Schema.genderEnum (CreateStudent.gender b))
       "Gender must be male, female, or other"
  ++ Validator.check (Validator.isPhone (CreateStudent.phone b))
       "Please provide a valid phone number"
  ++ Validator.required (addr "street") Validator.notEmpty
       "Street address is required"
  ++ Validator.required (addr "city") Validator.notEmpty "City is required"
  ++ Validator.required (addr "state") Validator.notEmpty "State is required"
  ++ Validator.required (addr "zipCode") Validator.notEmpty
       "ZIP code is required"
  ++ Validator.required (acad "collegeName") notEmptyVal
       "College name is required"
  ++ Validator.required (acad "department") notEmptyVal
       "Department is required"
  ++ Validator.required (acad "course") notEmptyVal "Course is required"
  ++ Validator.optional (acad "specialization")
       (λ v, Validator.check (Validator.isStringVal v)
               "Specialization must be a string")
  ++ Validator.required (acad "year") (Validator.isIntBetween 1 (Some 5))
       "Year must be between 1 and 5"
  ++ Validator.required (acad "semester") (Validator.isIntBetween 1 (Some 8))
       "Semester must be between 1 and 8"
  ++ Validator.optional (acad "totalCredits")
       (λ v, Validator.check (Validator.isIntBetween 0 None v)
               "Total credits must be a positive number")
  ++ Validator.optional (acad "earnedCredits")
       (λ v, Validator.check (Validator.isIntBetween 0 None v)
               "Earned credits must be a positive number")
  ++ Validator.optional (acad "attendancePercentage")
       (λ v, Validator.check (Validator.isIntBetween 0 (Some 100) v)
               "Attendance percentage must be between 0 and 100")
  ++ Validator.required (guard "name") Validator.notEmpty
       "Guardian name is required"
  ++ Validator.required (guard "relationship") Validator.notEmpty
       "Relationship with guardian is required"
  ++ Validator.required (guard "phone") Validator.isPhone
       "Please provide a valid guardian phone number"
  ++ Validator.required (guard "email") isEmail
       "Please provide a valid guardian email"
  ++ Validator.required (emerg "name") Validator.notEmpty
       "Emergency contact name is required"
  ++ Validator.required (emerg "relationship") Validator.notEmpty
       "Relationship with emergency contact is required"
  ++ Validator.required (emerg "phone") Validator.isPhone
       "Please provide a valid emergency contact phone number".

(** [new User({ username, email, password, firstName, lastName, role })]
    as it is stored by [save()]. *)
Definition newUser (username' email' password' firstName' lastName'
  role' : string) (active : bool) : User :=
  {| username := username'; email := email';
     password := hashPassword password';
     firstName := firstName'; lastName := lastName';
     role := role'; isActive := active; lastLogin := None |}.

(** [User.findOne({ $or: [{ email }, { username }] })] *)
Definition existingUser (s : Store) (email' username' : string)
  : option (ObjectId * User) :=
  Query.findOne
    (λ u, String.eqb (email u) email' || String.eqb (username u) username')
    (users s).

(** POST /api/admin/students *)
Definition adminCreateStudent (s : Store) (now : Date)
  (b : CreateStudent.Body) : Response * Store :=
  match validateCreateStudent b with
  | (_ :: _) as errs => (validationFailed errs, s)
  | [] =>
      (* Check if user already exists *)
      if bool_decide (is_Some
           (existingUser s (CreateStudent.email b) (CreateStudent.username b)))
      then (failure 400 "User with this email or username already exists", s)
      else
      (* Check if student ID already exists *)
      if bool_decide (is_Some
           (Query.findOne
              (λ st, String.eqb (studentId st) (CreateStudent.studentId b))
              (students s)))
      then (failure 400 "Student with this ID already exists", s)
      else
        (* Create user first *)
        let user :=
          newUser (CreateStudent.username b) (CreateStudent.email b)
            (CreateStudent.password b) (CreateStudent.firstName b)
            (CreateStudent.lastName b) "student" defaultIsActive in
        let uid := newObjectId s in
        let s1 := set_users (<[uid := user]>) s in
        (* Create student profile *)
        let student :=
          Schema.newStudent now uid (CreateStudent.studentId b)
            (BirthISO (CreateStudent.dateOfBirth b))
            (CreateStudent.gender b) (CreateStudent.phone b)
            (CreateStudent.address b) (CreateStudent.academicInfo b)
            (CreateStudent.guardianInfo b)
            (CreateStudent.emergencyContact b) in
        match Schema.validate student with
        | (_ :: _) as err =>
            (* student.save() throws: the catch branch answers *)
            (serverError "Server error while creating student" err, s1)
        | [] =>
            let sid := newObjectId s1 in
            (success 201 "Student created successfully"
               (Some (DataStudent sid student)),
             set_students (<[sid := student]>) s1)
        end
  end.

Definition validateUpdateStudent (b : UpdateStudent.Body) : list string :=
  let acad := field (UpdateStudent.academicInfo b) in
  Validator.optional (UpdateStudent.firstName b)
    (λ v, Validator.check (Validator.notEmpty v) "First name cannot be empty")
  ++ Validator.optional (UpdateStudent.lastName b)
    (λ v, Validator.check (Validator.notEmpty v) "Last name cannot be empty")
  ++ Validator.optional (UpdateStudent.email b)
    (λ v, Validator.check (isEmail v) "Please provide a valid email")
  ++ Validator.optional (UpdateStudent.phone b)
    (λ v, Validator.check (Validator.isPhone v)
            "Please provide a valid phone number")
  ++ Validator.optional (acad "year")
    (λ v, Validator.check (Validator.isIntBetween 1 (Some 5) v)
            "Year must be between 1 and 5")
  ++ Validator.optional (acad "semester")
    (λ v, Validator.check (Validator.isIntBetween 1 (Some 8) v)
            "Semester must be between 1 and 8")
  ++ Validator.optional (acad "cgpa")
    (λ v, Validator.check (Validator.isIntBetween 0 (Some 10) v)
            "CGPA must be between 0 and 10")
  ++ Validator.optional (UpdateStudent.status b)
    (λ v, Validator.check (Validator.isIn routeStatuses v) "Invalid status").

(** The update of the owning User in PUT /api/admin/students/:id:
    [User.findByIdAndUpdate(student.userId, updateData)]. *)
Definition updateOwner (b : UpdateStudent.Body) (u : User) : User :=
  {| username := username u;
     email := orKeep (UpdateStudent.email b) (email u);
     password := password u;
     firstName := orKeep (UpdateStudent.firstName b) (firstName u);
     lastName := orKeep (UpdateStudent.lastName b) (lastName u);
     role := role u;
     isActive := isActive u;
     lastLogin := lastLogin u |}.

(** [studentUpdateData] of PUT /api/admin/students/:id. *)
Definition studentUpdateData (now : Date) (b : UpdateStudent.Body)
  (student : Student) : StudentUpdate :=
  {| up_phone := whenTruthy (UpdateStudent.phone b);
     up_address := UpdateStudent.address b;
     up_academicInfo :=
       spread (academicInfo student) <$> UpdateStudent.academicInfo b;
     up_guardianInfo :=
       spread (guardianInfo student) <$> UpdateStudent.guardianInfo b;
     up_emergencyContact :=
       spread (emergencyContact student) <$> UpdateStudent.emergencyContact b;
     up_status := whenTruthy (UpdateStudent.status b);
     up_graduationDate :=
       graduationStamp now (UpdateStudent.status b) student |}.

(** PUT /api/admin/students/:id *)
Definition adminUpdateStudent (s : Store) (now : Date) (id : ObjectId)
  (b : UpdateStudent.Body) : Response * Store :=
  match validateUpdateStudent b with
  | (_ :: _) as errs => (validationFailed errs, s)
  | [] =>
      match students s !! id with
      | None => (failure 404 "Student not found", s)
      | Some student =>
          (* Update user information *)
          let touchesUser :=
            truthy_str (UpdateStudent.firstName b)
            || truthy_str (UpdateStudent.lastName b)
            || truthy_str (UpdateStudent.email b) in
          let taken :=
            match UpdateStudent.email b with
            | Some e =>
                negb (String.eqb e "")
                && bool_decide (is_Some
                     (Query.findOne (λ u, String.eqb (email u) e)
                        (delete (userId student) (users s))))
            | None => false
            end in
          if touchesUser && taken
          then (failure 400 "Email is already taken by another user", s)
          else
            let s1 :=
              if touchesUser
              then set_users (alter (updateOwner b) (userId student)) s
              else s in
            (* Update student information *)
            let data := studentUpdateData now b student in
            match validateStudentUpdate data with
            | (_ :: _) as err =>
                (serverError "Server error while updating student" err, s1)
            | [] =>
                let updatedStudent := applyStudentUpdate data student in
                (success 200 "Student updated successfully"
                   (Some (DataStudent id updatedStudent)),
                 set_students (<[id := updatedStudent]>) s1)
            end
      end
  end.

End AdminStudents.

(* ===================================================================== *)
(** * Access-control middleware ([src/unnamed/part_001]) *)
(* ===================================================================== *)

(** [s.split(sep)] *)
Fixpoint split (sep : ascii) (s : string) : list string :=
  match s with
  | EmptyString => [""]
  | String c s' =>
      if Ascii.eqb c sep then "" :: split sep s'
      else match split sep s' with
           | w :: ws => String c w :: ws
           | [] => [String c ""]
           end
  end.

(** The bearer token of the [Authorization] header:
    [if (h && h.startsWith('Bearer')) token = h.split(' ')[1]], and [!token]
    when it is missing or empty. *)
Definition bearerToken (authorization : option string) : option string :=
  match authorization with
  | Some h =>
      if String.prefix "Bearer" h
      then match split " "%char h !! 1%nat with
           | Some t => if String.eqb t "" then None else Some t
           | None => None
           end
      else None
  | None => None
  end.

Section Middleware.
Context `{Externals}.

(** [protect]: either the response that ends the request or the user
    attached to it. *)
Definition protect (env : Env) (s : Store) (authorization : option string)
  : Response + (ObjectId * User) :=
  match bearerToken authorization with
  | None => inl (failure 401 "Access denied. No token provided.")
  | Some token =>
      match jwtVerify (JWT_SECRET env) token with
      | None => inl (failure 401 "Token is not valid.")
      | Some id =>
          match users s !! id with
          | None => inl (failure 401 "Token is not valid. User not found.")
          | Some user =>
              if negb (isActive user)
              then inl (failure 401
                "Account is deactivated. Please contact administrator.")
              else inr (id, user)
          end
      end
  end.

(** [authorize(...roles)] applied after [protect]. *)
Definition authorize (roles : list string) (user : User) : option Response :=
  if Validator.isIn roles (role user) then None
  else Some (failure 403
         ("User role '" ++ role user
          ++ "' is not authorized to access this route")).

Definition adminOnly := authorize ["admin"].
Definition studentOnly := authorize ["student"].
Definition bothRoles := authorize ["admin"; "student"].

(** [router.use(protect, guard)] in front of a handler. *)
Definition guarded (guard : User → option Response) (env : Env) (s : Store)
  (authorization : option string)
  (handler : ObjectId → User → Response * Store) : Response * Store :=
  match protect env s authorization with
  | inl r => (r, s)
  | inr (id, user) =>
      match guard user with
      | Some r => (r, s)
      | None => handler id user
      end
  end.

End Middleware.

(* ===================================================================== *)
(** * Student self-service route ([src/routes/student.js]) *)
(* ===================================================================== *)

Module UpdateProfile.

(** The fields PUT /api/student/profile reads from the body. *)
Record Body : Type := mkBody {
  phone : option string;
  address : option strobj;
  emergencyContact : option strobj
}.

End UpdateProfile.

Definition validateUpdateProfile (b : UpdateProfile.Body) : list string :=
  let addr := field (UpdateProfile.address b) in
  let emerg := field (UpdateProfile.emergencyContact b) in
  Validator.optional (UpdateProfile.phone b)
    (λ v, Validator.check (Validator.isPhone v)
            "Please provide a valid phone number")
  ++ Validator.optional (addr "street")
    (λ v, Validator.check (Validator.notEmpty v)
            "Street address cannot be empty")
  ++ Validator.optional (addr "city")
    (λ v, Validator.check (Validator.notEmpty v) "City cannot be empty")
  ++ Validator.optional (addr "state")
    (λ v, Validator.check (Validator.notEmpty v) "State cannot be empty")
  ++ Validator.optional (addr "zipCode")
    (λ v, Validator.check (Validator.notEmpty v) "ZIP code cannot be empty")
  ++ Validator.optional (emerg "name")
    (λ v, Validator.check (Validator.notEmpty v)
            "Emergency contact name cannot be empty")
  ++ Validator.optional (emerg "phone")
    (λ v, Validator.check (Validator.isPhone v)
            "Please provide a valid emergency contact phone number").

(** [updateData] of PUT /api/student/profile (only allowed fields). *)
Definition profileUpdateData (b : UpdateProfile.Body) (student : Student)
  : StudentUpdate :=
  {| up_phone := whenTruthy (UpdateProfile.phone b);
     up_address := spread (address student) <$> UpdateProfile.address b;
     up_academicInfo := None;
     up_guardianInfo := None;
     up_emergencyContact :=
       spread (emergencyContact student) <$> UpdateProfile.emergencyContact b;
     up_status := None;
     up_graduationDate := None |}.


(** PUT /api/student/profile for the authenticated user [caller]
    ([req.user._id]). *)
Definition updateOwnProfile (s : Store) (caller : ObjectId)
  (b : UpdateProfile.Body) : Response * Store :=
  match validateUpdateProfile b with
  | (_ :: _) as errs => (validationFailed errs, s)
  | [] =>
      match Query.findOne (λ st, N.eqb (userId st) caller) (students s) with
      | None => (failure 404 "Student profile not found", s)
      | Some (id, student) =>
          let updateData := profileUpdateData b student in
          match validateStudentUpdate updateData with
          | (_ :: _) as err =>
              (serverError "Server error while updating profile" err, s)
          | [] =>
              let updatedStudent := applyStudentUpdate updateData student in
              (success 200 "Profile updated successfully"
                 (Some (DataStudent id updatedStudent)),
               set_students (<[id := updatedStudent]>) s)
          end
      end
  end.

(* ===================================================================== *)
(** * Authentication routes ([src/routes/auth.js]) *)
(* ===================================================================== *)

Module Register.

(** [req.body.studentData] *)
Record StudentData : Type := mkStudentData {
  studentId : option string;
  dateOfBirth : option string;
  gender : option string;
  phone : option string;
  address : option strobj;
  academicInfo : option obj;
  guardianInfo : option strobj;
  emergencyContact : option strobj
}.

Definition noStudentData : StudentData :=
  {| studentId := None; dateOfBirth := None; gender := None; phone := None;
     address := None; academicInfo := None; guardianInfo := None;
     emergencyContact := None |}.

(** The body of POST /api/auth/register (also of POST /api/admin/users,
    which ignores [studentData]). *)
Record Body : Type := mkBody {
  username : string;
  email : string;
  password : string;
  firstName : string;
  lastName : string;
  role : string;
  studentData : option StudentData
}.

Definition isSpace (c : ascii) : bool :=
  let n := nat_of_ascii c in
  ((9 <=? n)%nat && (n <=? 13)%nat) || (n =? 32)%nat.

(** [String(v).trim() !== ''] *)
Fixpoint notBlank (s : string) : bool :=
  match s with
  | EmptyString => false
  | String c s' => if isSpace c then notBlank s' else true
  end.

(** [nonEmpty(v, fallback)] *)
Definition nonEmpty (v : option string) (fallback : string) : string :=
  match v with
  | Some s => if notBlank s then s else fallback
  | None => fallback
  end.

(** The placeholder objects of the handler. *)
Definition addressFallback : strobj :=
  {[ "street" := "N/A"; "city" := "N/A"; "state" := "N/A";
     "zipCode" := "000000"; "country" := "India" ]}.

Definition academicInfoFallback : obj :=
  {[ "department" := JStr "N/A"; "course" := JStr "N/A";
     "collegeName" := JStr "N/A"; "year" := JNum 1; "semester" := JNum 1;
     "cgpa" := JNum 0 ]}.

Definition guardianInfoFallback : strobj :=
  {[ "name" := "N/A"; "relationship" := "N/A"; "phone" := "0000000000";
     "email" := "na@example.com" ]}.

Definition emergencyContactFallback : strobj :=
  {[ "name" := "N/A"; "relationship" := "N/A"; "phone" := "0000000000" ]}.

(** [x || fallback] on an optional nested object of the body. *)
Definition orObj {V : Type} (x : option (gmap string V))
  (fallback : gmap string V) : gmap string V := default fallback x.

(** The Student built for a registering student. *)
Definition studentOf (now : Date) (uid : ObjectId) (d : StudentData)
  : Student :=
  Schema.newStudent now uid
    (nonEmpty (studentId d) ("STU" ++ pretty now))
    (if truthy_str (dateOfBirth d)
     then BirthISO (default "" (dateOfBirth d)) else BirthAt now)
    (nonEmpty (gender d) "other")
    (nonEmpty (phone d) "0000000000")
    (Some (orObj (address d) addressFallback))
    (Some (orObj (academicInfo d) academicInfoFallback))
    (Some (orObj (guardianInfo d) guardianInfoFallback))
    (Some (orObj (emergencyContact d) emergencyContactFallback)).

End Register.

Module Profile.

(** The body of PUT /api/auth/profile. *)
Record Body : Type := mkBody {
  firstName : option string;
  lastName : option string;
  email : option string
}.

End Profile.

Section Auth.
Context `{Externals}.

(** [generateToken(id)]; signing throws without a secret. *)
Definition generateToken (env : Env) (id : ObjectId) : option string :=
  (λ secret, jwtSign secret id) <$> JWT_SECRET env.

(** The validation chain shared by POST /api/auth/register and
    POST /api/admin/users. *)
Definition validateRegister (b : Register.Body) : list string :=
  Validator.check (Validator.isLength 3 (Some 30) (Register.username b))
    "Username must be between 3 and 30 characters"
  ++ Validator.check (Validator.isAlphanumeric (Register.username b))
       "Username must contain only letters and numbers"
  ++ Validator.check (isEmail (Register.email b))
       "Please provide a valid email"
  ++ Validator.check (Validator.isLength 6 None (Register.password b))
       "Password must be at least 6 characters long"
  ++ Validator.check (Validator.notEmpty (Register.firstName b))
       "First name is required"
  ++ Validator.check (Validator.notEmpty (Register.lastName b))
       "Last name is required"
  ++ Validator.check (Validator.isIn ["admin"; "student"] (Register.role b))
       "Role must be either admin or student".

(** [isFirstAdmin] of the register handler. *)
Definition isFirstAdmin (s : Store) (role' : string) : bool :=
  String.eqb role' "admin" && (adminCount s =? 0)%nat.

(** The authentication block of the register handler, entered when
    [!isFirstAdmin && role !== 'student']: [None] lets the request
    proceed. *)
Definition registerAuth (env : Env) (s : Store)
  (authorization : option string) : option Response :=
  match bearerToken authorization with
  | None => Some (failure 401 "Authentication required to register new users")
  | Some token =>
      match jwtVerify (JWT_SECRET env) token with
      | None => Some (failure 401 "Invalid authentication token")
      | Some id =>
          match users s !! id with
          | Some currentUser =>
              if isAdmin currentUser then None
              else Some (failure 403 "Only admins can register new users")
          | None => Some (failure 403 "Only admins can register new users")
          end
      end
  end.

(** The second half of the register handler, from the uniqueness check to
    the response. *)
Definition registerAccount (env : Env) (s : Store) (now : Date)
  (b : Register.Body) (firstAdmin : bool) : Response * Store :=
  let role' := Register.role b in
  (* Check if user already exists *)
  if bool_decide (is_Some
       (existingUser s (Register.email b) (Register.username b)))
  then (failure 400 "User with this email or username already exists", s)
  else
    (* Create new user *)
    let user :=
      newUser (Register.username b) (Register.email b)
        (Register.password b) (Register.firstName b)
        (Register.lastName b) role' defaultIsActive in
    let uid := newObjectId s in
    let s1 := set_users (<[uid := user]>) s in
    (* If student, create student profile *)
    let created : list string + Store :=
      if String.eqb role' "student"
      then
        let student :=
          Register.studentOf now uid
            (default Register.noStudentData (Register.studentData b)) in
        match Schema.validate student with
        | (_ :: _) as err => inl err
        | [] => inr (set_students (<[newObjectId s1 := student]>) s1)
        end
      else inr s1 in
    match created with
    | inl err => (serverError "Server error during registration" err, s1)
    | inr s2 =>
        (* Generate token *)
        match generateToken env uid with
        | None =>
            (failure 500 "Server configuration error: JWT_SECRET missing", s2)
        | Some token =>
            (success 201
               (if firstAdmin
                then "First admin user registered successfully"
                else "User registered successfully")
               (Some (DataSession (getPublicProfile uid user) token
                        (Some firstAdmin))),
             s2)
        end
    end.

(** POST /api/auth/register *)
Definition register (env : Env) (s : Store) (now : Date)
  (authorization : option string) (b : Register.Body) : Response * Store :=
  (* Check database connection *)
  if negb (readyState env =? 1)
  then (failure 500 "Database connection error", s)
  else
  match validateRegister b with
  | (_ :: _) as errs => (validationFailed errs, s)
  | [] =>
      let role' := Register.role b in
      let firstAdmin := isFirstAdmin s role' in
      let denied :=
        if negb firstAdmin && negb (String.eqb role' "student")
        then registerAuth env s authorization
        else None in
      match denied with
      | Some r => (r, s)
      | None => registerAccount env s now b firstAdmin
      end
  end.

(** POST /api/auth/login *)
Definition login (env : Env) (s : Store) (now : Date)
  (email' password' : string) : Response * Store :=
  match (Validator.check (isEmail email') "Please provide a valid email"
         ++ Validator.check (Validator.notEmpty password')
              "Password is required")%list with
  | (_ :: _) as errs => (validationFailed errs, s)
  | [] =>
      (* Find user by email and include password *)
      match Query.findOne (λ u, String.eqb (email u) email') (users s) with
      | None => (failure 401 "Invalid credentials", s)
      | Some (id, user) =>
          (* Check if user is active *)
          if negb (isActive user)
          then (failure 401
                  "Account is deactivated. Please contact administrator.", s)
          else
          (* Check password *)
          if negb (comparePassword user password')
          then (failure 401 "Invalid credentials", s)
          else
            (* Update last login *)
            let user' :=
              {| username := username user; email := email user;
                 password := password user; firstName := firstName user;
                 lastName := lastName user; role := role user;
                 isActive := isActive user; lastLogin := Some now |} in
            let s1 := set_users (<[id := user']>) s in
            match generateToken env id with
            | None => (serverError "Server error during login" [], s1)
            | Some token =>
                (success 200 "Login successful"
                   (Some (DataSession (getPublicProfile id user') token None)),
                 s1)
            end
      end
  end.

(** [x || old] on a string of the body. *)
Definition orOld (x : option string) (old : string) : string :=
  orKeep x old.

(** PUT /api/auth/profile for the authenticated user. *)
Definition updateProfile (s : Store) (caller : ObjectId) (reqUser : User)
  (b : Profile.Body) : Response * Store :=
  match
    (Validator.optional (Profile.firstName b)
       (λ v, Validator.check (Validator.notEmpty v)
               "First name cannot be empty")
     ++ Validator.optional (Profile.lastName b)
       (λ v, Validator.check (Validator.notEmpty v)
               "Last name cannot be empty")
     ++ Validator.optional (Profile.email b)
       (λ v, Validator.check (isEmail v) "Please provide a valid email"))%list
  with
  | (_ :: _) as errs => (validationFailed errs, s)
  | [] =>
      let taken :=
        match Profile.email b with
        | Some e =>
            negb (String.eqb e "") && negb (String.eqb e (email reqUser))
            && bool_decide (is_Some
                 (Query.findOne (λ u, String.eqb (email u) e) (users s)))
        | None => false
        end in
      if taken then (failure 400 "Email is already taken", s)
      else
        let set (u : User) : User :=
          {| username := username u;
             email := orOld (Profile.email b) (email reqUser);
             password := password u;
             firstName := orOld (Profile.firstName b) (firstName reqUser);
             lastName := orOld (Profile.lastName b) (lastName reqUser);
             role := role u; isActive := isActive u;
             lastLogin := lastLogin u |} in
        (success 200 "Profile updated successfully"
           (Some (DataUser (getPublicProfile caller (set reqUser)))),
         set_users (alter set caller) s)
  end.

(** POST /api/auth/change-password for the authenticated user. *)
Definition changePassword (s : Store) (caller : ObjectId)
  (currentPassword newPassword : string) : Response * Store :=
  match
    (Validator.check (Validator.notEmpty currentPassword)
       "Current password is required"
     ++ Validator.check (Validator.isLength 6 None newPassword)
          "New password must be at least 6 characters long")%list
  with
  | (_ :: _) as errs => (validationFailed errs, s)
  | [] =>
      match users s !! caller with
      | None => (serverError "Server error while changing password" [], s)
      | Some user =>
          if negb (comparePassword user currentPassword)
          then (failure 400 "Current password is incorrect", s)
          else
            let user' :=
              {| username := username user; email := email user;
                 password := hashPassword newPassword;
                 firstName := firstName user; lastName := lastName user;
                 role := role user; isActive := isActive user;
                 lastLogin := lastLogin user |} in
            (success 200 "Password changed successfully" None,
             set_users (<[caller := user']>) s)
      end
  end.

(** POST /api/admin/users *)
Definition createUser (s : Store) (b : Register.Body) : Response * Store :=
  match validateRegister b with
  | (_ :: _) as errs => (validationFailed errs, s)
  | [] =>
      if bool_decide (is_Some
           (existingUser s (Register.email b) (Register.username b)))
      then (failure 400 "User with this email or username already exists", s)
      else
        let user :=
          newUser (Register.username b) (Register.email b)
            (Register.password b) (Register.firstName b)
            (Register.lastName b) (Register.role b) true in
        let uid := newObjectId s in
        (success 201 "User created successfully"
           (Some (DataUser (getPublicProfile uid user))),
         set_users (<[uid := user]>) s)
  end.

End Auth.

(* ===================================================================== *)
(** * Listing students (GET /api/admin/students) *)
(* ===================================================================== *)

Module ListStudents.

(** [req.query] *)
Module Req.
Record QueryString : Type := mkQuery {
  page : option string;
  limit : option string;
  search : option string;
  department : option string;
  status : option string;
  year : option string
}.
End Req.

(** ** Decimal strings *)

Definition digitValue (c : ascii) : Z := Z.of_nat (nat_of_ascii c) - 48.

Fixpoint digitsValue (acc : Z) (s : string) : option Z :=
  match s with
  | EmptyString => Some acc
  | String c s' =>
      if Regex.is_digit c then digitsValue (10 * acc + digitValue c) s'
      else None
  end.

(** The integer denoted by a string of the form [[-+]?[0-9]+], which is
    what [.isInt()] admits and what [parseInt] then reads. *)
Definition parseInt (s : string) : option Z :=
  match s with
  | EmptyString => None
  | String c s' =>
      if Ascii.eqb c "-"%char
      then match s' with
           | EmptyString => None
           | _ => Z.opp <$> digitsValue 0 s'
           end
      else if Ascii.eqb c "+"%char
      then match s' with
           | EmptyString => None
           | _ => digitsValue 0 s'
           end
      else digitsValue 0 s
  end.

(** [.isInt({ min, max })] on a query-string value. *)
Definition isInt (lo : Z) (hi : option Z) (s : string) : bool :=
  match parseInt s with
  | Some n => (lo <=? n) && match hi with Some h => n <=? h | None => true end
  | None => false
  end.

(** The validation chain of the route; [search] and [department] are only
    required to be strings, which a query-string value is. *)
Definition validateQuery (q : Req.QueryString) : list string :=
  Validator.optional (Req.page q)
    (λ v, Validator.check (isInt 1 None v) "Page must be a positive integer")
  ++ Validator.optional (Req.limit q)
    (λ v, Validator.check (isInt 1 (Some 100) v)
            "Limit must be between 1 and 100")
  ++ Validator.optional (Req.status q)
    (λ v, Validator.check (Validator.isIn routeStatuses v) "Invalid status")
  ++ Validator.optional (Req.year q)
    (λ v, Validator.check (isInt 1 (Some 5) v)
            "Year must be between 1 and 5").

(** [parseInt(x) || d] *)
Definition intOr (x : option string) (d : Z) : Z :=
  num_or (x ≫= parseInt) d.

(** ** The filter object *)

Inductive Cond : Type :=
| Regex (pattern : string) (options : string)   (* { $regex, $options } *)
| Equals (v : jsval).

Inductive Clause : Type :=
| Path (path : list string) (c : Cond)
| Or (alternatives : list (list string * Cond)).   (* $or of one-path objects *)

(** [filter], a conjunction of clauses. *)
Definition buildFilter (q : Req.QueryString) : list Clause :=
  (if truthy_str (Req.search q)
   then let s := default "" (Req.search q) in
        [Or [ (["studentId"], Regex s "i");
              (["userId"; "firstName"], Regex s "i");
              (["userId"; "lastName"], Regex s "i");
              (["userId"; "email"], Regex s "i") ]]
   else [])
  ++ (if truthy_str (Req.department q)
      then [Path ["academicInfo"; "department"]
              (Regex (default "" (Req.department q)) "i")]
      else [])
  ++ (if truthy_str (Req.status q)
      then [Path ["status"] (Equals (JStr (default "" (Req.status q))))]
      else [])
  ++ (if truthy_str (Req.year q)
      then [Path ["academicInfo"; "year"]
              (Equals (JNum (default 0 (Req.year q ≫= parseInt))))]
      else []).

(** ** Evaluation of a filter by the document store

    [Student.find(filter)] is evaluated on the Student documents as they
    are stored; [populate] joins the owning User into the results only
    afterwards.  In a stored Student, [userId] is an [ObjectId]. *)

(** A value found at a path of a stored document. *)
Inductive Stored : Type :=
| Value (v : jsval)
| Ref (id : ObjectId).

#[global] Instance Stored_eq_dec : EqDecision Stored.
Proof. solve_decision. Defined.

(** The value at a dotted path of a stored Student, if the path leads to
    one. *)
Definition resolve (st : Student) (path : list string) : option Stored :=
  match path with
  | ["studentId"] => Some (Value (JStr (studentId st)))
  | ["gender"] => Some (Value (JStr (gender st)))
  | ["phone"] => Some (Value (JStr (phone st)))
  | ["status"] => Some (Value (JStr (status st)))
  | ["userId"] => Some (Ref (userId st))
  | ["address"; k] => Value ∘ JStr <$> address st !! k
  | ["academicInfo"; k] => Value <$> academicInfo st !! k
  | ["guardianInfo"; k] => Value ∘ JStr <$> guardianInfo st !! k
  | ["emergencyContact"; k] => Value ∘ JStr <$> emergencyContact st !! k
  | _ => None
  end.

(** ** Patterns

    A [$regex] pattern is a string.  The patterns decided here are the
    ones without metacharacters, which denote themselves; with option
    [i] letters match in either case.  For any other pattern the result is
    [None]. *)

Definition isMeta (c : ascii) : bool :=
  existsb (Ascii.eqb c)
    (list_ascii_of_string "\^$.|?*+()[]{}").

Definition lower (c : ascii) : ascii :=
  if Regex.is_upper c then ascii_of_nat (nat_of_ascii c + 32) else c.

Definition sameChar (ci : bool) (x c : ascii) : bool :=
  if ci then Ascii.eqb (lower c) (lower x) else Ascii.eqb c x.

Fixpoint literal (ci : bool) (pattern : string) : option Regex.re :=
  match pattern with
  | EmptyString => Some Regex.Eps
  | String c p' =>
      if isMeta c then None
      else Regex.Cat (Regex.Class (sameChar ci c)) <$> literal ci p'
  end.

Definition anywhere (r : Regex.re) : Regex.re :=
  let any := Regex.Star (Regex.Class (λ _, true)) in
  Regex.Cat any (Regex.Cat r any).

(** Does the (unanchored) pattern match somewhere in [subject]? *)
Definition regexMatch (pattern options subject : string) : option bool :=
  (λ r, Regex.test (anywhere r) subject)
  <$> literal (String.eqb options "i") pattern.

Definition condHolds (c : Cond) (v : option Stored) : option bool :=
  match c with
  | Regex pattern options =>
      match v with
      | Some (Value (JStr subject)) => regexMatch pattern options subject
      | _ => (λ _, false) <$> regexMatch pattern options ""
      end
  | Equals x => Some (bool_decide (v = Some (Value x)))
  end.

Definition clauseHolds (st : Student) (c : Clause) : option bool :=
  match c with
  | Path path cond => condHolds cond (resolve st path)
  | Or alternatives =>
      existsb id
      <$> mapM (λ pc : list string * Cond, condHolds pc.2 (resolve st pc.1))
            alternatives
  end.

(** Does the stored document satisfy every clause of the filter? *)
Definition matches (filter : list Clause) (st : Student) : option bool :=
  forallb id <$> mapM (clauseHolds st) filter.

(** [Student.find(filter)] *)
Definition find (filter : list Clause) (m : gmap ObjectId Student)
  : option (list (ObjectId * Student)) :=
  omap (λ x : ObjectId * Student * bool, if x.2 then Some x.1 else None)
  <$> mapM (λ kv : ObjectId * Student, pair kv <$> matches filter kv.2)
        (map_to_list m).

(** [.sort({ createdAt: -1 })] *)
Definition newerOrSame (a b : ObjectId * Student) : Prop :=
  createdAt b.2 ≤ createdAt a.2.

#[global] Instance newerOrSame_dec : RelDecision newerOrSame.
Proof. intros a b. unfold newerOrSame. apply _. Defined.

Definition newestFirst (l : list (ObjectId * Student))
  : list (ObjectId * Student) :=
  merge_sort newerOrSame l.

(** [Math.ceil(total / limit)] for a positive [limit]. *)
Definition ceilDiv (total limit : Z) : Z := (total + limit - 1) / limit.

End ListStudents.

(** GET /api/admin/students.  The store is only read; the result is [None]
    when a pattern of the query is outside the ones decided by
    [ListStudents.regexMatch]. *)
Definition adminListStudents (s : Store) (q : ListStudents.Req.QueryString)
  : option Response :=
  match ListStudents.validateQuery q with
  | (_ :: _) as errs => Some (validationFailed errs)
  | [] =>
      let page := ListStudents.intOr (ListStudents.Req.page q) 1 in
      let limit := ListStudents.intOr (ListStudents.Req.limit q) 10 in
      let skip := (page - 1) * limit in
      let filter := ListStudents.buildFilter q in
      found ← ListStudents.find filter (students s);
      let students' :=
        take (Z.to_nat limit)
          (drop (Z.to_nat skip) (ListStudents.newestFirst found)) in
      let total := Z.of_nat (length found) in
      Some (successData 200
              (DataStudents students' page
                 (ListStudents.ceilDiv total limit) total
                 (page <? ListStudents.ceilDiv total limit)
                 (1 <? page)))
  end.

(** The filter as the specification words it: a case-insensitive substring
    match of [search] on [studentId] or on the owning User's [firstName],
    [lastName] or [email] (OR-combined), a substring match on the
    department, and exact matches on status and year. *)
Module ListSpec.

Fixpoint prefixI (p s : string) : bool :=
  match p, s with
  | EmptyString, _ => true
  | String a p', String b s' =>
      Ascii.eqb (ListStudents.lower a) (ListStudents.lower b) && prefixI p' s'
  | String _ _, EmptyString => false
  end.

(** [s] contains [sub], letter case ignored. *)
Fixpoint containsI (sub s : string) : bool :=
  prefixI sub s
  || match s with
     | EmptyString => false
     | String _ s' => containsI sub s'
     end.

Definition searchHit (s : Store) (sub : string) (st : Student) : bool :=
  containsI sub (studentId st)
  || match users s !! userId st with
     | Some u =>
         containsI sub (firstName u) || containsI sub (lastName u)
         || containsI sub (email u)
     | None => false
     end.

Definition selected (s : Store) (q : ListStudents.Req.QueryString)
  (st : Student) : bool :=
  (if truthy_str (ListStudents.Req.search q)
   then searchHit s (default "" (ListStudents.Req.search q)) st else true)
  && (if truthy_str (ListStudents.Req.department q)
      then match academicInfo st !! "department" with
           | Some (JStr d) =>
               containsI (default "" (ListStudents.Req.department q)) d
           | _ => false
           end
      else true)
  && (if truthy_str (ListStudents.Req.status q)
      then String.eqb (status st) (default "" (ListStudents.Req.status q))
      else true)
  && (if truthy_str (ListStudents.Req.year q)
      then bool_decide
             (academicInfo st !! "year"
              = JNum <$> (ListStudents.Req.year q ≫= ListStudents.parseInt))
      else true).

End ListSpec.

(* ===================================================================== *)
(** * The API as a transition system *)
(* ===================================================================== *)

(** The requests that can change the store, with their [Authorization]
    header where the route is guarded. *)
Inductive Request : Type :=
| PostRegister (authorization : option string) (b : Register.Body)
| PostLogin (email password : string)
| PutProfile (authorization : option string) (b : Profile.Body)
| PostChangePassword (authorization : option string)
    (currentPassword newPassword : string)
| PostAdminStudents (authorization : option string) (b : CreateStudent.Body)
| PutAdminStudent (authorization : option string) (id : ObjectId)
    (b : UpdateStudent.Body)
| DeleteAdminStudent (authorization : option string) (id : ObjectId)
| PutAdminStudentStatus (authorization : option string) (id : ObjectId)
    (status : string)
| PostAdminUsers (authorization : option string) (b : Register.Body)
| PutAdminUser (authorization : option string) (id : ObjectId)
    (b : UpdateUser.Body)
| DeleteAdminUser (authorization : option string) (id : ObjectId)
| PutStudentProfile (authorization : option string) (b : UpdateProfile.Body).

Section Api.
Context `{Externals}.

(** One request served at instant [now]. *)
Definition handle (env : Env) (s : Store) (now : Date) (r : Request)
  : Response * Store :=
  match r with
  | PostRegister a b => register env s now a b
  | PostLogin e p => login env s now e p
  | PutProfile a b =>
      guarded bothRoles env s a (λ id u, updateProfile s id u b)
  | PostChangePassword a c n =>
      guarded bothRoles env s a (λ id _, changePassword s id c n)
  | PostAdminStudents a b =>
      guarded adminOnly env s a (λ _ _, adminCreateStudent s now b)
  | PutAdminStudent a id b =>
      guarded adminOnly env s a (λ _ _, adminUpdateStudent s now id b)
  | DeleteAdminStudent a id =>
      guarded adminOnly env s a (λ _ _, adminDeleteStudent s id)
  | PutAdminStudentStatus a id st =>
      guarded adminOnly env s a (λ _ _, adminSetStatus s now id st)
  | PostAdminUsers a b =>
      guarded adminOnly env s a (λ _ _, createUser s b)
  | PutAdminUser a id b =>
      guarded adminOnly env s a (λ _ _, updateUser s id b)
  | DeleteAdminUser a id =>
      guarded adminOnly env s a (λ _ _, deleteUser s id)
  | PutStudentProfile a b =>
      guarded studentOnly env s a (λ id _, updateOwnProfile s id b)
  end.

(** The store after a sequence of timed requests. *)
Fixpoint run (env : Env) (s : Store) (trace : list (Date * Request)) : Store :=
  match trace with
  | [] => s
  | (now, r) :: rest => run env (handle env s now r).2 rest
  end.

End Api.

(** No Student carries the status ['transferred'] or ['dropped']. *)
Definition statusInvariant (s : Store) : Prop :=
  ∀ id st, students s !! id = Some st →
    status st ≠ "transferred" ∧ status st ≠ "dropped".

(* ===================================================================== *)
(** * Sample documents for the examples *)
(* ===================================================================== *)

(** A student record with the given financial and hostel information. *)
Definition feeStudent (fi : option FinancialInfo) (hi : option HostelInfo)
  : Student :=
  {| userId := 1%N; studentId := "STU1"; dateOfBirth := BirthAt 0;
     gender := "other"; phone := "9876543210"; address := ∅;
     academicInfo := ∅; guardianInfo := ∅; emergencyContact := ∅;
     financialInfo := fi; hostelInfo := hi; status := "active";
     enrollmentDate := 0; graduationDate := None; createdAt := 0 |}.

Definition sampleUser (name first mail role' : string) (active : bool)
  : User :=
  {| username := name; email := mail; password := "hash:secret1";
     firstName := first; lastName := "Last"; role := role';
     isActive := active; lastLogin := None |}.

Definition sampleAddress : strobj :=
  {[ "street" := "1 Main Road"; "city" := "Pune"; "state" := "MH";
     "zipCode" := "411001"; "country" := "India" ]}.

Definition sampleAcademicInfo : obj :=
  {[ "collegeName" := JStr "VDCET"; "department" := JStr "CSE";
     "course" := JStr "BTech"; "year" := JNum 2; "semester" := JNum 3 ]}.

Definition sampleGuardianInfo : strobj :=
  {[ "name" := "G"; "relationship" := "parent"; "phone" := "9876543211";
     "email" := "g@mail.com" ]}.

Definition sampleEmergencyContact : strobj :=
  {[ "name" := "E"; "relationship" := "uncle"; "phone" := "9876543212" ]}.

Definition sampleStudent (uid : ObjectId) (sid : string) : Student :=
  {| userId := uid; studentId := sid; dateOfBirth := BirthISO "2001-02-03";
     gender := "female"; phone := "9876543210";
     address := sampleAddress;
     academicInfo := sampleAcademicInfo;
     guardianInfo := sampleGuardianInfo;
     emergencyContact := sampleEmergencyContact;
     financialInfo := Some Schema.financialInfoDefault;
     hostelInfo := Some Schema.hostelInfoDefault;
     status := "active"; enrollmentDate := 100; graduationDate := None;
     createdAt := 100 |}.

(** One admin (id 1) and one student user (id 2) with her record (id 3). *)
Definition sampleStore : Store :=
  {| users :=
       {[ 1%N := sampleUser "root" "Ravi" "root@college.com" "admin" true;
          2%N := sampleUser "asha" "Asha" "asha@college.com" "student" true ]};
     students := {[ 3%N := sampleStudent 2 "STU1" ]} |}.

(** Stand-ins for the library primitives, to run the handlers on the
    samples: an address is accepted when it has the shape [x@y.tld], a date
    when it is not empty, the hash of [p] is [hash:p] and the token of the
    user [n] is [t.n]. *)
Definition sampleExternals : Externals :=
  {| isEmail := Regex.test Regex.guardianEmailRe;
     isISO8601 := Validator.notEmpty;
     hashPassword := λ p, "hash:" ++ p;
     comparePassword := λ u p, String.eqb (password u) ("hash:" ++ p);
     jwtSign := λ _ id, "t." ++ pretty id;
     jwtVerify := λ secret token,
       match secret, split "."%char token with
       | Some _, ["t"; n] => Z.to_N <$> ListStudents.parseInt n
       | _, _ => None
       end;
     defaultIsActive := true |}.

Definition sampleEnv : Env := {| JWT_SECRET := Some "k"; readyState := 1 |}.

(** A body for POST /api/admin/students that passes the route validators;
    [cgpa] is not among the fields the route validates. *)
Definition sampleCreateBody (cgpa : Z) : CreateStudent.Body :=
  {| CreateStudent.username := "meera";
     CreateStudent.email := "meera@college.com";
     CreateStudent.password := "secret1";
     CreateStudent.firstName := "Meera";
     CreateStudent.lastName := "Rao";
     CreateStudent.studentId := "STU2";
     CreateStudent.dateOfBirth := "2002-05-06";
     CreateStudent.gender := "female";
     CreateStudent.phone := "9876500000";
     CreateStudent.address := Some sampleAddress;
     CreateStudent.academicInfo :=
       Some (<["cgpa" := JNum cgpa]> sampleAcademicInfo);
     CreateStudent.guardianInfo := Some sampleGuardianInfo;
     CreateStudent.emergencyContact := Some sampleEmergencyContact |}.

(** The query [?search=<s>]. *)
Definition searchQuery (s : string) : ListStudents.Req.QueryString :=
  {| ListStudents.Req.page := None; ListStudents.Req.limit := None;
     ListStudents.Req.search := Some s; ListStudents.Req.department := None;
     ListStudents.Req.status := None; ListStudents.Req.year := None |}.

(** The body [{ status: st }] for PUT /api/admin/students/:id. *)
Definition statusOnlyBody (st : string) : UpdateStudent.Body :=
  {| UpdateStudent.firstName := None; UpdateStudent.lastName := None;
     UpdateStudent.email := None; UpdateStudent.phone := None;
     UpdateStudent.address := None; UpdateStudent.academicInfo := None;
     UpdateStudent.guardianInfo := None;
     UpdateStudent.emergencyContact := None;
     UpdateStudent.status := Some st |}.


(** The body [{ address: { city: "X" } }] of the specification's example. *)
Definition cityOnlyBody : UpdateProfile.Body :=
  {| UpdateProfile.phone := None;
     UpdateProfile.address := Some {[ "city" := "X" ]};
     UpdateProfile.emergencyContact := None |}.

(** A registration body for the role [role']. *)
Definition sampleRegisterBody (name mail role' : string) : Register.Body :=
  {| Register.username := name; Register.email := mail;
     Register.password := "secret1"; Register.firstName := "First";
     Register.lastName := "Last"; Register.role := role';
     Register.studentData := None |}.

(** A short history on the sample store: an attempt to set the status of
    the sample record to ['dropped'], then to ['suspended'], by the sample
    admin (token [t.1]). *)
Definition sampleTrace : list (Date * Request) :=
  [ (200, PutAdminStudentStatus (Some "Bearer t.1") 3%N "dropped");
    (300, PutAdminStudentStatus (Some "Bearer t.1") 3%N "suspended") ].

(* ===================================================================== *)
(** * Read routes *)
(* ===================================================================== *)

(** [.populate('userId', ...)]: the owning User, or [null] when the
    reference dangles. *)
Definition populate (s : Store) (student : Student) : option User :=
  users s !! userId student.


Module Dashboard.

(** [statistics] of GET /api/admin/dashboard. *)
Record Statistics : Type := mkStatistics {
  totalStudents : Z;
  activeStudents : Z;
  totalUsers : Z;
  inactiveStudents : Z
}.

(** An element of [recentStudents]. *)
Record Recent : Type := mkRecent {
  _id : ObjectId;
  studentId : string;
  name : string;
  email : string;
  department : option jsval;
  status : string;
  createdAt : Date
}.

End Dashboard.

(** [Student.countDocuments(cond)] as a number. *)
Definition countStudents (cond : Student → bool) (s : Store) : Z :=
  Z.of_nat (Query.countDocuments cond (students s)).

(** [Student.find().sort({ createdAt: -1 }).limit(5)] *)
Definition recentStudents (s : Store) : list (ObjectId * Student) :=
  take 5 (ListStudents.newestFirst (map_to_list (students s))).

(** One element of [recentStudents.map(student => ...)]; reading
    [student.userId.firstName] of a dangling reference throws. *)
Definition recentEntry (s : Store) (kv : ObjectId * Student)
  : option Dashboard.Recent :=
  user ← populate s kv.2;
  Some {| Dashboard._id := kv.1;
          Dashboard.studentId := studentId kv.2;
          Dashboard.name := firstName user ++ " " ++ lastName user;
          Dashboard.email := email user;
          Dashboard.department := academicInfo kv.2 !! "department";
          Dashboard.status := status kv.2;
          Dashboard.createdAt := createdAt kv.2 |}.

(** GET /api/admin/dashboard: the [data] of the 200 answer, or the 500
    answer of the [catch] branch. *)
Definition adminDashboard (s : Store)
  : Response + (Dashboard.Statistics * list Dashboard.Recent) :=
  let totalStudents := countStudents (λ _, true) s in
  let activeStudents :=
    countStudents (λ st, String.eqb (status st) "active") s in
  let totalUsers := Z.of_nat (Query.countDocuments (λ _, true) (users s)) in
  match mapM (recentEntry s) (recentStudents s) with
  | Some recent =>
      inr ({| Dashboard.totalStudents := totalStudents;
              Dashboard.activeStudents := activeStudents;
              Dashboard.totalUsers := totalUsers;
              Dashboard.inactiveStudents := totalStudents - activeStudents |},
           recent)
  | None =>
      inl (serverError "Server error while fetching dashboard data"
             ["Cannot read properties of null"])
  end.

(** [Student.findOne({ userId: req.user._id })] *)
Definition ownStudent (s : Store) (caller : ObjectId)
  : option (ObjectId * Student) :=
  Query.findOne (λ st, N.eqb (userId st) caller) (students s).

(** GET /api/student/profile for the authenticated user [caller]. *)
Definition getOwnProfile (s : Store) (caller : ObjectId) : Response :=
  match ownStudent s caller with
  | None => failure 404 "Student profile not found"
  | Some (id, student) => successData 200 (DataStudent id student)
  end.

Module AcademicRecord.

(** [academicRecord] of GET /api/student/academic-record. *)
Record t : Type := mk {
  department : option jsval;
  course : option jsval;
  year : option jsval;
  semester : option jsval;
  cgpa : option jsval;
  status : string;
  enrollmentDate : Date;
  graduationDate : option Date
}.

End AcademicRecord.

Definition academicRecordOf (student : Student) : AcademicRecord.t :=
  {| AcademicRecord.department := academicInfo student !! "department";
     AcademicRecord.course := academicInfo student !! "course";
     AcademicRecord.year := academicInfo student !! "year";
     AcademicRecord.semester := academicInfo student !! "semester";
     AcademicRecord.cgpa := academicInfo student !! "cgpa";
     AcademicRecord.status := status student;
     AcademicRecord.enrollmentDate := enrollmentDate student;
     AcademicRecord.graduationDate := graduationDate student |}.

(** GET /api/student/academic-record *)
Definition getOwnAcademicRecord (s : Store) (caller : ObjectId)
  : Response + AcademicRecord.t :=
  match ownStudent s caller with
  | None => inl (failure 404 "Student profile not found")
  | Some (_, student) => inr (academicRecordOf student)
  end.

Module StudentStatus.

(** [studentStatus] of GET /api/student/status. *)
Record t : Type := mk {
  currentStatus : string;
  enrollmentDate : Date;
  graduationDate : option Date;
  department : option jsval;
  course : option jsval
}.

End StudentStatus.

(** GET /api/student/status *)
Definition getOwnStatus (s : Store) (caller : ObjectId)
  : Response + StudentStatus.t :=
  match ownStudent s caller with
  | None => inl (failure 404 "Student profile not found")
  | Some (_, student) =>
      inr {| StudentStatus.currentStatus := status student;
             StudentStatus.enrollmentDate := enrollmentDate student;
             StudentStatus.graduationDate := graduationDate student;
             StudentStatus.department := academicInfo student !! "department";
             StudentStatus.course := academicInfo student !! "course" |}
  end.

Module PersonalInfo.

(** [personalInfo] of GET /api/student/personal-info. *)
Record t : Type := mk {
  name : string;
  email : string;
  username : string;
  dateOfBirth : BirthDate;
  gender : string;
  phone : string;
  address : strobj;
  guardianInfo : strobj;
  emergencyContact : strobj
}.

End PersonalInfo.

(** GET /api/student/personal-info; [student.userId.firstName] throws when
    the populated reference is [null]. *)
Definition getOwnPersonalInfo (s : Store) (caller : ObjectId)
  : Response + PersonalInfo.t :=
  match ownStudent s caller with
  | None => inl (failure 404 "Student profile not found")
  | Some (_, student) =>
      match populate s student with
      | None =>
          inl (serverError "Server error while fetching personal information"
                 ["Cannot read properties of null"])
      | Some user =>
          inr {| PersonalInfo.name := firstName user ++ " " ++ lastName user;
                 PersonalInfo.email := email user;
                 PersonalInfo.username := username user;
                 PersonalInfo.dateOfBirth := dateOfBirth student;
                 PersonalInfo.gender := gender student;
                 PersonalInfo.phone := phone student;
                 PersonalInfo.address := address student;
                 PersonalInfo.guardianInfo := guardianInfo student;
                 PersonalInfo.emergencyContact := emergencyContact student |}
      end
  end.

(** GET /api/auth/profile for the user [protect] attached to the request. *)
Definition getProfile (s : Store) (caller : ObjectId) : Response :=
  match users s !! caller with
  | None => failure 404 "User not found"
  | Some user => successData 200 (DataUser (getPublicProfile caller user))
  end.

(* ===================================================================== *)
(** * Contact messages ([src/controllers/contactController.js]) *)
(* ===================================================================== *)

Module Contact.

(** A stored Contact document ([models/Contact.js] is not among the
    sources; the fields are those the controller passes). *)
Record Message : Type := mkMessage {
  name : string;
  email : string;
  subject : string;
  message : string
}.

(** [req.body] *)
Record Body : Type := mkBody {
  b_name : option string;
  b_email : option string;
  b_subject : option string;
  b_message : option string
}.

(** [mailOptions] *)
Record MailOptions : Type := mkMailOptions {
  from : string;
  to : option string;
  mailSubject : string;
  text : string
}.

(** The answers of the controller: [{ success, msg, error }]. *)
Record Reply : Type := mkReply {
  code : Z;
  success : bool;
  msg : string;
  error : option string
}.

(** The messages saved so far and the mails handed to the transport. *)
Record State : Type := mkState {
  saved : list Message;
  delivered : list MailOptions
}.

(** The two collaborators: [newMessage.save()], which throws with an error
    message or stores the document, and [transporter.sendMail], which
    throws or delivers. *)
Class Transport : Type := {
  saveRejects : Message → option string;
  sendMail : MailOptions → option string
}.

Definition nl : string := String (ascii_of_nat 10) "".
Definition quote : string := String (ascii_of_nat 34) "".

Definition mailOptions (EMAIL_USER : option string) (m : Message)
  : MailOptions :=
  {| from := quote ++ name m ++ quote ++ " <" ++ email m ++ ">";
     to := EMAIL_USER;
     mailSubject := "📩 New Contact Form: " ++ subject m;
     text :=
       nl ++ "You have received a new message from the contact form." ++ nl
       ++ nl
       ++ "🧑 Name: " ++ name m ++ nl
       ++ "📧 Email: " ++ email m ++ nl
       ++ "📝 Subject: " ++ subject m ++ nl
       ++ nl
       ++ "Message:" ++ nl
       ++ message m ++ nl
       ++ "      " |}.

Definition failed (err : string) : Reply :=
  {| code := 500; success := false; msg := "Failed to send message";
     error := Some err |}.

Section Controller.
Context `{Transport}.

(** [sendMessage] *)
Definition sendMessage (EMAIL_USER : option string) (st : State) (b : Body)
  : Reply * State :=
  (* Validate input *)
  if negb (truthy_str (b_name b) && truthy_str (b_email b)
           && truthy_str (b_subject b) && truthy_str (b_message b))
  then ({| code := 400; success := false;
           msg := "All fields (name, email, subject, message) are required";
           error := None |}, st)
  else
    let newMessage :=
      {| name := default "" (b_name b); email := default "" (b_email b);
         subject := default "" (b_subject b);
         message := default "" (b_message b) |} in
    (* Save message to DB *)
    match saveRejects newMessage with
    | Some err => (failed err, st)
    | None =>
        let st1 := {| saved := saved st ++ [newMessage];
                      delivered := delivered st |} in
        (* Send email *)
        let options := mailOptions EMAIL_USER newMessage in
        match sendMail options with
        | Some err => (failed err, st1)
        | None =>
            ({| code := 200; success := true;
                msg := "Message sent successfully!"; error := None |},
             {| saved := saved st1;
                delivered := delivered st1 ++ [options] |})
        end
    end.

End Controller.

End Contact.

(* ===================================================================== *)
(** * Seeding scripts ([src/scripts/seed.js], [src/unnamed/part_000]) *)
(* ===================================================================== *)

Section Seeding.
Context `{Externals}.

(** The admin both scripts create. *)
Definition adminUser : User :=
  newUser "admin" "admin@college.com" "admin123" "System" "Administrator"
    "admin" true.

(** [seedData]: nothing is done when an admin exists.  (The unique indexes
    of the Users collection are outside the embedding; the script's [save()]
    is the insertion of the document.) *)
Definition seedData (s : Store) : Store :=
  match Query.findOne isAdmin (users s) with
  | Some _ => s
  | None => set_users (<[newObjectId s := adminUser]>) s
  end.

(** [createAdmin]: nothing is done when a User has the admin's address. *)
Definition createAdmin (s : Store) : Store :=
  match Query.findOne (λ u, String.eqb (email u) "admin@college.com")
          (users s) with
  | Some _ => s
  | None => set_users (<[newObjectId s := adminUser]>) s
  end.

End Seeding.

(* ===================================================================== *)
(** * The PDF generator class ([src/routes/auth.js], [PDFGenerator]) *)
(* ===================================================================== *)

Module PDFGenerator.

(** A cell handed to [doc.text]: literal text, a value of the document as
    it is, a template literal [`${v}suffix`] with its value and its
    literal part, or an interpolated number. *)
Inductive cell : Type :=
| Txt (s : string)
| Raw (v : option jsval)
| Tpl (v : option jsval) (suffix : string)
| Num (n : Z).

(** The drawing operations [createTable] issues: [doc.rect(x, y, w, h)]
    and [doc.text(cell, x, y, { width })]. *)
Inductive Draw : Type :=
| Rect (x y w h : Z)
| Text (c : cell) (x y width : Z).

Definition rowHeight : Z := 25.
Definition startX : Z := 50.

(** [createTable(data, colWidth, startY)] *)
Definition createTable (data : list (list cell)) (colWidth startY : Z)
  : list Draw :=
  mjoin (imap (λ rowIndex row,
    mjoin (imap (λ colIndex c,
      let x := startX + Z.of_nat colIndex * colWidth in
      let y := startY + Z.of_nat rowIndex * rowHeight in
      [ Rect x y colWidth rowHeight;
        Text c (x + 5) (y + 8) (colWidth - 10) ]) row)) data).

(** Do two rectangles share a region of the page? *)
Definition overlaps (a b : Draw) : bool :=
  match a, b with
  | Rect x1 y1 w1 h1, Rect x2 y2 w2 h2 =>
      (x1 <? x2 + w2) && (x2 <? x1 + w1) && (y1 <? y2 + h2) && (y2 <? y1 + h1)
  | _, _ => false
  end.

(** The amount in the row 'Balance Amount:' of [generateFeeStructure]:
    [(totalFees || 40000) - (paidFees || 0)]. *)
Definition balance (student : Student) : Z :=
  num_or (financialInfo student ≫= totalFees) 40000
  - num_or (financialInfo student ≫= paidFees) 0.

(** [studentInfo] of [generateFeeStructure]; [user] is the populated
    [student.userId]. *)
Definition studentInfo (user : User) (student : Student)
  : list (list cell) :=
  [ [Txt "Student ID:"; Txt (studentId student)];
    [Txt "Name:"; Txt (firstName user ++ " " ++ lastName user)];
    [Txt "Department:"; Raw (academicInfo student !! "department")];
    [Txt "Course:"; Raw (academicInfo student !! "course")];
    [Txt "Fee Category:";
     Txt (let c := financialInfo student ≫= feeStructure in
          if truthy_str c then default "" c else "General")];
    [Txt "Year:"; Tpl (academicInfo student !! "year") " Year"];
    [Txt "Semester:"; Tpl (academicInfo student !! "semester") " Semester"] ].

(** [feeBreakdown] of [generateFeeStructure]. *)
Definition feeBreakdown (student : Student) : list (list cell) :=
  [ [Txt "Fee Component"; Txt "Amount (₹)"; Txt "Due Date"; Txt "Status"];
    [Txt "Tuition Fee"; Txt "25,000"; Txt "15th Aug"; Txt "Paid"];
    [Txt "Laboratory Fee"; Txt "5,000"; Txt "15th Aug"; Txt "Paid"];
    [Txt "Library Fee"; Txt "2,000"; Txt "15th Aug"; Txt "Paid"];
    [Txt "Examination Fee"; Txt "3,000"; Txt "15th Aug"; Txt "Paid"];
    [Txt "Sports Fee"; Txt "1,000"; Txt "15th Aug"; Txt "Paid"];
    [Txt "Student Activity Fee"; Txt "1,500"; Txt "15th Aug"; Txt "Paid"];
    [Txt "Development Fee"; Txt "2,500"; Txt "15th Aug"; Txt "Paid"];
    [Txt ""; Txt ""; Txt ""; Txt ""];
    [Txt "Total Fees:"; Txt "40,000"; Txt ""; Txt ""];
    [Txt "Paid Amount:";
     Num (num_or (financialInfo student ≫= paidFees) 0); Txt ""; Txt ""];
    [Txt "Balance Amount:"; Num (balance student); Txt ""; Txt ""] ].

(** The two tables [generateFeeStructure] draws for every student:
    [this.createTable(studentInfo, 150, 200)] and
    [this.createTable(feeBreakdown, 100, 320)]. *)
Definition studentInfoTable (user : User) (student : Student) : list Draw :=
  createTable (studentInfo user student) 150 200.

Definition feeBreakdownTable (student : Student) : list Draw :=
  createTable (feeBreakdown student) 100 320.

End PDFGenerator.

(* ===================================================================== *)
(** * Auxiliary notions for the statements *)
(* ===================================================================== *)

(** Does the character occur in the string? *)
Fixpoint hasChar (c : ascii) (s : string) : bool :=
  match s with
  | EmptyString => false
  | String d s' => Ascii.eqb d c || hasChar c s'
  end.



(** The User as [login] saves it: [user.lastLogin = new Date()]. *)
Definition withLastLogin (now : Date) (user : User) : User :=
  {| username := username user; email := email user;
     password := password user; firstName := firstName user;
     lastName := lastName user; role := role user;
     isActive := isActive user; lastLogin := Some now |}.

(** A deactivated second admin (id 5) beside the sample documents. *)
Definition storeWithDeactivatedAdmin : Store :=
  set_users
    (<[5%N := sampleUser "old" "Omar" "old@college.com" "admin" false]>)
    sampleStore.

(** No two Users share an e-mail address or a username. *)
Definition uniqueUsers (s : Store) : Prop :=
  ∀ i j u v, users s !! i = Some u → users s !! j = Some v →
    email u = email v ∨ username u = username v → i = j.

(** [uniqueUsers], decided on the stored Users. *)
Definition uniqueUsersb (s : Store) : bool :=
  let l := map_to_list (users s) in
  forallb (λ p : ObjectId * User,
    forallb (λ q : ObjectId * User,
      bool_decide (p.1 = q.1)
      || negb (String.eqb (email p.2) (email q.2)
               || String.eqb (username p.2) (username q.2))) l) l.

Definition emailOnlyBody (mail : string) : UpdateUser.Body :=
  {| UpdateUser.firstName := None; UpdateUser.lastName := None;
     UpdateUser.email := Some mail; UpdateUser.role := None;
     UpdateUser.isActive := None |}.

(** The sample admin creates an account, tries to create one under the
    address of the sample student, tries to give the sample student the
    admin's address, then gives her a new one. *)
Definition accountTrace : list (Date * Request) :=
  [ (100, PostAdminUsers (Some "Bearer t.1")
            (sampleRegisterBody "meera" "meera@college.com" "student"));
    (200, PostAdminUsers (Some "Bearer t.1")
            (sampleRegisterBody "asha2" "asha@college.com" "student"));
    (300, PutAdminUser (Some "Bearer t.1") 2%N
            (emailOnlyBody "root@college.com"));
    (400, PutAdminUser (Some "Bearer t.1") 2%N
            (emailOnlyBody "asha.k@college.com")) ].

(** The [studentData] of a registration that gives every nested object. *)
Definition sampleStudentData : Register.StudentData :=
  {| Register.studentId := Some "STU9";
     Register.dateOfBirth := Some "2002-01-01";
     Register.gender := Some "female";
     Register.phone := Some "9876543210";
     Register.address := Some sampleAddress;
     Register.academicInfo := Some sampleAcademicInfo;
     Register.guardianInfo := Some sampleGuardianInfo;
     Register.emergencyContact := Some sampleEmergencyContact |}.

Definition sampleStudentRegistration (d : option Register.StudentData)
  : Register.Body :=
  {| Register.username := "kiran"; Register.email := "kiran@college.com";
     Register.password := "secret1"; Register.firstName := "Kiran";
     Register.lastName := "Rao"; Register.role := "student";
     Register.studentData := d |}.

Definition roleOnlyBody (role' : string) : UpdateUser.Body :=
  {| UpdateUser.firstName := None; UpdateUser.lastName := None;
     UpdateUser.email := None; UpdateUser.role := Some role';
     UpdateUser.isActive := None |}.

Definition isActiveOnlyBody (v : jsval) : UpdateUser.Body :=
  {| UpdateUser.firstName := None; UpdateUser.lastName := None;
     UpdateUser.email := None; UpdateUser.role := None;
     UpdateUser.isActive := Some v |}.

(** The body [{ address: { city: "X" } }] for PUT /api/admin/students/:id. *)
Definition adminCityOnlyBody : UpdateStudent.Body :=
  {| UpdateStudent.firstName := None; UpdateStudent.lastName := None;
     UpdateStudent.email := None; UpdateStudent.phone := None;
     UpdateStudent.address := Some {[ "city" := "X" ]};
     UpdateStudent.academicInfo := None;
     UpdateStudent.guardianInfo := None;
     UpdateStudent.emergencyContact := None;
     UpdateStudent.status := None |}.


(** The paths of a Student record that PUT /api/student/profile cannot
    reach keep their values. *)
Definition sameBeyondContact (st st' : Student) : Prop :=
  userId st' = userId st ∧ studentId st' = studentId st
  ∧ dateOfBirth st' = dateOfBirth st ∧ gender st' = gender st
  ∧ academicInfo st' = academicInfo st ∧ guardianInfo st' = guardianInfo st
  ∧ financialInfo st' = financialInfo st ∧ hostelInfo st' = hostelInfo st
  ∧ status st' = status st ∧ enrollmentDate st' = enrollmentDate st
  ∧ graduationDate st' = graduationDate st ∧ createdAt st' = createdAt st.

(** A query that asks for the second page of one ['active'] record each. *)
Definition pageQuery (page' limit' : string) (st : option string)
  : ListStudents.Req.QueryString :=
  {| ListStudents.Req.page := Some page';
     ListStudents.Req.limit := Some limit';
     ListStudents.Req.search := None;
     ListStudents.Req.department := None;
     ListStudents.Req.status := st;
     ListStudents.Req.year := None |}.

(** What one request served at [now] can do to the Student record stored
    under one id: nothing, remove it, create it, or apply an update whose
    graduation stamp is the one computed from its status. *)
Definition studentStep (now : Date) (old new : option Student) : Prop :=
  new = old
  ∨ new = None
  ∨ (old = None
     ∧ ∃ uid sid dob g ph a ac gu em,
         new = Some (Schema.newStudent now uid sid dob g ph a ac gu em))
  ∨ ∃ st d, old = Some st
            ∧ new = Some (applyStudentUpdate d st)
            ∧ up_graduationDate d = graduationStamp now (up_status d) st.

(** A record with the status ['graduated'] has a graduation date. *)
Definition graduationInvariant (s : Store) : Prop :=
  ∀ id st, students s !! id = Some st →
    status st = "graduated" → is_Some (graduationDate st).

(** Every record has the fee and hostel data the schema gives a new
    document. *)
Definition feesUntouched (s : Store) : Prop :=
  ∀ id st, students s !! id = Some st →
    financialInfo st = Some Schema.financialInfoDefault
    ∧ hostelInfo st = Some Schema.hostelInfoDefault.

(** The sample admin creates a student, makes her a graduate, changes her
    phone number and sets the status of the sample record twice. *)
Definition recordTrace : list (Date * Request) :=
  [ (100, PostAdminStudents (Some "Bearer t.1") (sampleCreateBody 7));
    (200, PutAdminStudentStatus (Some "Bearer t.1") 5%N "graduated");
    (300, PutAdminStudent (Some "Bearer t.1") 5%N adminCityOnlyBody);
    (400, PutAdminStudentStatus (Some "Bearer t.1") 3%N "graduated");
    (500, PutAdminStudentStatus (Some "Bearer t.1") 3%N "active") ].

(** The Contact document [sendMessage] builds from a body. *)
Definition messageOf (b : Contact.Body) : Contact.Message :=
  {| Contact.name := default "" (Contact.b_name b);
     Contact.email := default "" (Contact.b_email b);
     Contact.subject := default "" (Contact.b_subject b);
     Contact.message := default "" (Contact.b_message b) |}.

(** Has the body every field, none of them empty? *)
Definition complete (b : Contact.Body) : bool :=
  truthy_str (Contact.b_name b) && truthy_str (Contact.b_email b)
  && truthy_str (Contact.b_subject b) && truthy_str (Contact.b_message b).

(** A mail service that is down, and one that works; both stores accept
    every message. *)
Definition mailDown : Contact.Transport :=
  {| Contact.saveRejects := λ _, None;
     Contact.sendMail := λ _, Some "connect ETIMEDOUT" |}.

Definition mailUp : Contact.Transport :=
  {| Contact.saveRejects := λ _, None; Contact.sendMail := λ _, None |}.

Definition sampleContactBody : Contact.Body :=
  {| Contact.b_name := Some "Asha"; Contact.b_email := Some "asha@mail.com";
     Contact.b_subject := Some "Fees"; Contact.b_message := Some "Hello" |}.

Definition noMessages : Contact.State :=
  {| Contact.saved := []; Contact.delivered := [] |}.

(** The [Authorization] header of a request, where the route reads one. *)
Definition headerOf (r : Request) : option string :=
  match r with
  | PostLogin _ _ => None
  | PostRegister a _ | PutProfile a _ | PostChangePassword a _ _
  | PostAdminStudents a _ | PutAdminStudent a _ _ | DeleteAdminStudent a _
  | PutAdminStudentStatus a _ _ | PostAdminUsers a _ | PutAdminUser a _ _
  | DeleteAdminUser a _ | PutStudentProfile a _ => a
  end.

Section Tokens.
Context `{Externals}.

(** The stored User a header's token verifies to, active or not. *)
Definition tokenUser (env : Env) (s : Store) (authorization : option string)
  : option User :=
  token ← bearerToken authorization;
  id ← jwtVerify (JWT_SECRET env) token;
  users s !! id.

(** Does the header carry the token of a User with the role ['admin']? *)
Definition hasAdminToken (env : Env) (s : Store)
  (authorization : option string) : bool :=
  match tokenUser env s authorization with
  | Some u => isAdmin u
  | None => false
  end.

End Tokens.

(** The accounts are kept: every User of [s] is in [s'] with the same
    name, role and [isActive] flag, and every new User of [s'] is a
    student. *)
Definition accountsKept (s s' : Store) : Prop :=
  (∀ k u, users s !! k = Some u →
     ∃ u', users s' !! k = Some u'
           ∧ username u' = username u ∧ role u' = role u
           ∧ isActive u' = isActive u)
  ∧ (∀ k u', users s' !! k = Some u' → users s !! k = None →
       role u' = "student").

(* ===================================================================== *)
(** * Facts about the JavaScript primitives and the validators *)
(* ===================================================================== *)

Section SpreadFacts.
Context {V : Type}.
Implicit Types a b : gmap string V.



End SpreadFacts.

(** ** The derivative matcher decides the denotation of a pattern *)

Section RegexFacts.
Import Regex.

Lemma append_cons c s1 s2 : String c s1 +:+ s2 = String c (s1 +:+ s2).
Proof. reflexivity. Qed.

Lemma append_nil_l s : "" +:+ s = s.
Proof. reflexivity. Qed.

Lemma append_nil_r s : s +:+ "" = s.
Proof. induction s as [|c s IH]; [done|]. by rewrite append_cons, IH. Qed.

Lemma append_assoc s1 s2 s3 : (s1 +:+ s2) +:+ s3 = s1 +:+ (s2 +:+ s3).
Proof. induction s1 as [|c s1 IH]; [done|]. by rewrite !append_cons, IH. Qed.

Lemma append_eq_nil s1 s2 : s1 +:+ s2 = "" → s1 = "" ∧ s2 = "".
Proof. destruct s1; [done|]. rewrite append_cons. discriminate. Qed.

Lemma nullable_spec r : nullable r = true ↔ Matches r "".
Proof.
  split.
  - induction r; simpl; intros Hn; try discriminate.
    + constructor.
    + apply andb_prop in Hn as [H1 H2].
      change "" with ("" +:+ ""). constructor; auto.
    + apply orb_prop in Hn as [H1|H2]; [apply MAltL|apply MAltR]; auto.
    + constructor.
  - intros Hm. remember "" as s eqn:Hs.
    induction Hm; simpl; subst; try done.
    + apply append_eq_nil in Hs as [-> ->]. rewrite IHHm1, IHHm2; done.
    + rewrite IHHm; done.
    + rewrite IHHm; [|done]. apply orb_true_r.
Qed.

Lemma star_cons r c s :
  Matches (Star r) (String c s) →
  ∃ s1 s2, s = s1 +:+ s2 ∧ Matches r (String c s1) ∧ Matches (Star r) s2.
Proof.
  intros Hm. remember (Star r) as r' eqn:Hr.
  remember (String c s) as s' eqn:Hs.
  revert s Hs.
  induction Hm as [| | | | | |r0 s1 s2 Hm1 _ Hm2 IH2]; intros t Ht;
    try discriminate.
  injection Hr as ->. destruct s1 as [|c1 s1].
  - rewrite append_nil_l in Ht. by apply IH2.
  - rewrite append_cons in Ht. injection Ht as -> <-. by exists s1, s2.
Qed.

Lemma deriv_spec r : ∀ c s, Matches (deriv c r) s ↔ Matches r (String c s).
Proof.
  induction r as [| |p|r1 IH1 r2 IH2|r1 IH1 r2 IH2|r IH]; intros c s; simpl.
  - split; intros Hm; inversion Hm.
  - split; intros Hm; inversion Hm.
  - destruct (p c) eqn:Hp; split; intros Hm; inversion Hm; subst.
    + by constructor.
    + constructor.
    + congruence.
  - assert (Matches (Cat (deriv c r1) r2) s
            ↔ ∃ s1 s2, s = s1 +:+ s2 ∧ Matches r1 (String c s1)
                       ∧ Matches r2 s2) as Hcat.
    { split.
      - intros Hm. inversion Hm; subst. eexists _, _. split; [done|].
        split; [by apply IH1|done].
      - intros (s1 & s2 & -> & H1 & H2). constructor; [by apply IH1|done]. }
    assert (Matches (Cat r1 r2) (String c s)
            ↔ (Matches r1 "" ∧ Matches r2 (String c s))
              ∨ ∃ s1 s2, s = s1 +:+ s2 ∧ Matches r1 (String c s1)
                         ∧ Matches r2 s2) as Hsplit.
    { split.
      - intros Hm. inversion Hm as [| |? ? s1 s2 H1 H2 [Hr1 Hr2] Heq| | | |].
        subst. destruct s1 as [|c1 s1].
        + rewrite append_nil_l in Heq. left. subst. done.
        + rewrite append_cons in Heq. injection Heq as -> <-.
          right. by exists s1, s2.
      - intros [[H1 H2]|(s1 & s2 & -> & H1 & H2)].
        + change (String c s) with ("" +:+ String c s). by constructor.
        + change (String c (s1 +:+ s2)) with (String c s1 +:+ s2).
          by constructor. }
    rewrite Hsplit. destruct (nullable r1) eqn:Hn.
    + split.
      * intros Hm. inversion Hm; subst.
        -- right. by apply Hcat.
        -- left. split; [by apply nullable_spec|by apply IH2].
      * intros [[H1 H2]|Hr]; [apply MAltR; by apply IH2|].
        apply MAltL. by apply Hcat.
    + rewrite Hcat. split; [by right|].
      intros [[H1 _]|Hr]; [|done]. apply nullable_spec in H1. congruence.
  - split; intros Hm; inversion Hm; subst.
    + apply MAltL. by apply IH1.
    + apply MAltR. by apply IH2.
    + apply MAltL. by apply IH1.
    + apply MAltR. by apply IH2.
  - split.
    + intros Hm. inversion Hm; subst.
      change (String c (s1 +:+ s2)) with (String c s1 +:+ s2).
      constructor; [by apply IH|done].
    + intros Hm. apply star_cons in Hm as (s1 & s2 & -> & H1 & H2).
      constructor; [by apply IH|done].
Qed.

Lemma test_spec r s : test r s = true ↔ Matches r s.
Proof.
  revert r. induction s as [|c s IH]; intros r; simpl.
  - apply nullable_spec.
  - rewrite IH. apply deriv_spec.
Qed.

End RegexFacts.

Section PatternFacts.
Import Regex ListStudents ListSpec.

Lemma star_any s : Matches (Star (Class (λ _, true))) s.
Proof.
  induction s as [|c s IH]; [constructor|].
  change (String c s) with (String c "" +:+ s).
  constructor; [by constructor|done].
Qed.

Lemma anywhere_spec r s :
  Matches (anywhere r) s
  ↔ ∃ pre mid post, s = pre +:+ (mid +:+ post) ∧ Matches r mid.
Proof.
  unfold anywhere. split.
  - intros Hm. inversion Hm as [| |? ? pre rest _ Hrest| | | |]; subst.
    inversion Hrest as [| |? ? mid post Hmid _| | | |]; subst.
    by exists pre, mid, post.
  - intros (pre & mid & post & -> & Hmid).
    constructor; [apply star_any|]. constructor; [done|apply star_any].
Qed.

Lemma sameChar_prefix c d :
  sameChar true c d = Ascii.eqb (lower c) (lower d).
Proof. unfold sameChar. apply Ascii.eqb_sym. Qed.

Lemma literal_spec p : ∀ r, literal true p = Some r →
  ∀ s, Matches r s
       ↔ String.length s = String.length p ∧ prefixI p s = true.
Proof.
  induction p as [|c p IH]; intros r Hlit s; simpl in Hlit.
  - injection Hlit as <-. split.
    + intros Hm. by inversion Hm.
    + intros [Hlen _]. destruct s; [constructor|discriminate].
  - destruct (isMeta c); [discriminate|].
    destruct (literal true p) as [r'|] eqn:Hp; [|discriminate].
    injection Hlit as <-. split.
    + intros Hm. inversion Hm as [| |? ? s1 s2 H1 H2| | | |]; subst.
      inversion H1; subst. rewrite append_cons, append_nil_l. simpl.
      apply (IH r' eq_refl) in H2 as [Hlen Hpre].
      rewrite Hlen, Hpre. rewrite <- sameChar_prefix.
      split; [done|]. by apply andb_true_intro.
    + intros [Hlen Hpre]. destruct s as [|d s]; [discriminate|].
      simpl in Hlen, Hpre. apply andb_prop in Hpre as [Hc Hpre].
      change (String d s) with (String d "" +:+ s). constructor.
      * constructor. by rewrite sameChar_prefix.
      * apply (IH r' eq_refl). split; [lia|done].
Qed.

Lemma prefixI_split p : ∀ s,
  prefixI p s = true
  ↔ ∃ mid post, s = mid +:+ post
                ∧ String.length mid = String.length p ∧ prefixI p mid = true.
Proof.
  induction p as [|c p IH]; intros s; simpl.
  - split; [|done]. intros _. by exists "", s.
  - destruct s as [|d s].
    + split; [done|]. intros (mid & post & Heq & Hlen & _).
      symmetry in Heq. apply append_eq_nil in Heq as [-> _]. discriminate.
    + split.
      * intros [Hc Hp]%andb_prop. apply IH in Hp as (mid & post & -> & Hl & Hp).
        exists (String d mid), post. rewrite append_cons. simpl.
        rewrite Hc, Hp, Hl. done.
      * intros (mid & post & Heq & Hlen & Hp).
        destruct mid as [|d' mid]; [discriminate|].
        rewrite append_cons in Heq. injection Heq as -> ->.
        simpl in Hlen, Hp. apply andb_prop in Hp as [Hc Hp].
        rewrite Hc. simpl. apply IH. exists mid, post.
        split; [done|]. split; [lia|done].
Qed.

Lemma containsI_spec p : ∀ s,
  containsI p s = true
  ↔ ∃ pre rest, s = pre +:+ rest ∧ prefixI p rest = true.
Proof.
  induction s as [|c s IH].
  - simpl. rewrite orb_false_r. split.
    + intros Hp. by exists "", "".
    + intros (pre & rest & Heq & Hp). symmetry in Heq.
      by apply append_eq_nil in Heq as [_ ->].
  - change (containsI p (String c s))
      with (prefixI p (String c s) || containsI p s).
    rewrite orb_true_iff, IH. split.
    + intros [Hp|(pre & rest & -> & Hp)].
      * by exists "", (String c s).
      * exists (String c pre), rest. by rewrite append_cons.
    + intros (pre & rest & Heq & Hp). destruct pre as [|d pre].
      * rewrite append_nil_l in Heq. subst. by left.
      * rewrite append_cons in Heq. injection Heq as -> ->.
        right. by exists pre, rest.
Qed.

(** A pattern without metacharacters, matched with option [i], finds the
    subjects that contain it, letter case ignored. *)
Lemma regexMatch_literal pattern r subject :
  literal true pattern = Some r →
  regexMatch pattern "i" subject = Some (containsI pattern subject).
Proof.
  intros Hlit. unfold regexMatch. simpl. rewrite Hlit. simpl. f_equal.
  apply eq_true_iff_eq. rewrite test_spec, anywhere_spec, containsI_spec.
  split.
  - intros (pre & mid & post & -> & Hm).
    apply (literal_spec _ _ Hlit) in Hm as [Hlen Hp].
    exists pre, (mid +:+ post). split; [done|].
    apply prefixI_split. by exists mid, post.
  - intros (pre & rest & -> & Hp).
    apply prefixI_split in Hp as (mid & post & -> & Hlen & Hp).
    exists pre, mid, post. split; [done|].
    by apply (literal_spec _ _ Hlit).
Qed.

End PatternFacts.

Example phone_ok : Validator.isPhone "+919876543210" = true.
Proof. reflexivity. Qed.

Example phone_leading_zero : Validator.isPhone "0000000000" = false.
Proof. reflexivity. Qed.

Example guardian_email_ok :
  Regex.test Regex.guardianEmailRe "na@example.com" = true.
Proof. reflexivity. Qed.

Example guardian_email_long_tld :
  Regex.test Regex.guardianEmailRe "p@mail.info" = false.
Proof. reflexivity. Qed.

Lemma check_nil ok msg : Validator.check ok msg = [] ↔ ok = true.
Proof. unfold Validator.check. destruct ok; split; congruence. Qed.

(* ===================================================================== *)
(** * Facts about the store and its queries *)
(* ===================================================================== *)

Lemma newObjectId_users s : users s !! newObjectId s = None.
Proof.
  apply not_elem_of_dom. unfold newObjectId.
  pose proof (is_fresh (dom (users s) ∪ dom (students s))). set_solver.
Qed.

Lemma newObjectId_students s : students s !! newObjectId s = None.
Proof.
  apply not_elem_of_dom. unfold newObjectId.
  pose proof (is_fresh (dom (users s) ∪ dom (students s))). set_solver.
Qed.

Section QueryFacts.
Context {A : Type}.
Implicit Types (cond : A → bool) (m : gmap ObjectId A).

Lemma findOne_Some cond m k a :
  Query.findOne cond m = Some (k, a) → m !! k = Some a ∧ cond a = true.
Proof.
  unfold Query.findOne. intros Hh. apply head_Some_elem_of in Hh.
  apply list_elem_of_filter in Hh as [Hc Hin].
  apply elem_of_map_to_list in Hin. done.
Qed.

Lemma findOne_None cond m :
  Query.findOne cond m = None → ∀ k a, m !! k = Some a → cond a = false.
Proof.
  unfold Query.findOne. intros Hh k a Hk.
  apply head_None in Hh.
  destruct (cond a) eqn:Hc; [|done].
  assert ((k, a) ∈ filter (λ kv, cond kv.2 = true) (map_to_list m)) as Hin.
  { apply list_elem_of_filter. split; [done|]. by apply elem_of_map_to_list. }
  rewrite Hh in Hin. by apply elem_of_nil in Hin.
Qed.

Lemma findOne_is_Some cond m k a :
  m !! k = Some a → cond a = true → is_Some (Query.findOne cond m).
Proof.
  intros Hk Hc. destruct (Query.findOne cond m) eqn:Hf; [by eexists|].
  pose proof (findOne_None _ _ Hf _ _ Hk). congruence.
Qed.

Lemma findOne_none_iff cond m :
  Query.findOne cond m = None ↔ ∀ k a, m !! k = Some a → cond a = false.
Proof.
  split; [apply findOne_None|].
  intros Hall. destruct (Query.findOne cond m) as [[k a]|] eqn:Hf; [|done].
  apply findOne_Some in Hf as [Hk Hc]. rewrite (Hall _ _ Hk) in Hc. done.
Qed.

Lemma countDocuments_delete_false cond m k a :
  m !! k = Some a → cond a = false →
  Query.countDocuments cond (delete k m) = Query.countDocuments cond m.
Proof.
  intros Hk Hc. unfold Query.countDocuments. f_equal.
  apply map_filter_delete_not. intros y Hy. simpl.
  rewrite Hk in Hy. injection Hy as <-. congruence.
Qed.

Lemma countDocuments_delete_true cond m k a :
  m !! k = Some a → cond a = true →
  Query.countDocuments cond (delete k m)
  = pred (Query.countDocuments cond m).
Proof.
  intros Hk Hc. unfold Query.countDocuments.
  rewrite map_filter_delete. apply map_size_delete_Some.
  exists a. by apply map_lookup_filter_Some.
Qed.

Lemma countDocuments_insert_true cond m k a :
  cond a = true → (1 ≤ Query.countDocuments cond (<[k:=a]> m))%nat.
Proof.
  intros Hc. unfold Query.countDocuments.
  rewrite map_filter_insert_True by done.
  destruct (filter (λ kv, cond kv.2 = true) m !! k) eqn:Hk.
  - rewrite map_size_insert_Some by eauto.
    assert (size (filter (λ kv, cond kv.2 = true) m) ≠ 0%nat); [|lia].
    intros Hz. apply map_size_empty_inv in Hz. rewrite Hz in Hk.
    by rewrite lookup_empty in Hk.
  - rewrite map_size_insert_None by done. lia.
Qed.

Lemma countDocuments_zero cond m :
  Query.countDocuments cond m = 0%nat
  ↔ ∀ k a, m !! k = Some a → cond a = false.
Proof.
  unfold Query.countDocuments. split.
  - intros Hz k a Hk. apply map_size_empty_inv in Hz.
    destruct (cond a) eqn:Hc; [|done].
    assert (filter (λ kv, cond kv.2 = true) m !! k = Some a) as Hf
      by by apply map_lookup_filter_Some.
    rewrite Hz in Hf. by rewrite lookup_empty in Hf.
  - intros Hall. apply map_size_empty_iff. apply map_empty.
    intros k. apply map_lookup_filter_None. right. intros a Hk. simpl.
    rewrite (Hall _ _ Hk). done.
Qed.

End QueryFacts.

(* ===================================================================== *)
(** * Fee-structure document *)
(* ===================================================================== *)

Section FeeFacts.
Import FeeStructure.

(** The rows 'Total Fees:' and 'Balance Amount:' of the table are the two
    computed values. *)
Lemma feeBreakdown_rows student :
  feeBreakdown student !! 12%nat
  = Some [Txt "Total Fees:"; Num (totalFeesRow student); Txt ""; Txt ""]
  ∧ feeBreakdown student !! 15%nat
    = Some [Txt "Balance Amount:"; Num (balanceRow student); Txt ""; Txt ""].
Proof. split; reflexivity. Qed.

(** The balance is the printed total minus scholarship and paid amount. *)
Lemma balanceRow_total student :
  balanceRow student
  = totalFeesRow student - scholarship student - paid student.
Proof. reflexivity. Qed.

(** For a student who is not a hostelite the code computes the totals of
    the specification. *)
Lemma fee_totals_non_hostelite student :
  isHosteliteOf student = false →
  totalFeesRow student = spec_totalFees student
  ∧ balanceRow student = spec_balance student.
Proof.
  intros Hh. unfold totalFeesRow, balanceRow, spec_balance, spec_totalFees,
    hostelTerm, tuition, scholarship, paid.
  rewrite Hh. done.
Qed.

(** For a hostelite with a stored non-zero hostel fee they agree as well. *)
Lemma fee_totals_stored_hostel_fee student hi fee :
  hostelInfo student = Some hi → hostelFees hi = Some fee → fee ≠ 0 →
  totalFeesRow student = spec_totalFees student
  ∧ balanceRow student = spec_balance student.
Proof.
  intros Hhi Hfee Hnz.
  unfold totalFeesRow, balanceRow, spec_balance, spec_totalFees,
    hostelTerm, tuition, scholarship, paid.
  rewrite Hhi. simpl. rewrite Hfee. unfold num_or.
  destruct (Z.eqb_spec fee 0); [done|].
  destruct (isHosteliteOf student); done.
Qed.

(** For a hostelite whose stored hostel fee is absent or zero the printed
    total and balance are 15000 below the totals of the specification. *)
Lemma fee_totals_default_hostel_fee student :
  isHosteliteOf student = true →
  num_or (hostelInfo student ≫= hostelFees) 0 = 0 →
  totalFeesRow student = spec_totalFees student - 15000
  ∧ balanceRow student = spec_balance student - 15000.
Proof.
  intros Hh Hz.
  unfold totalFeesRow, balanceRow, spec_balance, spec_totalFees,
    hostelTerm, tuition, scholarship, paid.
  rewrite Hh, Hz.
  assert (num_or (hostelInfo student ≫= hostelFees) 15000 = 15000) as ->.
  { revert Hz. unfold num_or.
    destruct (hostelInfo student ≫= hostelFees) as [n|]; [|done].
    destruct (Z.eqb_spec n 0); [done|]. intros ->. done. }
  lia.
Qed.

(** The worked example of the specification: no stored total, scholarship
    5000, paid 10000, not a hostelite: balance 25000. *)
Example fee_balance_example :
  balanceRow
    (feeStudent
       (Some {| feeStructure := None; totalFees := None;
                paidFees := Some 10000; scholarshipAmount := Some 5000 |})
       (Some {| hostelFees := None; isHostelite := Some false |}))
  = 25000.
Proof. reflexivity. Qed.

(** C1: the totals of the fee-structure document on a hostelite whose
    stored hostel fee is the schema default 0.  The rows 'Hostel Fee' and
    'Hostel Fees:' print 15000, the rows 'Total Fees:' and 'Balance Amount:'
    add 0 for the hostel, so the printed total is 40000 where the
    specification's formula gives 55000. *)
Theorem fee_total_omits_default_hostel_fee :
  let student :=
    feeStudent (Some Schema.financialInfoDefault)
      (Some {| hostelFees := Some 0; isHostelite := Some true |}) in
  hostelRowAmount student = 15000
  ∧ totalFeesRow student = 40000
  ∧ balanceRow student = 40000
  ∧ spec_totalFees student = 55000
  ∧ spec_balance student = 55000.
Proof. repeat split; reflexivity. Qed.

End FeeFacts.

(* ===================================================================== *)
(** * Deleting a student *)
(* ===================================================================== *)

Section DeleteStudentFacts.

(** C2, as stated, fails: deleting the record of the sample student also
    removes her User (id 2) from the store. *)
Lemma adminDeleteStudent_removes_user :
  ¬ (∀ s id st,
       students s !! id = Some st →
       users (adminDeleteStudent s id).2 !! userId st = users s !! userId st).
Proof.
  intros Hclaim.
  specialize (Hclaim sampleStore 3%N (sampleStudent 2 "STU1") eq_refl).
  vm_compute in Hclaim. discriminate.
Qed.

(** C2 (amended): for an existing StudentRecord, [adminDeleteStudent]
    answers 200, removes the record and also the owning User; every other
    User and every other StudentRecord is unchanged. *)
Theorem adminDeleteStudent_removes_record_and_owner s id st :
  students s !! id = Some st →
  let '(r, s') := adminDeleteStudent s id in
  r = success 200 "Student deleted successfully" None
  ∧ students s' !! id = None
  ∧ users s' !! userId st = None
  ∧ (∀ j, j ≠ id → students s' !! j = students s !! j)
  ∧ (∀ u, u ≠ userId st → users s' !! u = users s !! u).
Proof.
  intros Hst. unfold adminDeleteStudent. rewrite Hst. simpl.
  repeat split.
  - apply lookup_delete_eq.
  - apply lookup_delete_eq.
  - intros j Hj. by apply lookup_delete_ne.
  - intros u Hu. by apply lookup_delete_ne.
Qed.

Lemma adminDeleteStudent_removes_record_and_owner_witness :
  let '(r, s') := adminDeleteStudent sampleStore 3%N in
  r = success 200 "Student deleted successfully" None
  ∧ students s' !! 3%N = None
  ∧ users s' !! userId (sampleStudent 2 "STU1") = None
  ∧ (∀ j, j ≠ 3%N → students s' !! j = students sampleStore !! j)
  ∧ (∀ u, u ≠ userId (sampleStudent 2 "STU1") →
       users s' !! u = users sampleStore !! u).
Proof.
  apply (adminDeleteStudent_removes_record_and_owner sampleStore 3%N
           (sampleStudent 2 "STU1")).
  reflexivity.
Defined.

End DeleteStudentFacts.

(* ===================================================================== *)
(** * The last-admin guard *)
(* ===================================================================== *)

Section LastAdminFacts.

Lemma adminCount_set_students f s :
  adminCount (set_students f s) = adminCount s.
Proof. reflexivity. Qed.

Lemma adminCount_delete_admin s id user :
  users s !! id = Some user → isAdmin user = true →
  adminCount (set_users (delete id) s) = pred (adminCount s).
Proof.
  intros Hu Ha. unfold adminCount. simpl.
  by eapply countDocuments_delete_true.
Qed.

Lemma adminCount_delete_other s id user :
  users s !! id = Some user → isAdmin user = false →
  adminCount (set_users (delete id) s) = adminCount s.
Proof.
  intros Hu Ha. unfold adminCount. simpl.
  by eapply countDocuments_delete_false.
Qed.

(** [deleteUser] changes the number of admins only when it deletes one. *)
Lemma deleteUser_adminCount s id :
  (1 ≤ adminCount s)%nat → (1 ≤ adminCount (deleteUser s id).2)%nat.
Proof.
  intros Hone. unfold deleteUser.
  destruct (users s !! id) as [user|] eqn:Hu; [|done].
  destruct (isAdmin user) eqn:Ha; simpl.
  - destruct (Nat.leb_spec (adminCount s) 1) as [Hle|Hgt]; [done|].
    assert (isStudent user = false) as ->.
    { unfold isAdmin, isStudent in *. apply String.eqb_eq in Ha.
      by rewrite Ha. }
    simpl. rewrite (adminCount_delete_admin _ _ _ Hu Ha). lia.
  - destruct (isStudent user); simpl;
      rewrite ?adminCount_set_students, (adminCount_delete_other _ _ _ Hu Ha);
      done.
Qed.

(** C3, as stated, fails: deactivating the only admin through
    PUT /api/admin/users/:id succeeds and leaves no active admin. *)
Lemma updateUser_deactivates_last_admin :
  ¬ (∀ (E : Externals) s id b,
       (1 ≤ activeAdminCount s)%nat →
       (1 ≤ activeAdminCount (updateUser s id b).2)%nat).
Proof.
  intros Hclaim.
  specialize (Hclaim sampleExternals sampleStore 1%N
    {| UpdateUser.firstName := None; UpdateUser.lastName := None;
       UpdateUser.email := None; UpdateUser.role := None;
       UpdateUser.isActive := Some (JBool false) |}).
  vm_compute in Hclaim.
  specialize (Hclaim (le_n 1)). inversion Hclaim.
Qed.

(** C3 (amended): the guard of DELETE /api/admin/users/:id.  Deleting an
    admin while at most one User has the role admin fails with 400 and
    leaves the store unchanged; deleting an admin while at least two exist
    succeeds and removes that User; and no call of [deleteUser] brings the
    number of admin-role Users from a positive value to zero. *)
Theorem deleteUser_last_admin_guard s id :
  (1 ≤ adminCount s)%nat →
  (1 ≤ adminCount (deleteUser s id).2)%nat
  ∧ ∀ user, users s !! id = Some user → role user = "admin" →
      if (adminCount s <=? 1)%nat
      then deleteUser s id
           = (failure 400 "Cannot delete the last admin user", s)
      else deleteUser s id
           = (success 200 "User deleted successfully" None,
              set_users (delete id) s).
Proof.
  intros Hone. split; [by apply deleteUser_adminCount|].
  intros user Hu Hrole. unfold deleteUser. rewrite Hu.
  unfold isAdmin, isStudent. rewrite Hrole. simpl.
  destruct (adminCount s <=? 1)%nat; done.
Qed.

Lemma deleteUser_last_admin_guard_witness :
  (1 ≤ adminCount (deleteUser sampleStore 1%N).2)%nat
  ∧ ∀ user, users sampleStore !! 1%N = Some user → role user = "admin" →
      if (adminCount sampleStore <=? 1)%nat
      then deleteUser sampleStore 1%N
           = (failure 400 "Cannot delete the last admin user", sampleStore)
      else deleteUser sampleStore 1%N
           = (success 200 "User deleted successfully" None,
              set_users (delete 1%N) sampleStore).
Proof.
  apply (deleteUser_last_admin_guard sampleStore 1%N).
  vm_compute. lia.
Defined.

End LastAdminFacts.

(* ===================================================================== *)
(** * Creating a student *)
(* ===================================================================== *)



Section CreateStudentFacts.
Context `{Externals}.

(** The two uniqueness checks come before any write: a conflict answers 400
    and leaves the store as it was. *)
Lemma adminCreateStudent_conflict s now b :
  validateCreateStudent b = [] →
  is_Some (existingUser s (CreateStudent.email b) (CreateStudent.username b))
  ∨ is_Some (Query.findOne
               (λ st, String.eqb (studentId st) (CreateStudent.studentId b))
               (students s)) →
  http (adminCreateStudent s now b).1 = 400
  ∧ (adminCreateStudent s now b).2 = s.
Proof.
  intros Hv Hc. unfold adminCreateStudent. rewrite Hv.
  case_bool_decide; [done|].
  case_bool_decide; [done|]. tauto.
Qed.


End CreateStudentFacts.


Example adminCreateStudent_created :
  http (@adminCreateStudent sampleExternals sampleStore 7
          (sampleCreateBody 9)).1 = 201.
Proof. vm_compute. reflexivity. Qed.

(* ===================================================================== *)
(** * Listing students *)
(* ===================================================================== *)

Section ListFacts.

(** The filter is evaluated on the Students collection alone: the answer
    does not depend on the Users collection. *)
Lemma adminListStudents_ignores_users s f q :
  adminListStudents (set_users f s) q = adminListStudents s q.
Proof. reflexivity. Qed.

(** None of the three [userId.*] alternatives of the [$or] holds of a
    stored Student, whatever the pattern. *)
Lemma userId_alternative_never_holds st k pattern options :
  ListStudents.condHolds (ListStudents.Regex pattern options)
    (ListStudents.resolve st ["userId"; k])
  = (λ _, false) <$> ListStudents.regexMatch pattern options "".
Proof. reflexivity. Qed.

(** So the [$or] built for [search] holds of a stored Student exactly when
    the pattern matches its [studentId]. *)
Lemma search_clause_is_studentId_only st pattern :
  ListStudents.clauseHolds st
    (ListStudents.Or
       [ (["studentId"], ListStudents.Regex pattern "i");
         (["userId"; "firstName"], ListStudents.Regex pattern "i");
         (["userId"; "lastName"], ListStudents.Regex pattern "i");
         (["userId"; "email"], ListStudents.Regex pattern "i") ])
  = ListStudents.regexMatch pattern "i" (studentId st).
Proof.
  unfold ListStudents.clauseHolds. simpl.
  unfold ListStudents.regexMatch.
  destruct (ListStudents.literal _ pattern) as [r|]; simpl; [|done].
  by rewrite !orb_false_r.
Qed.

(** For a search string without metacharacters the whole filter of a
    search-only query selects the records whose [studentId] contains the
    string, letter case ignored. *)
Lemma search_filter_effective st pattern r :
  pattern ≠ "" →
  ListStudents.literal true pattern = Some r →
  ListStudents.matches (ListStudents.buildFilter (searchQuery pattern)) st
  = Some (ListSpec.containsI pattern (studentId st)).
Proof.
  intros Hne Hlit. unfold ListStudents.buildFilter, searchQuery. simpl.
  apply String.eqb_neq in Hne. rewrite Hne. simpl.
  unfold ListStudents.matches.
  change (mapM (ListStudents.clauseHolds st) [?c])
    with (x ← ListStudents.clauseHolds st c; Some [x]).
  rewrite search_clause_is_studentId_only.
  rewrite (regexMatch_literal _ _ _ Hlit). simpl. by rewrite andb_true_r.
Qed.

(** A search on the student id finds the sample record. *)
Example search_by_studentId :
  adminListStudents sampleStore (searchQuery "stu")
  = Some (successData 200
            (DataStudents [(3%N, sampleStudent 2 "STU1")] 1 1 1 false false)).
Proof. vm_compute. reflexivity. Qed.

(** C5: the search on the sample store for "asha".  The owning User of the
    record STU1 has the first name "Asha" and the e-mail
    "asha@college.com", so the filter the specification describes selects
    the record; the handler returns an empty page with a total of 0. *)
Theorem search_misses_owner_fields :
  ListSpec.selected sampleStore (searchQuery "asha") (sampleStudent 2 "STU1")
  = true
  ∧ adminListStudents sampleStore (searchQuery "asha")
    = Some (successData 200 (DataStudents [] 1 0 0 false false)).
Proof. split; vm_compute; reflexivity. Qed.

End ListFacts.

(* ===================================================================== *)
(** * Graduation date *)
(* ===================================================================== *)

Section GraduationFacts.
Context `{Externals}.




(** A body that carries only the status is always served. *)
Lemma adminUpdateStudent_statusOnly s now id st :
  students s !! id = Some st →
  http (adminUpdateStudent s now id (statusOnlyBody "graduated")).1 = 200.
Proof. intros Hst. unfold adminUpdateStudent. simpl. rewrite Hst. done. Qed.


End GraduationFacts.


(** Graduating the sample record at instant 500 and again at instant 900:
    the date stays 500. *)
Example graduate_twice :
  let s1 := (adminSetStatus sampleStore 500 3%N "graduated").2 in
  let s2 := (adminSetStatus s1 900 3%N "graduated").2 in
  graduationDate <$> students s1 !! 3%N = Some (Some 500)
  ∧ graduationDate <$> students s2 !! 3%N = Some (Some 500).
Proof. split; vm_compute; reflexivity. Qed.

(* ===================================================================== *)
(** * Self-service profile update *)
(* ===================================================================== *)

Section ProfileFacts.




(** The example of the specification on the sample record: the city
    becomes "X", the other four subfields keep their values. *)
Example updateOwnProfile_city_only :
  let s' := (updateOwnProfile sampleStore 2%N cityOnlyBody).2 in
  (λ st, map_to_list (address st)) <$> students s' !! 3%N
  = Some (map_to_list
            ({[ "street" := "1 Main Road"; "city" := "X"; "state" := "MH";
                "zipCode" := "411001"; "country" := "India" ]} : strobj)).
Proof. vm_compute. reflexivity. Qed.

End ProfileFacts.

(* ===================================================================== *)
(** * Login *)
(* ===================================================================== *)

Section LoginFacts.
Context `{Externals}.

(** C8: two login requests that pass the request validation, one with an
    e-mail that no User has, one with the e-mail of an active User and a
    password that does not verify, get the same answer: status 401 with the
    envelope [{status: 'error', message: 'Invalid credentials'}]; neither
    changes the store. *)
Theorem login_same_failure_for_unknown_and_wrong_password
  env s now e1 p1 e2 p2 id user :
  isEmail e1 = true → Validator.notEmpty p1 = true →
  isEmail e2 = true → Validator.notEmpty p2 = true →
  Query.findOne (λ u, String.eqb (email u) e1) (users s) = None →
  Query.findOne (λ u, String.eqb (email u) e2) (users s) = Some (id, user) →
  isActive user = true →
  comparePassword user p2 = false →
  (login env s now e1 p1).1 = (login env s now e2 p2).1
  ∧ login env s now e1 p1 = (failure 401 "Invalid credentials", s)
  ∧ login env s now e2 p2 = (failure 401 "Invalid credentials", s).
Proof.
  intros He1 Hp1 He2 Hp2 Hnone Hsome Hact Hcmp.
  assert (login env s now e1 p1 = (failure 401 "Invalid credentials", s)) as H1.
  { unfold login. rewrite He1, Hp1. simpl. by rewrite Hnone. }
  assert (login env s now e2 p2 = (failure 401 "Invalid credentials", s)) as H2.
  { unfold login. rewrite He2, Hp2. simpl. by rewrite Hsome, Hact, Hcmp. }
  rewrite H1, H2. done.
Qed.

(** The same request against two stores, one where no User has the e-mail
    and one where an active User has it but the password does not verify:
    the answers are equal, whether or not the request passes validation. *)
Lemma login_answer_hides_existence env s1 s2 now e p id user :
  Query.findOne (λ u, String.eqb (email u) e) (users s1) = None →
  Query.findOne (λ u, String.eqb (email u) e) (users s2) = Some (id, user) →
  isActive user = true →
  comparePassword user p = false →
  (login env s1 now e p).1 = (login env s2 now e p).1.
Proof.
  intros Hnone Hsome Hact Hcmp. unfold login.
  destruct (_ ++ _)%list; [|done].
  by rewrite Hnone, Hsome, Hact, Hcmp.
Qed.

(** The e-mail of a request "matches no User" exactly when the query of the
    handler finds none. *)
Lemma login_unknown_email s e :
  Query.findOne (λ u, String.eqb (email u) e) (users s) = None
  ↔ ∀ id u, users s !! id = Some u → email u ≠ e.
Proof.
  rewrite findOne_none_iff. split; intros Hall id u Hu.
  - intros <-. specialize (Hall id u Hu). by rewrite String.eqb_refl in Hall.
  - apply String.eqb_neq. by eapply Hall.
Qed.

End LoginFacts.

Lemma login_same_failure_for_unknown_and_wrong_password_witness :
  (@login sampleExternals sampleEnv sampleStore 10
     "nobody@college.com" "secret1").1
  = (@login sampleExternals sampleEnv sampleStore 10
       "asha@college.com" "guess99").1
  ∧ @login sampleExternals sampleEnv sampleStore 10
      "nobody@college.com" "secret1"
    = (failure 401 "Invalid credentials", sampleStore)
  ∧ @login sampleExternals sampleEnv sampleStore 10
      "asha@college.com" "guess99"
    = (failure 401 "Invalid credentials", sampleStore).
Proof.
  apply (@login_same_failure_for_unknown_and_wrong_password sampleExternals
           sampleEnv sampleStore 10 "nobody@college.com" "secret1"
           "asha@college.com" "guess99" 2%N
           (sampleUser "asha" "Asha" "asha@college.com" "student" true));
    vm_compute; reflexivity.
Defined.

Example login_succeeds :
  http (@login sampleExternals sampleEnv sampleStore 10
          "asha@college.com" "secret1").1 = 200.
Proof. vm_compute. reflexivity. Qed.

(* ===================================================================== *)
(** * Registration and the first admin *)
(* ===================================================================== *)

Section RegisterFacts.
Context `{Externals}.

Lemma adminCount_insert_admin s id u :
  role u = "admin" →
  (1 ≤ adminCount (set_users (<[id := u]>) s))%nat.
Proof.
  intros Hr. unfold adminCount. simpl. apply countDocuments_insert_true.
  unfold isAdmin. by rewrite Hr.
Qed.

(** An admin registration without a token while an admin exists. *)
Lemma register_admin_needs_token env s now a b :
  readyState env = 1 → validateRegister b = [] →
  Register.role b = "admin" → bearerToken a = None →
  adminCount s ≠ 0%nat →
  register env s now a b
  = (failure 401 "Authentication required to register new users", s).
Proof.
  intros Hdb Hv Hr Ha Hc. unfold register, isFirstAdmin, registerAuth.
  rewrite Hdb, Hv, Hr, Ha. simpl.
  destruct (Nat.eqb_spec (adminCount s) 0); done.
Qed.

(** An admin registration without a token succeeds only as first admin. *)
Lemma register_admin_success_first env s now a b :
  Register.role b = "admin" → bearerToken a = None →
  http (register env s now a b).1 = 201 →
  adminCount s = 0%nat
  ∧ ∃ u token, data (register env s now a b).1
               = Some (DataSession u token (Some true)).
Proof.
  intros Hr Ha. unfold register, registerAccount, isFirstAdmin, registerAuth.
  destruct (negb (readyState env =? 1)); [done|].
  destruct (validateRegister b); [|done].
  rewrite Hr, Ha. simpl.
  destruct (Nat.eqb_spec (adminCount s) 0) as [Hz|Hnz]; simpl; [|done].
  case_bool_decide; [done|].
  destruct (generateToken env _); simpl; [|done].
  intros _. split; [done|]. by eexists _, _.
Qed.

(** The first admin registers without a token. *)
Lemma register_first_admin env s now a b secret :
  readyState env = 1 → validateRegister b = [] →
  Register.role b = "admin" →
  adminCount s = 0%nat →
  existingUser s (Register.email b) (Register.username b) = None →
  JWT_SECRET env = Some secret →
  let user :=
    newUser (Register.username b) (Register.email b) (Register.password b)
      (Register.firstName b) (Register.lastName b) "admin" defaultIsActive in
  register env s now a b
  = (success 201 "First admin user registered successfully"
       (Some (DataSession (getPublicProfile (newObjectId s) user)
                (jwtSign secret (newObjectId s)) (Some true))),
     set_users (<[newObjectId s := user]>) s).
Proof.
  intros Hdb Hv Hr Hc He Hk.
  unfold register, registerAccount, isFirstAdmin, generateToken.
  rewrite Hdb, Hv, Hr, Hc, He, Hk. simpl. done.
Qed.

(** A student registration never consults the token. *)
Lemma register_student_ignores_token env s now a1 a2 b :
  Register.role b = "student" →
  register env s now a1 b = register env s now a2 b.
Proof.
  intros Hr. unfold register, isFirstAdmin. rewrite Hr. simpl. done.
Qed.

(** C9: for an admin registration without a token (on a connected database,
    with a body that passes validation): it succeeds only if no admin User
    exists, and the answer then carries [isFirstAdmin = true]; with no
    admin, no conflicting User and a configured secret it does succeed, and
    any further admin registration without a token is then refused with
    401; while an admin exists it is refused with 401 leaving the store
    unchanged.  A registration with role student is served the same with or
    without a token. *)
Theorem register_first_admin_bootstrap env s now a b :
  readyState env = 1 → validateRegister b = [] →
  Register.role b = "admin" → bearerToken a = None →
  let '(r, s') := register env s now a b in
  (http r = 201 →
     adminCount s = 0%nat
     ∧ ∃ u token, data r = Some (DataSession u token (Some true)))
  ∧ (adminCount s = 0%nat →
     existingUser s (Register.email b) (Register.username b) = None →
     is_Some (JWT_SECRET env) →
     http r = 201
     ∧ ∀ now2 a2 b2,
         validateRegister b2 = [] → Register.role b2 = "admin" →
         bearerToken a2 = None →
         register env s' now2 a2 b2
         = (failure 401 "Authentication required to register new users", s'))
  ∧ (adminCount s ≠ 0%nat →
     r = failure 401 "Authentication required to register new users"
     ∧ s' = s)
  ∧ (∀ bs a1 a2, Register.role bs = "student" →
       register env s now a1 bs = register env s now a2 bs).
Proof.
  intros Hdb Hv Hr Ha.
  destruct (register env s now a b) as [r s'] eqn:Hreg.
  split; [|split; [|split]].
  - intros H201. pose proof (register_admin_success_first env s now a b Hr Ha).
    rewrite Hreg in *. auto.
  - intros Hc He [secret Hk].
    rewrite (register_first_admin env s now a b secret Hdb Hv Hr Hc He Hk)
      in Hreg.
    injection Hreg as <- <-. split; [done|].
    intros now2 a2 b2 Hv2 Hr2 Ha2.
    apply register_admin_needs_token; try done.
    pose proof (adminCount_insert_admin s (newObjectId s)
      (newUser (Register.username b) (Register.email b) (Register.password b)
         (Register.firstName b) (Register.lastName b) "admin" defaultIsActive)
      eq_refl).
    lia.
  - intros Hc.
    rewrite (register_admin_needs_token env s now a b Hdb Hv Hr Ha Hc) in Hreg.
    by injection Hreg as <- <-.
  - intros bs a1 a2 Hs. by apply register_student_ignores_token.
Qed.

End RegisterFacts.

Lemma register_first_admin_bootstrap_witness :
  let '(r, s') :=
    @register sampleExternals sampleEnv emptyStore 5 None
      (sampleRegisterBody "root" "root@college.com" "admin") in
  (http r = 201 →
     adminCount emptyStore = 0%nat
     ∧ ∃ u token, data r = Some (DataSession u token (Some true)))
  ∧ (adminCount emptyStore = 0%nat →
     @existingUser emptyStore
       (Register.email (sampleRegisterBody "root" "root@college.com" "admin"))
       (Register.username (sampleRegisterBody "root" "root@college.com" "admin"))
     = None →
     is_Some (JWT_SECRET sampleEnv) →
     http r = 201
     ∧ ∀ now2 a2 b2,
         @validateRegister sampleExternals b2 = [] →
         Register.role b2 = "admin" →
         bearerToken a2 = None →
         @register sampleExternals sampleEnv s' now2 a2 b2
         = (failure 401 "Authentication required to register new users", s'))
  ∧ (adminCount emptyStore ≠ 0%nat →
     r = failure 401 "Authentication required to register new users"
     ∧ s' = emptyStore)
  ∧ (∀ bs a1 a2, Register.role bs = "student" →
       @register sampleExternals sampleEnv emptyStore 5 a1 bs
       = @register sampleExternals sampleEnv emptyStore 5 a2 bs).
Proof.
  apply (@register_first_admin_bootstrap sampleExternals sampleEnv emptyStore 5
           None (sampleRegisterBody "root" "root@college.com" "admin"));
    vm_compute; reflexivity.
Defined.

(** A student registration without [studentData]: the placeholder phone
    numbers do not match the pattern of the schema, so the profile is not
    saved and the answer is 500. *)
Example register_student_placeholders :
  let r := @register sampleExternals sampleEnv emptyStore 5 None
             (sampleRegisterBody "stud" "stud@college.com" "student") in
  http r.1 = 500 ∧ students r.2 = ∅ ∧ size (users r.2) = 1%nat.
Proof. vm_compute. repeat split; reflexivity. Qed.

(** The two calls of the specification's example, on the empty store. *)
Example register_admin_twice :
  let b1 := sampleRegisterBody "root" "root@college.com" "admin" in
  let b2 := sampleRegisterBody "boss" "boss@college.com" "admin" in
  let '(r1, s1) := @register sampleExternals sampleEnv emptyStore 5 None b1 in
  let '(r2, s2) := @register sampleExternals sampleEnv s1 6 None b2 in
  http r1 = 201
  ∧ r2 = failure 401 "Authentication required to register new users"
  ∧ s2 = s1.
Proof. vm_compute. repeat split; reflexivity. Qed.

(* ===================================================================== *)
(** * The statuses written through the API *)
(* ===================================================================== *)

Section StatusFacts.
Context `{Externals}.

Lemma isIn_elem_of l st : Validator.isIn l st = true ↔ st ∈ l.
Proof.
  unfold Validator.isIn. rewrite existsb_exists. split.
  - intros (x & Hin & Heq). apply String.eqb_eq in Heq as ->.
    by apply list_elem_of_In.
  - intros Hin. exists st. split; [by apply list_elem_of_In|].
    apply String.eqb_refl.
Qed.

Lemma routeStatuses_exclude st :
  Validator.isIn routeStatuses st = true →
  st ≠ "transferred" ∧ st ≠ "dropped".
Proof. intros Hin. split; intros ->; vm_compute in Hin; discriminate. Qed.

Lemma routeStatuses_reject st :
  st ∉ routeStatuses → Validator.isIn routeStatuses st = false.
Proof.
  intros Hnot. destruct (Validator.isIn routeStatuses st) eqn:Hin; [|done].
  by apply isIn_elem_of in Hin.
Qed.

Lemma transferred_dropped_not_route_statuses :
  ("transferred" ∉ routeStatuses) ∧ ("dropped" ∉ routeStatuses).
Proof.
  split; intros Hin%isIn_elem_of; vm_compute in Hin; discriminate.
Qed.

Lemma statusInvariant_same_students s s' :
  students s' = students s → statusInvariant s → statusInvariant s'.
Proof. intros Heq Hinv id st. rewrite Heq. apply Hinv. Qed.

Lemma statusInvariant_insert s id st :
  statusInvariant s →
  status st ≠ "transferred" ∧ status st ≠ "dropped" →
  statusInvariant (set_students (<[id := st]>) s).
Proof.
  intros Hinv Hst j st'. simpl. rewrite lookup_insert.
  case_decide; [by intros [= <-]|]. apply Hinv.
Qed.

Lemma statusInvariant_delete s id :
  statusInvariant s → statusInvariant (set_students (delete id) s).
Proof.
  intros Hinv j st'. simpl. rewrite lookup_delete.
  case_decide; [done|]. apply Hinv.
Qed.

Lemma statusInvariant_findOneAndDelete s cond :
  statusInvariant s →
  statusInvariant (set_students (Query.findOneAndDelete cond) s).
Proof.
  intros Hinv. unfold Query.findOneAndDelete.
  destruct (Query.findOne cond (students s)) as [[k ?]|] eqn:Hf.
  - intros j st'. simpl. rewrite Hf. rewrite lookup_delete.
    case_decide; [done|]. apply Hinv.
  - intros j st'. simpl. rewrite Hf. apply Hinv.
Qed.

(** An update that carries no status, or one of the route statuses, keeps
    the property of the record. *)
Lemma applyStudentUpdate_status d st :
  status st ≠ "transferred" ∧ status st ≠ "dropped" →
  (∀ x, up_status d = Some x → Validator.isIn routeStatuses x = true) →
  status (applyStudentUpdate d st) ≠ "transferred"
  ∧ status (applyStudentUpdate d st) ≠ "dropped".
Proof.
  intros Hst Hd. simpl. destruct (up_status d) as [x|]; simpl; [|done].
  apply routeStatuses_exclude. by apply Hd.
Qed.

Lemma newStudent_status now uid sid dob g ph a ac gu em :
  status (Schema.newStudent now uid sid dob g ph a ac gu em) = "active".
Proof. reflexivity. Qed.

(** The route validator of PUT /api/admin/students/:id on [status]. *)
Lemma validateUpdateStudent_status b st :
  validateUpdateStudent b = [] →
  UpdateStudent.status b = Some st →
  Validator.isIn routeStatuses st = true.
Proof.
  unfold validateUpdateStudent. intros Hv Hs.
  repeat (apply app_eq_nil in Hv as [_ Hv]).
  rewrite Hs in Hv. simpl in Hv. by apply check_nil in Hv.
Qed.

Lemma listValidate_status q st :
  ListStudents.validateQuery q = [] →
  ListStudents.Req.status q = Some st →
  Validator.isIn routeStatuses st = true.
Proof.
  unfold ListStudents.validateQuery. intros Hv Hs.
  apply app_eq_nil in Hv as [_ Hv]. apply app_eq_nil in Hv as [_ Hv].
  apply app_eq_nil in Hv as [Hv _].
  rewrite Hs in Hv. simpl in Hv. by apply check_nil in Hv.
Qed.

Lemma whenTruthy_Some o x : whenTruthy o = Some x → o = Some x.
Proof. unfold whenTruthy. by destruct (truthy_str o). Qed.

(** ** Each handler preserves the invariant *)

Lemma adminSetStatus_statusInvariant s now id st :
  statusInvariant s → statusInvariant (adminSetStatus s now id st).2.
Proof.
  intros Hinv. unfold adminSetStatus.
  destruct (Validator.isIn routeStatuses st) eqn:Hin; simpl; [|done].
  destruct (students s !! id) as [student|] eqn:Hst; simpl; [|done].
  apply statusInvariant_insert; [done|].
  apply applyStudentUpdate_status; [by eapply Hinv|].
  simpl. by intros x [= <-].
Qed.

Lemma adminUpdateStudent_statusInvariant s now id b :
  statusInvariant s → statusInvariant (adminUpdateStudent s now id b).2.
Proof.
  intros Hinv. unfold adminUpdateStudent.
  destruct (validateUpdateStudent b) eqn:Hv; simpl; [|done].
  destruct (students s !! id) as [student|] eqn:Hst; simpl; [|done].
  destruct (_ && _); simpl; [done|].
  match goal with
  | |- context [if ?c then set_users ?f s else s] =>
      remember (if c then set_users f s else s) as s1 eqn:Hs1
  end.
  assert (statusInvariant s1) as Hinv1.
  { apply (statusInvariant_same_students s); [|done].
    rewrite Hs1. by destruct (_ || _). }
  destruct (validateStudentUpdate _); simpl; [|done].
  apply statusInvariant_insert; [done|].
  apply applyStudentUpdate_status; [by eapply Hinv|].
  simpl. intros x Hx%whenTruthy_Some.
  by eapply validateUpdateStudent_status.
Qed.

Lemma adminCreateStudent_statusInvariant s now b :
  statusInvariant s → statusInvariant (adminCreateStudent s now b).2.
Proof.
  intros Hinv. unfold adminCreateStudent.
  destruct (validateCreateStudent b); simpl; [|done].
  case_bool_decide; simpl; [done|].
  case_bool_decide; simpl; [done|].
  destruct (Schema.validate _); simpl.
  - apply statusInvariant_insert; [|done].
    by apply (statusInvariant_same_students s).
  - by apply (statusInvariant_same_students s).
Qed.

Lemma adminDeleteStudent_statusInvariant s id :
  statusInvariant s → statusInvariant (adminDeleteStudent s id).2.
Proof.
  intros Hinv. unfold adminDeleteStudent.
  destruct (students s !! id); simpl; [|done].
  apply (statusInvariant_same_students (set_students (delete id) s));
    [done|]. by apply statusInvariant_delete.
Qed.

Lemma deleteUser_statusInvariant s id :
  statusInvariant s → statusInvariant (deleteUser s id).2.
Proof.
  intros Hinv. unfold deleteUser.
  destruct (users s !! id) as [user|]; simpl; [|done].
  destruct (_ && _); simpl; [done|].
  assert (statusInvariant (set_users (delete id) s)) as Hinv1
    by by apply (statusInvariant_same_students s).
  destruct (isStudent user); [|done].
  by apply statusInvariant_findOneAndDelete.
Qed.

Lemma updateOwnProfile_statusInvariant s caller b :
  statusInvariant s → statusInvariant (updateOwnProfile s caller b).2.
Proof.
  intros Hinv. unfold updateOwnProfile.
  destruct (validateUpdateProfile b); simpl; [|done].
  destruct (Query.findOne _ (students s)) as [[id student]|] eqn:Hf;
    simpl; [|done].
  destruct (validateStudentUpdate _); simpl; [|done].
  apply findOne_Some in Hf as [Hst _].
  apply statusInvariant_insert; [done|].
  apply applyStudentUpdate_status; [by eapply Hinv|]. done.
Qed.

Lemma registerAccount_statusInvariant env s now b firstAdmin :
  statusInvariant s →
  statusInvariant (registerAccount env s now b firstAdmin).2.
Proof.
  intros Hinv. unfold registerAccount. cbv zeta.
  case_bool_decide; [done|].
  remember (set_users _ s) as s1 eqn:Hs1.
  assert (statusInvariant s1) as Hinv1
    by (rewrite Hs1; by apply (statusInvariant_same_students s)).
  destruct (String.eqb (Register.role b) "student").
  - destruct (Schema.validate _); [|done].
    assert (statusInvariant
              (set_students
                 (<[newObjectId s1 :=
                      Register.studentOf now (newObjectId s)
                        (default Register.noStudentData
                           (Register.studentData b))]>) s1)) as Hinv2
      by by apply statusInvariant_insert.
    by destruct (generateToken env _).
  - by destruct (generateToken env _).
Qed.

Lemma register_statusInvariant env s now a b :
  statusInvariant s → statusInvariant (register env s now a b).2.
Proof.
  intros Hinv. unfold register.
  destruct (negb (readyState env =? 1)); [done|].
  destruct (validateRegister b); [|done]. cbv zeta.
  destruct (negb _ && negb _).
  - destruct (registerAuth env s a); [done|].
    by apply registerAccount_statusInvariant.
  - by apply registerAccount_statusInvariant.
Qed.

Lemma login_statusInvariant env s now e p :
  statusInvariant s → statusInvariant (login env s now e p).2.
Proof.
  intros Hinv. apply (statusInvariant_same_students s); [|done].
  unfold login. destruct (_ ++ _)%list; simpl; [|done].
  destruct (Query.findOne _ _) as [[??]|]; simpl; [|done].
  destruct (negb _); simpl; [done|].
  destruct (negb _); simpl; [done|].
  by destruct (generateToken env _).
Qed.

Lemma updateProfile_statusInvariant s caller u b :
  statusInvariant s → statusInvariant (updateProfile s caller u b).2.
Proof.
  intros Hinv. apply (statusInvariant_same_students s); [|done].
  unfold updateProfile. destruct (_ ++ _)%list; simpl; [|done].
  by destruct (match Profile.email b with Some _ => _ | None => _ end).
Qed.

Lemma changePassword_statusInvariant s caller c n :
  statusInvariant s → statusInvariant (changePassword s caller c n).2.
Proof.
  intros Hinv. apply (statusInvariant_same_students s); [|done].
  unfold changePassword. destruct (_ ++ _)%list; simpl; [|done].
  destruct (users s !! caller); simpl; [|done].
  by destruct (negb _).
Qed.

Lemma createUser_statusInvariant s b :
  statusInvariant s → statusInvariant (createUser s b).2.
Proof.
  intros Hinv. apply (statusInvariant_same_students s); [|done].
  unfold createUser. destruct (validateRegister b); simpl; [|done].
  by case_bool_decide.
Qed.

Lemma updateUser_statusInvariant s id b :
  statusInvariant s → statusInvariant (updateUser s id b).2.
Proof.
  intros Hinv. apply (statusInvariant_same_students s); [|done].
  unfold updateUser. destruct (validateUpdateUser b); simpl; [|done].
  destruct (users s !! id); simpl; [|done].
  by destruct (match UpdateUser.email b with Some _ => _ | None => _ end).
Qed.

Lemma guarded_statusInvariant guard env s a handler :
  statusInvariant s →
  (∀ id u, statusInvariant (handler id u).2) →
  statusInvariant (guarded guard env s a handler).2.
Proof.
  intros Hinv Hh. unfold guarded.
  destruct (protect env s a) as [r|[id u]]; simpl; [done|].
  destruct (guard u); simpl; [done|]. apply Hh.
Qed.

Lemma handle_statusInvariant env s now r :
  statusInvariant s → statusInvariant (handle env s now r).2.
Proof.
  intros Hinv. destruct r; simpl;
    try (apply guarded_statusInvariant; [done|intros ??]).
  - by apply register_statusInvariant.
  - by apply login_statusInvariant.
  - by apply updateProfile_statusInvariant.
  - by apply changePassword_statusInvariant.
  - by apply adminCreateStudent_statusInvariant.
  - by apply adminUpdateStudent_statusInvariant.
  - by apply adminDeleteStudent_statusInvariant.
  - by apply adminSetStatus_statusInvariant.
  - by apply createUser_statusInvariant.
  - by apply updateUser_statusInvariant.
  - by apply deleteUser_statusInvariant.
  - by apply updateOwnProfile_statusInvariant.
Qed.

Lemma run_statusInvariant env trace :
  ∀ s, statusInvariant s → statusInvariant (run env s trace).
Proof.
  induction trace as [|[now r] rest IH]; intros s Hinv; simpl; [done|].
  apply IH. by apply handle_statusInvariant.
Qed.

(** C10: the three validators that read a status (status endpoint,
    general update endpoint, list filter) admit only active, inactive,
    suspended and graduated: a request that carries any other status, in
    particular ['transferred'] or ['dropped'], is answered with the
    validation error and changes nothing; and from a store in which no
    Student has one of these two statuses, no sequence of API requests
    reaches a store in which one has. *)
Theorem status_transferred_dropped_never_written env s0 trace :
  statusInvariant s0 →
  statusInvariant (run env s0 trace)
  ∧ (("transferred" ∉ routeStatuses) ∧ ("dropped" ∉ routeStatuses))
  ∧ ∀ st, st ∉ routeStatuses →
      (∀ s now id,
         adminSetStatus s now id st = (validationFailed ["Invalid status"], s))
      ∧ (∀ s now id b, UpdateStudent.status b = Some st →
           ∃ errs, adminUpdateStudent s now id b = (validationFailed errs, s))
      ∧ (∀ s q, ListStudents.Req.status q = Some st →
           ∃ errs, adminListStudents s q = Some (validationFailed errs)).
Proof.
  intros Hinv. split; [by apply run_statusInvariant|].
  split; [apply transferred_dropped_not_route_statuses|].
  intros st Hst. pose proof (routeStatuses_reject st Hst) as Hrej.
  split; [|split].
  - intros s now id. unfold adminSetStatus. rewrite Hrej. reflexivity.
  - intros s now id b Hb. unfold adminUpdateStudent.
    destruct (validateUpdateStudent b) eqn:Hv; [|by eexists].
    pose proof (validateUpdateStudent_status b st Hv Hb). congruence.
  - intros s q Hq. unfold adminListStudents.
    destruct (ListStudents.validateQuery q) eqn:Hv; [|by eexists].
    pose proof (listValidate_status q st Hv Hq). congruence.
Qed.

End StatusFacts.

Lemma sampleStore_statusInvariant : statusInvariant sampleStore.
Proof.
  intros id st Hl. unfold sampleStore in Hl. simpl in Hl.
  apply lookup_singleton_Some in Hl as [_ <-].
  split; discriminate.
Defined.

Lemma status_transferred_dropped_never_written_witness :
  statusInvariant (@run sampleExternals sampleEnv sampleStore sampleTrace)
  ∧ (("transferred" ∉ routeStatuses) ∧ ("dropped" ∉ routeStatuses))
  ∧ ∀ st, st ∉ routeStatuses →
      (∀ s now id,
         adminSetStatus s now id st = (validationFailed ["Invalid status"], s))
      ∧ (∀ s now id b, UpdateStudent.status b = Some st →
           ∃ errs, @adminUpdateStudent sampleExternals s now id b
                   = (validationFailed errs, s))
      ∧ (∀ s q, ListStudents.Req.status q = Some st →
           ∃ errs, adminListStudents s q = Some (validationFailed errs)).
Proof.
  apply (@status_transferred_dropped_never_written sampleExternals sampleEnv
           sampleStore sampleTrace).
  exact sampleStore_statusInvariant.
Defined.

(** The sample history: the first request is refused, the second sets the
    status. *)
Example sampleTrace_status :
  status <$> students (@run sampleExternals sampleEnv sampleStore sampleTrace)
             !! 3%N
  = Some "suspended".
Proof. vm_compute. reflexivity. Qed.

(* ===================================================================== *)
(** * The access-control gate *)
(* ===================================================================== *)

Section GateFacts.
Context `{Externals}.

(** [protect] lets a request through exactly when its header carries a
    token that verifies to the id of a stored, active User. *)
Lemma protect_inr env s a id u :
  protect env s a = inr (id, u)
  ↔ ∃ token, bearerToken a = Some token
             ∧ jwtVerify (JWT_SECRET env) token = Some id
             ∧ users s !! id = Some u
             ∧ isActive u = true.
Proof.
  unfold protect. split.
  - destruct (bearerToken a) as [token|]; [|done].
    destruct (jwtVerify _ token) as [i|] eqn:Hj; [|done].
    destruct (users s !! i) as [v|] eqn:Hv; [|done].
    destruct (isActive v) eqn:Ha; simpl; [|done].
    intros [= <- <-]. by exists token.
  - intros (token & -> & -> & -> & ->). done.
Qed.


Lemma authorize_None roles u :
  authorize roles u = None ↔ role u ∈ roles.
Proof.
  unfold authorize. rewrite <- isIn_elem_of.
  destruct (Validator.isIn roles (role u)); split; done.
Qed.




(** A deactivated User is refused at the gate whatever the role. *)
Lemma protect_refuses_deactivated env s a token id u :
  bearerToken a = Some token →
  jwtVerify (JWT_SECRET env) token = Some id →
  users s !! id = Some u → isActive u = false →
  protect env s a
  = inl (failure 401 "Account is deactivated. Please contact administrator.").
Proof. intros Hb Hj Hu Ha. unfold protect. by rewrite Hb, Hj, Hu, Ha. Qed.

End GateFacts.


(* ===================================================================== *)
(** * The bearer token of a header *)
(* ===================================================================== *)

Section BearerFacts.

Lemma split_without_separator sep t :
  hasChar sep t = false → split sep t = [t].
Proof.
  induction t as [|c t IH]; simpl; [done|].
  intros [Hc Ht]%orb_false_elim. rewrite Hc, (IH Ht). done.
Qed.

Lemma bearerToken_of_header t :
  t ≠ "" → hasChar " " t = false →
  bearerToken (Some ("Bearer " +:+ t)) = Some t.
Proof.
  intros Hne Hsp. unfold bearerToken.
  change (String.prefix "Bearer" ("Bearer " +:+ t)) with true.
  change (split " " ("Bearer " +:+ t)) with ("Bearer" :: split " " t).
  rewrite (split_without_separator _ _ Hsp). simpl.
  apply String.eqb_neq in Hne. by rewrite Hne.
Qed.

(** X2: the header ['Bearer ' + token] yields the token back, for every
    non-empty token without a space; and whatever [bearerToken] yields is
    not empty and comes from a header that starts with ['Bearer']. *)
Theorem bearerToken_round_trip t :
  t ≠ "" → hasChar " " t = false →
  bearerToken (Some ("Bearer " +:+ t)) = Some t
  ∧ ∀ h t', bearerToken (Some h) = Some t' →
      t' ≠ "" ∧ String.prefix "Bearer" h = true.
Proof.
  intros Hne Hsp. split; [by apply bearerToken_of_header|].
  intros h t'. unfold bearerToken.
  destruct (String.prefix "Bearer" h); [|done].
  destruct (split " " h !! 1%nat) as [x|]; [|done].
  destruct (String.eqb_spec x ""); [done|]. by intros [= <-].
Qed.

End BearerFacts.

Lemma bearerToken_round_trip_witness :
  bearerToken (Some ("Bearer " +:+ "t.1")) = Some "t.1"
  ∧ ∀ h t', bearerToken (Some h) = Some t' →
      t' ≠ "" ∧ String.prefix "Bearer" h = true.
Proof.
  apply (bearerToken_round_trip "t.1"); [discriminate|reflexivity].
Defined.

(* ===================================================================== *)
(** * Login: success, deactivated accounts, sessions *)
(* ===================================================================== *)

Section LoginMoreFacts.
Context `{Externals}.

(** What a 200 answer of [login] implies. *)
Lemma login_success_inv env s now e p :
  http (login env s now e p).1 = 200 →
  ∃ id user secret,
    Query.findOne (λ u, String.eqb (email u) e) (users s) = Some (id, user)
    ∧ isActive user = true
    ∧ comparePassword user p = true
    ∧ JWT_SECRET env = Some secret
    ∧ login env s now e p
      = (success 200 "Login successful"
           (Some (DataSession (getPublicProfile id (withLastLogin now user))
                    (jwtSign secret id) None)),
         set_users (<[id := withLastLogin now user]>) s).
Proof.
  unfold login, generateToken.
  destruct (_ ++ _)%list; [|done].
  destruct (Query.findOne _ _) as [[id user]|] eqn:Hf; [|done].
  destruct (isActive user) eqn:Ha; simpl; [|done].
  destruct (comparePassword user p) eqn:Hc; simpl; [|done].
  destruct (JWT_SECRET env) as [secret|] eqn:Hk; simpl; [|done].
  intros _. exists id, user, secret. repeat split; try done.
  unfold withLastLogin. rewrite Ha. reflexivity.
Qed.

(** X3: a successful login changes nothing but the [lastLogin] of the User
    that logged in: that User keeps every other field, every other User and
    every Student is untouched, and the token is the one signed for the
    User's id. *)
Theorem login_success_only_stamps_lastLogin env s now e p :
  http (login env s now e p).1 = 200 →
  ∃ id user secret,
    users s !! id = Some user ∧ email user = e
    ∧ JWT_SECRET env = Some secret
    ∧ data (login env s now e p).1
      = Some (DataSession (getPublicProfile id (withLastLogin now user))
                (jwtSign secret id) None)
    ∧ users (login env s now e p).2 !! id = Some (withLastLogin now user)
    ∧ (∀ j, j ≠ id → users (login env s now e p).2 !! j = users s !! j)
    ∧ students (login env s now e p).2 = students s.
Proof.
  intros H200.
  destruct (login_success_inv env s now e p H200)
    as (id & user & secret & Hf & Ha & Hc & Hk & ->).
  apply findOne_Some in Hf as [Hu He%String.eqb_eq].
  exists id, user, secret. simpl. repeat split; try done.
  - apply lookup_insert_eq.
  - intros j Hj. by apply lookup_insert_ne.
Qed.

(** X4: the token a successful login returns, sent back as
    ['Bearer ' + token], is accepted by [protect] on the store the login
    left and attaches the User that logged in, provided the token verifies
    to the id it was signed for and contains no space. *)
Theorem login_token_passes_protect env s now e p pu token fa :
  data (login env s now e p).1 = Some (DataSession pu token fa) →
  http (login env s now e p).1 = 200 →
  jwtVerify (JWT_SECRET env) token = Some (pu_id pu) →
  token ≠ "" → hasChar " " token = false →
  ∃ user, protect env (login env s now e p).2 (Some ("Bearer " +:+ token))
          = inr (pu_id pu, user)
          ∧ email user = e ∧ lastLogin user = Some now.
Proof.
  intros Hd H200 Hv Hne Hsp.
  destruct (login_success_inv env s now e p H200)
    as (id & user & secret & Hf & Ha & Hc & Hk & Heq).
  rewrite Heq in Hd |- *. simpl in Hd. injection Hd as <- <- <-.
  simpl in Hv. apply findOne_Some in Hf as [Hu He%String.eqb_eq].
  exists (withLastLogin now user). split; [|done].
  apply protect_inr. exists (jwtSign secret id).
  split; [by apply bearerToken_of_header|].
  split; [done|]. simpl. split; [apply lookup_insert_eq|done].
Qed.

(** X5: the e-mail of a deactivated User is answered 401 with the
    deactivation message before the password is looked at: the answer is
    the same for every password, differs from the answer for an unknown
    e-mail, and the store is unchanged. *)
Theorem login_deactivated_before_password env s now e p id user :
  isEmail e = true → Validator.notEmpty p = true →
  Query.findOne (λ u, String.eqb (email u) e) (users s) = Some (id, user) →
  isActive user = false →
  login env s now e p
  = (failure 401 "Account is deactivated. Please contact administrator.", s)
  ∧ (login env s now e p).1 ≠ failure 401 "Invalid credentials".
Proof.
  intros He Hp Hf Ha.
  assert (login env s now e p
          = (failure 401
               "Account is deactivated. Please contact administrator.", s))
    as ->.
  { unfold login. rewrite He, Hp. simpl. by rewrite Hf, Ha. }
  split; [done|]. simpl. discriminate.
Qed.

(** X6: the authentication block of [register] does not look at
    [isActive]: the token of a deactivated admin, which [protect] refuses
    with 401, lets an admin registration through to the account
    creation. *)
Theorem register_accepts_deactivated_admin_token
  env s now a b token id admin :
  bearerToken a = Some token →
  jwtVerify (JWT_SECRET env) token = Some id →
  users s !! id = Some admin →
  role admin = "admin" → isActive admin = false →
  readyState env = 1 → validateRegister b = [] →
  Register.role b = "admin" →
  protect env s a
  = inl (failure 401 "Account is deactivated. Please contact administrator.")
  ∧ register env s now a b = registerAccount env s now b false.
Proof.
  intros Hb Hj Hu Hr Ha Hdb Hv Hrole.
  split; [by eapply protect_refuses_deactivated|].
  assert (adminCount s ≠ 0%nat) as Hc.
  { intros Hz.
    pose proof (proj1 (countDocuments_zero isAdmin (users s)) Hz id admin Hu)
      as Hna.
    unfold isAdmin in Hna. by rewrite Hr in Hna. }
  unfold register, isFirstAdmin, registerAuth.
  rewrite Hdb, Hv, Hrole, Hb, Hj, Hu. simpl.
  destruct (Nat.eqb_spec (adminCount s) 0); [done|]. simpl.
  unfold isAdmin. by rewrite Hr.
Qed.

End LoginMoreFacts.

Lemma login_success_only_stamps_lastLogin_witness :
  ∃ id user secret,
    users sampleStore !! id = Some user ∧ email user = "asha@college.com"
    ∧ JWT_SECRET sampleEnv = Some secret
    ∧ data (@login sampleExternals sampleEnv sampleStore 10
              "asha@college.com" "secret1").1
      = Some (DataSession (getPublicProfile id (withLastLogin 10 user))
                (@jwtSign sampleExternals secret id) None)
    ∧ users (@login sampleExternals sampleEnv sampleStore 10
               "asha@college.com" "secret1").2 !! id
      = Some (withLastLogin 10 user)
    ∧ (∀ j, j ≠ id →
         users (@login sampleExternals sampleEnv sampleStore 10
                  "asha@college.com" "secret1").2 !! j
         = users sampleStore !! j)
    ∧ students (@login sampleExternals sampleEnv sampleStore 10
                  "asha@college.com" "secret1").2 = students sampleStore.
Proof.
  apply (@login_success_only_stamps_lastLogin sampleExternals sampleEnv
           sampleStore 10 "asha@college.com" "secret1").
  vm_compute. reflexivity.
Defined.

Lemma login_token_passes_protect_witness :
  ∃ user,
    @protect sampleExternals sampleEnv
      (@login sampleExternals sampleEnv sampleStore 10
         "asha@college.com" "secret1").2 (Some ("Bearer " +:+ "t.2"))
    = inr (pu_id (getPublicProfile 2%N
                    (withLastLogin 10
                       (sampleUser "asha" "Asha" "asha@college.com"
                          "student" true))), user)
    ∧ email user = "asha@college.com" ∧ lastLogin user = Some 10.
Proof.
  apply (@login_token_passes_protect sampleExternals sampleEnv sampleStore 10
           "asha@college.com" "secret1"
           (getPublicProfile 2%N
              (withLastLogin 10
                 (sampleUser "asha" "Asha" "asha@college.com" "student" true)))
           "t.2" None).
  - vm_compute. reflexivity.
  - vm_compute. reflexivity.
  - vm_compute. reflexivity.
  - discriminate.
  - reflexivity.
Defined.

Lemma login_deactivated_before_password_witness :
  @login sampleExternals sampleEnv storeWithDeactivatedAdmin 10
    "old@college.com" "secret1"
  = (failure 401 "Account is deactivated. Please contact administrator.",
     storeWithDeactivatedAdmin)
  ∧ (@login sampleExternals sampleEnv storeWithDeactivatedAdmin 10
       "old@college.com" "secret1").1
    ≠ failure 401 "Invalid credentials".
Proof.
  apply (@login_deactivated_before_password sampleExternals sampleEnv
           storeWithDeactivatedAdmin 10 "old@college.com" "secret1" 5%N
           (sampleUser "old" "Omar" "old@college.com" "admin" false));
    vm_compute; reflexivity.
Defined.

Lemma register_accepts_deactivated_admin_token_witness :
  @protect sampleExternals sampleEnv storeWithDeactivatedAdmin
    (Some "Bearer t.5")
  = inl (failure 401 "Account is deactivated. Please contact administrator.")
  ∧ @register sampleExternals sampleEnv storeWithDeactivatedAdmin 11
      (Some "Bearer t.5") (sampleRegisterBody "boss" "boss@college.com" "admin")
    = @registerAccount sampleExternals sampleEnv storeWithDeactivatedAdmin 11
        (sampleRegisterBody "boss" "boss@college.com" "admin") false.
Proof.
  apply (@register_accepts_deactivated_admin_token sampleExternals sampleEnv
           storeWithDeactivatedAdmin 11 (Some "Bearer t.5")
           (sampleRegisterBody "boss" "boss@college.com" "admin") "t.5" 5%N
           (sampleUser "old" "Omar" "old@college.com" "admin" false));
    vm_compute; reflexivity.
Defined.

(** The deactivated admin of the sample does register a new admin. *)
Example deactivated_admin_registers_admin :
  http (@register sampleExternals sampleEnv storeWithDeactivatedAdmin 11
          (Some "Bearer t.5")
          (sampleRegisterBody "boss" "boss@college.com" "admin")).1 = 201.
Proof. vm_compute. reflexivity. Qed.

(* ===================================================================== *)
(** * Uniqueness of e-mail addresses and usernames *)
(* ===================================================================== *)

Section UniqueFacts.
Context `{Externals}.

Lemma uniqueUsers_same_users s s' :
  users s' = users s → uniqueUsers s → uniqueUsers s'.
Proof. intros Heq Hu i j u v. rewrite Heq. apply Hu. Qed.

Lemma uniqueUsers_delete s k :
  uniqueUsers s → uniqueUsers (set_users (delete k) s).
Proof.
  intros Hu i j u v. simpl. rewrite !lookup_delete.
  repeat case_decide; try done. apply Hu.
Qed.

(** A new User whose address and name the uniqueness query did not find. *)
Lemma uniqueUsers_insert_new s k new :
  uniqueUsers s → users s !! k = None →
  existingUser s (email new) (username new) = None →
  uniqueUsers (set_users (<[k := new]>) s).
Proof.
  intros Hu Hk Hex.
  assert (∀ j v, users s !! j = Some v →
            email v ≠ email new ∧ username v ≠ username new) as Hfree.
  { intros j v Hv. pose proof (findOne_None _ _ Hex j v Hv) as Hc.
    apply orb_false_elim in Hc as [He Hn].
    by apply String.eqb_neq in He, Hn. }
  intros i j u v. simpl. rewrite !lookup_insert.
  repeat case_decide; subst.
  - done.
  - intros [= <-] Hv [He|Hn]; destruct (Hfree _ _ Hv); congruence.
  - intros Hv [= <-] [He|Hn]; destruct (Hfree _ _ Hv); congruence.
  - apply Hu.
Qed.

(** A stored User replaced by one with the same username and an address
    that is the old one or that of no other User. *)
Lemma uniqueUsers_replace s k old new :
  uniqueUsers s → users s !! k = Some old →
  username new = username old →
  (email new = email old
   ∨ ∀ j v, j ≠ k → users s !! j = Some v → email v ≠ email new) →
  uniqueUsers (set_users (<[k := new]>) s).
Proof.
  intros Hu Hk Hn He i j u v. simpl. rewrite !lookup_insert.
  repeat case_decide; subst.
  - done.
  - intros [= <-] Hv [Hem|Hna].
    + destruct He as [He|He]; [|by destruct (He j v)].
      apply (Hu _ _ _ _ Hk Hv). left. congruence.
    + apply (Hu _ _ _ _ Hk Hv). right. congruence.
  - intros Hv [= <-] [Hem|Hna].
    + destruct He as [He|He]; [|by destruct (He i u)].
      apply (Hu _ _ _ _ Hv Hk). left. congruence.
    + apply (Hu _ _ _ _ Hv Hk). right. congruence.
  - apply Hu.
Qed.

Lemma uniqueUsers_alter s k f :
  uniqueUsers s →
  (∀ old, users s !! k = Some old →
     username (f old) = username old
     ∧ (email (f old) = email old
        ∨ ∀ j v, j ≠ k → users s !! j = Some v → email v ≠ email (f old))) →
  uniqueUsers (set_users (alter f k) s).
Proof.
  intros Hu Hf. destruct (users s !! k) as [old|] eqn:Hk.
  - destruct (Hf old eq_refl) as [Hn He].
    apply (uniqueUsers_same_users (set_users (<[k := f old]>) s)).
    + simpl. apply map_eq. intros j. rewrite lookup_alter, lookup_insert.
      case_decide; subst; [by rewrite Hk|done].
    + by eapply uniqueUsers_replace.
  - apply (uniqueUsers_same_users s); [|done].
    simpl. apply map_eq. intros j. rewrite lookup_alter.
    case_decide; subst; [by rewrite Hk|done].
Qed.

(** What the change of an address through [if (email) ...] does. *)
Lemma orKeep_cases new old :
  orKeep new old = old
  ∨ ∃ e, new = Some e ∧ String.eqb e "" = false ∧ orKeep new old = e.
Proof.
  unfold orKeep, truthy_str. destruct new as [e|]; [|by left].
  destruct (String.eqb e "") eqn:He; simpl; [by left|].
  right. by exists e.
Qed.

Lemma not_found_free e (m : gmap ObjectId User) :
  bool_decide (is_Some (Query.findOne (λ u, String.eqb (email u) e) m))
  = false →
  ∀ j v, m !! j = Some v → email v ≠ e.
Proof.
  intros Hb j v Hv. apply bool_decide_eq_false in Hb.
  destruct (Query.findOne _ m) eqn:Hf; [by destruct Hb|].
  pose proof (findOne_None _ _ Hf j v Hv) as Hc. by apply String.eqb_neq.
Qed.

Lemma updateUser_uniqueUsers s id b :
  uniqueUsers s → uniqueUsers (updateUser s id b).2.
Proof.
  intros Hu. unfold updateUser.
  destruct (validateUpdateUser b); [|done].
  destruct (users s !! id) as [user|] eqn:Hid; [|done].
  destruct (match UpdateUser.email b with Some _ => _ | None => _ end)
    eqn:Htaken; [done|]. simpl.
  eapply uniqueUsers_replace; [done|done|done|]. simpl.
  destruct (orKeep_cases (UpdateUser.email b) (email user))
    as [->|(e & Hb & Hne & Hor)]; [by left|]. rewrite Hor.
  rewrite Hb, Hne in Htaken. simpl in Htaken.
  destruct (String.eqb_spec e (email user)) as [Hsame|Hdiff]; [by left|].
  simpl in Htaken. right. intros j v _. by apply not_found_free.
Qed.

Lemma updateProfile_uniqueUsers s caller reqUser b :
  uniqueUsers s → users s !! caller = Some reqUser →
  uniqueUsers (updateProfile s caller reqUser b).2.
Proof.
  intros Hu Hc. unfold updateProfile.
  destruct (_ ++ _)%list; [|done].
  destruct (match Profile.email b with Some _ => _ | None => _ end)
    eqn:Htaken; [done|]. simpl.
  apply uniqueUsers_alter; [done|]. intros old Hold.
  rewrite Hc in Hold. injection Hold as <-. simpl. split; [done|].
  unfold orOld.
  destruct (orKeep_cases (Profile.email b) (email reqUser))
    as [->|(e & Hb & Hne & Hor)]; [by left|]. rewrite Hor.
  rewrite Hb, Hne in Htaken. simpl in Htaken.
  destruct (String.eqb_spec e (email reqUser)) as [Hsame|Hdiff]; [by left|].
  simpl in Htaken. right. intros j v _. by apply not_found_free.
Qed.

Lemma adminUpdateStudent_uniqueUsers s now id b :
  uniqueUsers s → uniqueUsers (adminUpdateStudent s now id b).2.
Proof.
  intros Hu. unfold adminUpdateStudent.
  destruct (validateUpdateStudent b); [|done].
  destruct (students s !! id) as [student|]; [|done].
  destruct (truthy_str (UpdateStudent.firstName b)
            || truthy_str (UpdateStudent.lastName b)
            || truthy_str (UpdateStudent.email b)) eqn:Htouch; simpl.
  2:{ by destruct (validateStudentUpdate _). }
  destruct (match UpdateStudent.email b with Some _ => _ | None => _ end)
    eqn:Htaken; [done|].
  assert (uniqueUsers
            (set_users (alter (updateOwner b) (userId student)) s)) as Hu1.
  { apply uniqueUsers_alter; [done|]. intros old Hold. simpl.
    split; [done|].
    destruct (orKeep_cases (UpdateStudent.email b) (email old))
      as [->|(e & Hb & Hne & Hor)]; [by left|]. rewrite Hor.
    rewrite Hb, Hne in Htaken. simpl in Htaken.
    right. intros j v Hj Hv.
    apply (not_found_free e (delete (userId student) (users s)) Htaken j v).
    by rewrite lookup_delete_ne. }
  destruct (validateStudentUpdate _); simpl; [|done].
  by apply (uniqueUsers_same_users
              (set_users (alter (updateOwner b) (userId student)) s)).
Qed.

Lemma is_Some_false_None {A} (o : option A) :
  bool_decide (is_Some o) = false → o = None.
Proof.
  intros Hb. apply bool_decide_eq_false in Hb.
  destruct o; [|done]. destruct Hb. by eexists.
Qed.

Lemma registerAccount_uniqueUsers env s now b firstAdmin :
  uniqueUsers s → uniqueUsers (registerAccount env s now b firstAdmin).2.
Proof.
  intros Hu. unfold registerAccount. cbv zeta.
  destruct (bool_decide _) eqn:Hex; [done|]. apply is_Some_false_None in Hex.
  remember (set_users _ s) as s1 eqn:Hs1.
  assert (uniqueUsers s1) as Hu1.
  { rewrite Hs1. apply uniqueUsers_insert_new;
      [done|apply newObjectId_users|done]. }
  destruct (String.eqb (Register.role b) "student").
  - destruct (Schema.validate _); [|done].
    destruct (generateToken env _); simpl;
      by apply (uniqueUsers_same_users s1).
  - by destruct (generateToken env _).
Qed.

Lemma register_uniqueUsers env s now a b :
  uniqueUsers s → uniqueUsers (register env s now a b).2.
Proof.
  intros Hu. unfold register.
  destruct (negb (readyState env =? 1)); [done|].
  destruct (validateRegister b); [|done]. cbv zeta.
  destruct (negb _ && negb _).
  - destruct (registerAuth env s a); [done|].
    by apply registerAccount_uniqueUsers.
  - by apply registerAccount_uniqueUsers.
Qed.

Lemma createUser_uniqueUsers s b :
  uniqueUsers s → uniqueUsers (createUser s b).2.
Proof.
  intros Hu. unfold createUser.
  destruct (validateRegister b); [|done].
  destruct (bool_decide _) eqn:Hex; [done|]. apply is_Some_false_None in Hex.
  simpl. apply uniqueUsers_insert_new; [done|apply newObjectId_users|done].
Qed.

Lemma adminCreateStudent_uniqueUsers s now b :
  uniqueUsers s → uniqueUsers (adminCreateStudent s now b).2.
Proof.
  intros Hu. unfold adminCreateStudent.
  destruct (validateCreateStudent b); [|done].
  destruct (bool_decide _) eqn:Hex; [done|]. apply is_Some_false_None in Hex.
  destruct (bool_decide _); [done|]. cbv zeta.
  remember (set_users _ s) as s1 eqn:Hs1.
  assert (uniqueUsers s1) as Hu1.
  { rewrite Hs1. apply uniqueUsers_insert_new;
      [done|apply newObjectId_users|done]. }
  destruct (Schema.validate _); simpl; [|done].
  by apply (uniqueUsers_same_users s1).
Qed.

Lemma login_uniqueUsers env s now e p :
  uniqueUsers s → uniqueUsers (login env s now e p).2.
Proof.
  intros Hu. unfold login. destruct (_ ++ _)%list; [|done].
  destruct (Query.findOne _ _) as [[id user]|] eqn:Hf; [|done].
  apply findOne_Some in Hf as [Hid _].
  destruct (negb (isActive user)); [done|].
  destruct (negb (comparePassword user p)); [done|]. cbv zeta.
  assert (uniqueUsers (set_users (<[id := withLastLogin now user]>) s))
    as Hu1 by (eapply uniqueUsers_replace; [done|done|done|by left]).
  by destruct (generateToken env id).
Qed.

Lemma changePassword_uniqueUsers s caller c n :
  uniqueUsers s → uniqueUsers (changePassword s caller c n).2.
Proof.
  intros Hu. unfold changePassword. destruct (_ ++ _)%list; [|done].
  destruct (users s !! caller) as [user|] eqn:Hc; [|done].
  destruct (negb _); [done|]. simpl.
  eapply uniqueUsers_replace; [done|done|done|by left].
Qed.

Lemma deleteUser_uniqueUsers s id :
  uniqueUsers s → uniqueUsers (deleteUser s id).2.
Proof.
  intros Hu. unfold deleteUser.
  destruct (users s !! id) as [user|]; [|done].
  destruct (_ && _); [done|]. cbv zeta.
  assert (uniqueUsers (set_users (delete id) s)) as Hu1
    by by apply uniqueUsers_delete.
  destruct (isStudent user); [|done].
  by apply (uniqueUsers_same_users (set_users (delete id) s)).
Qed.

Lemma adminDeleteStudent_uniqueUsers s id :
  uniqueUsers s → uniqueUsers (adminDeleteStudent s id).2.
Proof.
  intros Hu. unfold adminDeleteStudent.
  destruct (students s !! id) as [student|]; [|done]. simpl.
  apply (uniqueUsers_delete (set_students (delete id) s)).
  by apply (uniqueUsers_same_users s).
Qed.

Lemma adminSetStatus_users s now id st :
  users (adminSetStatus s now id st).2 = users s.
Proof.
  unfold adminSetStatus.
  destruct (Validator.check _ _); [|done].
  by destruct (students s !! id).
Qed.

Lemma updateOwnProfile_users s caller b :
  users (updateOwnProfile s caller b).2 = users s.
Proof.
  unfold updateOwnProfile.
  destruct (validateUpdateProfile b); [|done].
  destruct (Query.findOne _ _) as [[??]|]; [|done].
  by destruct (validateStudentUpdate _).
Qed.

(** A property of stores that every handler keeps is kept by the guard in
    front of it; the handler may rely on the caller being stored. *)
Lemma guarded_preserves (P : Store → Prop) guard env s a handler :
  P s →
  (∀ id u, users s !! id = Some u → P (handler id u).2) →
  P (guarded guard env s a handler).2.
Proof.
  intros HP Hh. unfold guarded.
  destruct (protect env s a) as [r|[id u]] eqn:Hp; [done|].
  destruct (guard u); [done|].
  apply Hh. apply protect_inr in Hp as (? & _ & _ & Hu & _). done.
Qed.

Lemma handle_uniqueUsers env s now r :
  uniqueUsers s → uniqueUsers (handle env s now r).2.
Proof.
  intros Hu. destruct r; simpl;
    try (apply guarded_preserves; [done|intros ?? Hcaller]).
  - by apply register_uniqueUsers.
  - by apply login_uniqueUsers.
  - by apply updateProfile_uniqueUsers.
  - by apply changePassword_uniqueUsers.
  - by apply adminCreateStudent_uniqueUsers.
  - by apply adminUpdateStudent_uniqueUsers.
  - by apply adminDeleteStudent_uniqueUsers.
  - apply (uniqueUsers_same_users s); [apply adminSetStatus_users|done].
  - by apply createUser_uniqueUsers.
  - by apply updateUser_uniqueUsers.
  - by apply deleteUser_uniqueUsers.
  - apply (uniqueUsers_same_users s); [apply updateOwnProfile_users|done].
Qed.

(** X7: the uniqueness checks of the handlers suffice: from a store in
    which no two Users share an e-mail address or a username, every
    sequence of requests leads to such a store (registration, creation by
    an admin, and the three ways to change an address included). *)
Theorem users_stay_unique env trace :
  ∀ s, uniqueUsers s → uniqueUsers (run env s trace).
Proof.
  induction trace as [|[now r] rest IH]; intros s Hu; simpl; [done|].
  apply IH. by apply handle_uniqueUsers.
Qed.

End UniqueFacts.

Lemma uniqueUsersb_sound s : uniqueUsersb s = true → uniqueUsers s.
Proof.
  unfold uniqueUsersb. intros Hb i j u v Hi Hj Hsame.
  rewrite forallb_forall in Hb.
  apply elem_of_map_to_list, list_elem_of_In in Hi, Hj.
  specialize (Hb _ Hi). rewrite forallb_forall in Hb.
  specialize (Hb _ Hj). simpl in Hb.
  apply orb_true_iff in Hb as [Hb|Hb]; [by apply bool_decide_eq_true in Hb|].
  apply negb_true_iff, orb_false_elim in Hb as [He Hn].
  apply String.eqb_neq in He, Hn. by destruct Hsame.
Qed.

Lemma users_stay_unique_witness :
  uniqueUsers sampleStore
  ∧ uniqueUsers (@run sampleExternals sampleEnv sampleStore accountTrace).
Proof.
  assert (uniqueUsers sampleStore) as Hu
    by (apply uniqueUsersb_sound; vm_compute; reflexivity).
  split; [exact Hu|].
  exact (@users_stay_unique sampleExternals sampleEnv accountTrace
           sampleStore Hu).
Defined.

Example accountTrace_users :
  email <$> users (@run sampleExternals sampleEnv sampleStore accountTrace)
  = {[ 1%N := "root@college.com"; 2%N := "asha.k@college.com";
       4%N := "meera@college.com" ]}.
Proof. vm_compute. reflexivity. Qed.

(* ===================================================================== *)
(** * Accounts: creation, password change and login *)
(* ===================================================================== *)

Lemma findOne_unique {A} (cond : A → bool) (m : gmap ObjectId A) k a :
  m !! k = Some a → cond a = true →
  (∀ j v, m !! j = Some v → cond v = true → j = k) →
  Query.findOne cond m = Some (k, a).
Proof.
  intros Hk Hc Hall.
  destruct (Query.findOne cond m) as [[j v]|] eqn:Hf.
  - apply findOne_Some in Hf as [Hj Hv].
    pose proof (Hall _ _ Hj Hv) as ->. rewrite Hk in Hj. congruence.
  - pose proof (findOne_None _ _ Hf _ _ Hk). congruence.
Qed.

Lemma isLength_6_nonempty s : Validator.isLength 6 None s = true → s ≠ "".
Proof. intros Hl ->. done. Qed.

Section AccountFacts.
Context `{Externals}.

(** The password library: a stored hash of [p] matches the candidate [q]
    exactly when [q] is [p]. *)
Hypothesis hash_compare :
  ∀ u p q, password u = hashPassword p → comparePassword u q = String.eqb p q.

(** Logging in to an active account that alone has its address. *)
Lemma login_200_iff env s now k u pw secret p :
  JWT_SECRET env = Some secret →
  users s !! k = Some u →
  (∀ j v, users s !! j = Some v → email v = email u → j = k) →
  isActive u = true → isEmail (email u) = true →
  password u = hashPassword pw → pw ≠ "" →
  http (login env s now (email u) p).1 = 200 ↔ p = pw.
Proof.
  intros Hsecret Hk Huniq Hact Hmail Hpw Hne.
  assert (Query.findOne (λ v, String.eqb (email v) (email u)) (users s)
          = Some (k, u)) as Hfind.
  { apply findOne_unique; [done|apply String.eqb_refl|].
    intros j v Hj Hv. apply String.eqb_eq in Hv. by apply Huniq with v. }
  split.
  - intros H200. apply login_success_inv in H200
      as (id & user & ? & Hf & _ & Hc & _).
    rewrite Hfind in Hf. injection Hf as <- <-.
    rewrite (hash_compare u pw p Hpw) in Hc. symmetry.
    by apply String.eqb_eq.
  - intros ->. unfold login, generateToken. rewrite Hmail.
    replace (Validator.notEmpty pw) with true
      by (symmetry; apply negb_true_iff; by apply String.eqb_neq).
    simpl. rewrite Hfind, Hact. simpl.
    rewrite (hash_compare u pw pw Hpw), String.eqb_refl. simpl.
    by rewrite Hsecret.
Qed.

Lemma validateRegister_nil b :
  validateRegister b = [] →
  isEmail (Register.email b) = true
  ∧ Validator.isLength 6 None (Register.password b) = true
  ∧ Validator.isIn ["admin"; "student"] (Register.role b) = true.
Proof.
  unfold validateRegister. intros Hv.
  repeat (apply app_eq_nil in Hv as [? Hv]).
  repeat match goal with
         | Hc : Validator.check _ _ = [] |- _ => apply check_nil in Hc
         end.
  done.
Qed.

(** X8: an account created by an admin (POST /api/admin/users, 201) can
    log in at once, with the password of the request and with no other. *)
Theorem created_account_can_log_in env s b now secret :
  JWT_SECRET env = Some secret →
  http (createUser s b).1 = 201 →
  ∀ p, http (login env (createUser s b).2 now (Register.email b) p).1 = 200
       ↔ p = Register.password b.
Proof.
  intros Hsecret. unfold createUser.
  destruct (validateRegister b) eqn:Hv; [|done].
  apply validateRegister_nil in Hv as (Hmail & Hlen & _).
  destruct (bool_decide _) eqn:Hex; [done|].
  apply is_Some_false_None in Hex. simpl. intros _ p.
  set (user := newUser _ _ _ _ _ _ _).
  apply (login_200_iff env _ now (newObjectId s) user
           (Register.password b) secret p); try done.
  - simpl. by rewrite lookup_insert_eq.
  - simpl. intros j v. rewrite lookup_insert. case_decide; [done|].
    intros Hj Hv. pose proof (findOne_None _ _ Hex j v Hj) as Hc.
    simpl in Hv, Hc. rewrite Hv, String.eqb_refl in Hc. done.
  - by apply isLength_6_nonempty.
Qed.


End AccountFacts.

Lemma sample_hash_compare (u : User) p q :
  password u = @hashPassword sampleExternals p →
  @comparePassword sampleExternals u q = String.eqb p q.
Proof.
  simpl. intros ->. change (String.eqb ("hash:" +:+ p) ("hash:" +:+ q))
    with (String.eqb p q). reflexivity.
Qed.

Lemma created_account_can_log_in_witness :
  http (@createUser sampleExternals sampleStore
          (sampleRegisterBody "meera" "meera@college.com" "student")).1 = 201
  ∧ ∀ p, http (@login sampleExternals sampleEnv
                 (@createUser sampleExternals sampleStore
                    (sampleRegisterBody "meera" "meera@college.com"
                       "student")).2
                 500 "meera@college.com" p).1 = 200
         ↔ p = "secret1".
Proof.
  assert (http (@createUser sampleExternals sampleStore
                  (sampleRegisterBody "meera" "meera@college.com"
                     "student")).1 = 201) as H201
    by (vm_compute; reflexivity).
  split; [exact H201|].
  exact (@created_account_can_log_in sampleExternals sample_hash_compare
           sampleEnv sampleStore
           (sampleRegisterBody "meera" "meera@college.com" "student")
           500 "k" eq_refl H201).
Defined.


(* ===================================================================== *)
(** * Registration of students (POST /api/auth/register) *)
(* ===================================================================== *)

Section RegisterStudentFacts.
Context `{Externals}.

Lemma validate_nil_parts st :
  Schema.validate st = [] →
  Schema.validatePhone (phone st) = []
  ∧ Schema.validateGuardianInfo true (guardianInfo st) = []
  ∧ Schema.validateEmergencyContact true (emergencyContact st) = [].
Proof.
  unfold Schema.validate. intros Hv.
  repeat (apply app_eq_nil in Hv as [? Hv]). done.
Qed.

(** The placeholders of the register handler do not pass the schema. *)
Lemma placeholders_rejected now uid d :
  Register.nonEmpty (Register.phone d) "0000000000" = "0000000000"
  ∨ Register.guardianInfo d = None
  ∨ Register.emergencyContact d = None →
  Schema.validate (Register.studentOf now uid d) ≠ [].
Proof.
  intros Hd Hv. apply validate_nil_parts in Hv as (Hp & Hg & He).
  unfold Register.studentOf in *. simpl in Hp, Hg, He.
  destruct Hd as [Hd|[Hd|Hd]]; rewrite Hd in *; by vm_compute in *.
Qed.

(** X10: a student who registers without a usable phone number, or without
    [guardianInfo], or without [emergencyContact], gets the placeholder of
    the handler, which the Student schema refuses: the answer is 500, the
    User has been stored without a Student record, and the same request
    sent again is refused with 400, the address being taken. *)
Theorem register_student_placeholder_fails env s now a b :
  readyState env = 1 → validateRegister b = [] →
  Register.role b = "student" →
  existingUser s (Register.email b) (Register.username b) = None →
  (let d := default Register.noStudentData (Register.studentData b) in
   Register.nonEmpty (Register.phone d) "0000000000" = "0000000000"
   ∨ Register.guardianInfo d = None
   ∨ Register.emergencyContact d = None) →
  let s' := (register env s now a b).2 in
  http (register env s now a b).1 = 500
  ∧ users s' !! newObjectId s
    = Some (newUser (Register.username b) (Register.email b)
              (Register.password b) (Register.firstName b)
              (Register.lastName b) "student" defaultIsActive)
  ∧ students s' = students s
  ∧ ∀ now', register env s' now' a b
            = (failure 400 "User with this email or username already exists",
               s').
Proof.
  intros Hready Hvalid Hrole Hfree Hd. cbv zeta in *.
  assert (∀ t now', register env t now' a b
                    = registerAccount env t now' b
                        (isFirstAdmin t "student")) as Hreg.
  { intros t now'. unfold register. rewrite Hready, Hvalid, Hrole. simpl.
    by rewrite ?andb_false_r. }
  set (user := newUser (Register.username b) (Register.email b)
                 (Register.password b) (Register.firstName b)
                 (Register.lastName b) "student" defaultIsActive).
  assert (∃ errs, register env s now a b
                  = (serverError "Server error during registration" errs,
                     set_users (<[newObjectId s := user]>) s)) as [errs Heq].
  { rewrite Hreg. unfold registerAccount. cbv zeta.
    rewrite Hfree, Hrole. simpl.
    destruct (Schema.validate _) as [|e errs] eqn:Hv;
      [by apply placeholders_rejected in Hv|]. by eexists. }
  rewrite Heq. simpl. split; [done|]. split; [by rewrite lookup_insert_eq|].
  split; [done|]. intros now'. rewrite Hreg. unfold registerAccount.
  cbv zeta. rewrite bool_decide_eq_true_2; [reflexivity|].
  apply findOne_is_Some with (newObjectId s) user.
  - simpl. by rewrite lookup_insert_eq.
  - simpl. by rewrite String.eqb_refl.
Qed.

(** X11: when the registration of a student is answered 201, the store
    has gained exactly the new User and one Student record that refers to
    it, passes the schema, has the status ['active'] and no graduation
    date; the answer carries the token signed for the new User and never
    the first-admin flag. *)
Theorem register_student_success_links_record env s now a b :
  Register.role b = "student" →
  http (register env s now a b).1 = 201 →
  let s' := (register env s now a b).2 in
  let uid := newObjectId s in
  let user := newUser (Register.username b) (Register.email b)
                (Register.password b) (Register.firstName b)
                (Register.lastName b) "student" defaultIsActive in
  ∃ sid student secret,
    users s' = <[uid := user]> (users s)
    ∧ users s !! uid = None
    ∧ students s' = <[sid := student]> (students s)
    ∧ students s !! sid = None
    ∧ populate s' student = Some user
    ∧ Schema.validate student = []
    ∧ status student = "active" ∧ graduationDate student = None
    ∧ JWT_SECRET env = Some secret
    ∧ data (register env s now a b).1
      = Some (DataSession (getPublicProfile uid user) (jwtSign secret uid)
                (Some false)).
Proof.
  intros Hrole. unfold register.
  destruct (negb (readyState env =? 1)); [done|].
  destruct (validateRegister b); [|done]. cbv zeta.
  rewrite Hrole. simpl. rewrite ?andb_false_r.
  unfold registerAccount, generateToken. cbv zeta. rewrite Hrole. simpl.
  destruct (bool_decide _); [done|].
  destruct (Schema.validate _) eqn:Hv; [|done].
  destruct (JWT_SECRET env) as [secret|]; [|done]. simpl. intros _.
  eexists _, _, secret. repeat split; try done.
  - apply newObjectId_users.
  - apply (newObjectId_students (set_users _ s)).
  - unfold populate. simpl. by rewrite lookup_insert_eq.
Qed.

End RegisterStudentFacts.

Lemma register_student_placeholder_fails_witness :
  let b := sampleStudentRegistration None in
  let s' := (@register sampleExternals sampleEnv sampleStore 100 None b).2 in
  http (@register sampleExternals sampleEnv sampleStore 100 None b).1 = 500
  ∧ users s' !! newObjectId sampleStore
    = Some (@newUser sampleExternals "kiran" "kiran@college.com" "secret1"
              "Kiran" "Rao" "student" true)
  ∧ students s' = students sampleStore
  ∧ ∀ now', @register sampleExternals sampleEnv s' now' None b
            = (failure 400 "User with this email or username already exists",
               s').
Proof.
  apply (@register_student_placeholder_fails sampleExternals sampleEnv
           sampleStore 100 None (sampleStudentRegistration None)).
  - reflexivity.
  - vm_compute. reflexivity.
  - reflexivity.
  - vm_compute. reflexivity.
  - left. vm_compute. reflexivity.
Defined.

Lemma register_student_success_links_record_witness :
  let b := sampleStudentRegistration (Some sampleStudentData) in
  let r := @register sampleExternals sampleEnv sampleStore 100 None b in
  let user := @newUser sampleExternals "kiran" "kiran@college.com" "secret1"
                "Kiran" "Rao" "student" true in
  ∃ sid student secret,
    users r.2 = <[newObjectId sampleStore := user]> (users sampleStore)
    ∧ users sampleStore !! newObjectId sampleStore = None
    ∧ students r.2 = <[sid := student]> (students sampleStore)
    ∧ students sampleStore !! sid = None
    ∧ populate r.2 student = Some user
    ∧ Schema.validate student = []
    ∧ status student = "active" ∧ graduationDate student = None
    ∧ JWT_SECRET sampleEnv = Some secret
    ∧ data r.1
      = Some (DataSession (getPublicProfile (newObjectId sampleStore) user)
                (@jwtSign sampleExternals secret (newObjectId sampleStore))
                (Some false)).
Proof.
  apply (@register_student_success_links_record sampleExternals sampleEnv
           sampleStore 100 None
           (sampleStudentRegistration (Some sampleStudentData))).
  - reflexivity.
  - vm_compute. reflexivity.
Defined.

(* ===================================================================== *)
(** * Administration of Users *)
(* ===================================================================== *)

Lemma countDocuments_pos {A} (cond : A → bool) (m : gmap ObjectId A) k a :
  m !! k = Some a → cond a = true → (1 ≤ Query.countDocuments cond m)%nat.
Proof.
  intros Hk Hc.
  destruct (Query.countDocuments cond m) eqn:Hz; [|lia].
  pose proof (proj1 (countDocuments_zero cond m) Hz k a Hk). congruence.
Qed.

Lemma countDocuments_two {A} (cond : A → bool) (m : gmap ObjectId A)
  j k a b :
  j ≠ k → m !! j = Some a → m !! k = Some b →
  cond a = true → cond b = true →
  (2 ≤ Query.countDocuments cond m)%nat.
Proof.
  intros Hjk Hj Hk Ha Hb.
  pose proof (countDocuments_delete_true cond m k b Hk Hb) as Hd.
  assert (delete k m !! j = Some a) as Hj' by by rewrite lookup_delete_ne.
  pose proof (countDocuments_pos cond _ j a Hj' Ha). lia.
Qed.

Section UserAdminFacts.
Context `{Externals}.

(** A request of an admin passes the guard of the admin routes. *)
Lemma guarded_admin env s a aid admin handler :
  protect env s a = inr (aid, admin) → role admin = "admin" →
  guarded adminOnly env s a handler = handler aid admin.
Proof.
  intros Hp Hr. unfold guarded, adminOnly, authorize. rewrite Hp, Hr. done.
Qed.

(** The same header is let through as long as its User is stored
    unchanged. *)
Lemma protect_stable env s s' a aid admin :
  protect env s a = inr (aid, admin) →
  users s' !! aid = Some admin →
  protect env s' a = inr (aid, admin).
Proof.
  intros Hp Hs'. apply protect_inr in Hp as (token & Hb & Hj & _ & Ha).
  apply protect_inr. by exists token.
Qed.

(** X12: whether DELETE /api/admin/users/:id takes the Student record
    along depends on the role stored at that moment.  When the account of
    a student is first given the role ['admin'] (PUT /api/admin/users/:id)
    and then deleted, the User is gone and the Student record stays, with
    an owner that no longer exists; deleted as a student, the record goes
    with the User. *)
Theorem role_change_defeats_delete_cascade env s a aid admin id user sid st
  t1 t2 :
  protect env s a = inr (aid, admin) → role admin = "admin" → aid ≠ id →
  users s !! id = Some user →
  students s !! sid = Some st → userId st = id →
  (let s' := run env s [ (t1, PutAdminUser a id (roleOnlyBody "admin"));
                         (t2, DeleteAdminUser a id) ] in
   users s' !! id = None
   ∧ students s' !! sid = Some st
   ∧ populate s' st = None)
  ∧ (role user = "student" →
     (∀ k st', students s !! k = Some st' → userId st' = id → k = sid) →
     let s' := run env s [ (t2, DeleteAdminUser a id) ] in
     users s' !! id = None ∧ students s' !! sid = None).
Proof.
  intros Hp Hadmin Hne Hid Hsid Hown. split.
  - cbv zeta. simpl run.
    rewrite (guarded_admin env s a aid admin) by done.
    assert (updateUser s id (roleOnlyBody "admin")
            = (success 200 "User updated successfully"
                 (Some (DataUser (getPublicProfile id
                    (applyUserUpdate (roleOnlyBody "admin") user)))),
               set_users (<[id := applyUserUpdate (roleOnlyBody "admin")
                                    user]>) s)) as ->.
    { unfold updateUser. simpl. by rewrite Hid. }
    set (user1 := applyUserUpdate _ user).
    set (s1 := set_users _ s). simpl snd.
    assert (users s1 !! aid = Some admin) as Haid.
    { unfold s1. simpl. rewrite lookup_insert_ne by done.
      by apply protect_inr in Hp as (? & _ & _ & ? & _). }
    assert (users s1 !! id = Some user1) as Hid1
      by (unfold s1; simpl; by rewrite lookup_insert_eq).
    rewrite (guarded_admin env s1 a aid admin (λ _ _, deleteUser s1 id)
               (protect_stable env s s1 a aid admin Hp Haid) Hadmin).
    unfold deleteUser. rewrite Hid1.
    assert (2 ≤ adminCount s1)%nat as Hcount.
    { apply (countDocuments_two isAdmin (users s1) aid id admin user1);
        try done. unfold isAdmin. by rewrite Hadmin. }
    replace (isAdmin user1 && (adminCount s1 <=? 1)%nat) with false
      by (symmetry; apply andb_false_iff; right; apply Nat.leb_gt; lia).
    cbv zeta. replace (isStudent user1) with false by done. simpl.
    rewrite lookup_delete_eq. unfold populate. simpl.
    rewrite Hown, lookup_delete_eq. done.
  - intros Hrole Huniq. cbv zeta. simpl run.
    rewrite (guarded_admin env s a aid admin) by done.
    unfold deleteUser. rewrite Hid. unfold isAdmin, isStudent.
    rewrite Hrole. simpl. rewrite lookup_delete_eq. split; [done|].
    unfold Query.findOneAndDelete.
    rewrite (findOne_unique (λ st0, (userId st0 =? id)%N) (students s)
               sid st); [by rewrite lookup_delete_eq|done|..].
    + by apply N.eqb_eq.
    + intros k st' Hk Hc. apply N.eqb_eq in Hc. by apply Huniq with st'.
Qed.

(** X13: PUT /api/admin/users/:id validates [isActive] with
    [isBoolean()], which also admits the strings ['true'], ['false'],
    ['1'], ['0'] and the numbers 0 and 1, but writes it only when it is a
    JSON boolean: with any other admitted value the flag of the stored
    User is never changed, and a body that carries nothing else is
    answered 200 with the store as it was. *)
Theorem updateUser_ignores_non_boolean_isActive s id user v :
  users s !! id = Some user →
  UpdateUser.isBoolean v = true → (∀ flag, v ≠ JBool flag) →
  (∀ b u', UpdateUser.isActive b = Some v →
     users (updateUser s id b).2 !! id = Some u' →
     isActive u' = isActive user)
  ∧ http (updateUser s id (isActiveOnlyBody v)).1 = 200
  ∧ (updateUser s id (isActiveOnlyBody v)).2 = s.
Proof.
  intros Hid Hbool Hnot.
  assert (validateUpdateUser (isActiveOnlyBody v) = []) as Hval.
  { change (validateUpdateUser (isActiveOnlyBody v))
      with (Validator.check (UpdateUser.isBoolean v)
              "isActive must be a boolean").
    by rewrite Hbool. }
  split; [|split].
  - intros b u' Hb. unfold updateUser.
    destruct (validateUpdateUser b); [|simpl; congruence].
    rewrite Hid.
    destruct (match UpdateUser.email b with Some _ => _ | None => _ end);
      [simpl; congruence|].
    simpl. rewrite lookup_insert_eq. intros [= <-]. simpl. rewrite Hb.
    destruct v as [| |flag|]; try done. by destruct (Hnot flag).
  - unfold updateUser. rewrite Hval, Hid. done.
  - unfold updateUser. rewrite Hval, Hid. simpl.
    destruct s as [us sts]. unfold set_users. simpl in *. f_equal.
    apply map_eq. intros j. rewrite lookup_insert. case_decide; [|done].
    subst j. rewrite Hid. f_equal. unfold applyUserUpdate. simpl.
    destruct user. simpl.
    destruct v as [| |flag|]; try done. by destruct (Hnot flag).
Qed.

End UserAdminFacts.

Lemma role_change_defeats_delete_cascade_witness :
  (let s' := @run sampleExternals sampleEnv sampleStore
               [ (100, PutAdminUser (Some "Bearer t.1") 2%N
                         (roleOnlyBody "admin"));
                 (200, DeleteAdminUser (Some "Bearer t.1") 2%N) ] in
   users s' !! 2%N = None
   ∧ students s' !! 3%N = Some (sampleStudent 2 "STU1")
   ∧ populate s' (sampleStudent 2 "STU1") = None)
  ∧ (role (sampleUser "asha" "Asha" "asha@college.com" "student" true)
     = "student" →
     (∀ k st', students sampleStore !! k = Some st' → userId st' = 2%N →
               k = 3%N) →
     let s' := @run sampleExternals sampleEnv sampleStore
                 [ (200, DeleteAdminUser (Some "Bearer t.1") 2%N) ] in
     users s' !! 2%N = None ∧ students s' !! 3%N = None).
Proof.
  apply (@role_change_defeats_delete_cascade sampleExternals sampleEnv
           sampleStore (Some "Bearer t.1") 1%N
           (sampleUser "root" "Ravi" "root@college.com" "admin" true)
           2%N (sampleUser "asha" "Asha" "asha@college.com" "student" true)
           3%N (sampleStudent 2 "STU1") 100 200).
  - vm_compute. reflexivity.
  - reflexivity.
  - discriminate.
  - vm_compute. reflexivity.
  - vm_compute. reflexivity.
  - reflexivity.
Defined.

Lemma updateUser_ignores_non_boolean_isActive_witness :
  (∀ b u', UpdateUser.isActive b = Some (JStr "false") →
     users (@updateUser sampleExternals sampleStore 2 b).2 !! 2%N = Some u' →
     isActive u' = true)
  ∧ http (@updateUser sampleExternals sampleStore 2
            (isActiveOnlyBody (JStr "false"))).1 = 200
  ∧ (@updateUser sampleExternals sampleStore 2
       (isActiveOnlyBody (JStr "false"))).2 = sampleStore.
Proof.
  apply (@updateUser_ignores_non_boolean_isActive sampleExternals
           sampleStore 2%N
           (sampleUser "asha" "Asha" "asha@college.com" "student" true)
           (JStr "false")).
  - vm_compute. reflexivity.
  - vm_compute. reflexivity.
  - discriminate.
Defined.

(* ===================================================================== *)
(** * Administration of Student records *)
(* ===================================================================== *)



Section StudentAdminFacts.
Context `{Externals}.




End StudentAdminFacts.



(* ===================================================================== *)
(** * Student self-service: what a student reaches *)
(* ===================================================================== *)

Lemma sameBeyondContact_refl st : sameBeyondContact st st.
Proof. by repeat split. Qed.

Lemma ownStudent_Some s caller id st :
  ownStudent s caller = Some (id, st) →
  students s !! id = Some st ∧ userId st = caller.
Proof.
  unfold ownStudent. intros Hf. apply findOne_Some in Hf as [Hid Hc].
  by apply N.eqb_eq in Hc.
Qed.

Lemma ownStudent_None s caller :
  ownStudent s caller = None ↔
  ∀ id st, students s !! id = Some st → userId st ≠ caller.
Proof.
  unfold ownStudent. rewrite findOne_none_iff. split.
  - intros Hall id st Hid. by apply N.eqb_neq, (Hall id).
  - intros Hall id st Hid. by apply N.eqb_neq, (Hall id).
Qed.

Section StudentSelfFacts.
Context `{Externals}.

(** X16: PUT /api/student/profile reaches nothing but the contact data of
    the caller's own record.  Whatever the header and the body, the Users
    and the set of Student records are as before; every record keeps its
    owner, studentId, academic, guardian, fee and hostel data, status and
    dates; and a record that differs at all afterwards belongs to the
    authenticated caller, who has the role ['student']. *)
Theorem student_profile_route_confined env s now a b :
  let s' := (handle env s now (PutStudentProfile a b)).2 in
  users s' = users s
  ∧ dom (students s') = dom (students s)
  ∧ ∀ k st, students s !! k = Some st →
      ∃ st', students s' !! k = Some st'
             ∧ sameBeyondContact st st'
             ∧ (st' ≠ st →
                ∃ id u, protect env s a = inr (id, u)
                        ∧ role u = "student" ∧ userId st = id).
Proof.
  cbv zeta. simpl. unfold guarded.
  assert (∀ k st, students s !! k = Some st →
            ∃ st', students s !! k = Some st'
                   ∧ sameBeyondContact st st'
                   ∧ (st' ≠ st →
                      ∃ id u, protect env s a = inr (id, u)
                              ∧ role u = "student" ∧ userId st = id))
    as Hsame.
  { intros k st Hk. exists st. split; [done|].
    split; [apply sameBeyondContact_refl|done]. }
  destruct (protect env s a) as [r|[id u]] eqn:Hp; [done|].
  destruct (studentOnly u) eqn:Hg; [done|].
  apply authorize_None, list_elem_of_singleton in Hg.
  unfold updateOwnProfile.
  destruct (validateUpdateProfile b); [|done].
  destruct (Query.findOne _ _) as [[sid student]|] eqn:Hf; [|done].
  apply (ownStudent_Some s id sid student) in Hf as [Hsid Hown].
  destruct (validateStudentUpdate _); [|done]. simpl.
  split; [done|]. split; [by apply dom_insert_lookup_L|].
  intros k st Hk. rewrite lookup_insert. case_decide as Hcase.
  - subst k. rewrite Hsid in Hk. injection Hk as <-. eexists.
    split; [done|]. split; [by repeat split|].
    intros _. by exists id, u.
  - exists st. split; [done|]. split; [apply sameBeyondContact_refl|done].
Qed.

(** X17: the read routes of a student answer from the record the caller
    owns and from no other.  The profile, the academic record and the
    status come from a stored record whose [userId] is the caller; the
    answer is 404 exactly when the caller owns no record; and for a caller
    that is a stored User (as [protect] guarantees) the personal
    information never fails and names the caller. *)
Theorem student_reads_only_own_record s caller :
  (∀ id st, data (getOwnProfile s caller) = Some (DataStudent id st) →
     students s !! id = Some st ∧ userId st = caller)
  ∧ (http (getOwnProfile s caller) = 404
     ↔ ∀ id st, students s !! id = Some st → userId st ≠ caller)
  ∧ (∀ rec, getOwnAcademicRecord s caller = inr rec →
       ∃ id st, students s !! id = Some st ∧ userId st = caller
                ∧ rec = academicRecordOf st)
  ∧ (∀ rec, getOwnStatus s caller = inr rec →
       ∃ id st, students s !! id = Some st ∧ userId st = caller
                ∧ StudentStatus.currentStatus rec = status st
                ∧ StudentStatus.graduationDate rec = graduationDate st)
  ∧ (∀ u r, users s !! caller = Some u →
       getOwnPersonalInfo s caller = inl r → http r = 404)
  ∧ (∀ u info, users s !! caller = Some u →
       getOwnPersonalInfo s caller = inr info →
       PersonalInfo.name info = firstName u ++ " " ++ lastName u
       ∧ PersonalInfo.email info = email u
       ∧ PersonalInfo.username info = username u).
Proof.
  unfold getOwnProfile, getOwnAcademicRecord, getOwnStatus,
    getOwnPersonalInfo, populate.
  rewrite <- ownStudent_None.
  destruct (ownStudent s caller) as [[sid student]|] eqn:Hown.
  - apply ownStudent_Some in Hown as [Hsid Hcaller].
    split; [by intros id st [= <- <-]|]. split; [done|].
    split; [intros rec [= <-]; by exists sid, student|].
    split; [intros rec [= <-]; by exists sid, student|].
    rewrite Hcaller. split.
    + intros u r Hu. by rewrite Hu.
    + intros u info Hu. rewrite Hu. by intros [= <-].
  - split; [done|]. split; [done|]. split; [done|]. split; [done|].
    split; [by intros u r _ [= <-]|done].
Qed.

(** GET /api/auth/profile behind [protect] shows the caller. *)
Lemma getProfile_behind_protect env s a id u :
  protect env s a = inr (id, u) →
  getProfile s id = successData 200 (DataUser (getPublicProfile id u)).
Proof.
  intros Hp. apply protect_inr in Hp as (? & _ & _ & Hu & _).
  unfold getProfile. by rewrite Hu.
Qed.

End StudentSelfFacts.

(* ===================================================================== *)
(** * Pages of the student list *)
(* ===================================================================== *)

#[global] Instance newerOrSame_total : Total ListStudents.newerOrSame.
Proof. intros a b. unfold ListStudents.newerOrSame. lia. Qed.

#[global] Instance newerOrSame_trans : Transitive ListStudents.newerOrSame.
Proof. intros a b c. unfold ListStudents.newerOrSame. lia. Qed.

Section PageFacts.
Import ListStudents.






Lemma matches_clauses filter st c :
  matches filter st = Some true → c ∈ filter →
  clauseHolds st c = Some true.
Proof.
  unfold matches. intros Hm Hc.
  apply fmap_Some in Hm as (bs & Hbs & Hall). apply mapM_Some in Hbs.
  apply list_elem_of_lookup in Hc as [i Hi].
  destruct (Forall2_lookup_l _ _ _ _ _ Hbs Hi) as (b & Hb & Hcb).
  rewrite Hcb. f_equal. symmetry in Hall.
  rewrite forallb_forall in Hall. apply (Hall b).
  apply list_elem_of_In, list_elem_of_lookup. by exists i.
Qed.

(** X19: what the filter of GET /api/admin/students demands of a record.
    A record that satisfies the filter has exactly the [status] of the
    query and exactly its [year], as a number; for a [department] and a
    [search] without metacharacters, its department is a string that
    contains the former and its [studentId] contains the latter, letter
    case ignored: the name and the address of the owner play no part. *)
Theorem list_filter_is_exact q st :
  matches (buildFilter q) st = Some true →
  (∀ v, Req.status q = Some v → v ≠ "" → status st = v)
  ∧ (∀ v, Req.year q = Some v → v ≠ "" →
       academicInfo st !! "year" = Some (JNum (default 0 (parseInt v))))
  ∧ (∀ v r, Req.department q = Some v → v ≠ "" →
       literal true v = Some r →
       ∃ d, academicInfo st !! "department" = Some (JStr d)
            ∧ ListSpec.containsI v d = true)
  ∧ (∀ v r, Req.search q = Some v → v ≠ "" →
       literal true v = Some r →
       ListSpec.containsI v (studentId st) = true).
Proof.
  intros Hm.
  assert (∀ c, c ∈ buildFilter q → clauseHolds st c = Some true) as Hall
    by (intros c; by apply matches_clauses).
  unfold buildFilter in Hall.
  split; [|split; [|split]].
  - intros v Hq Hne. apply String.eqb_neq in Hne.
    specialize (Hall (Path ["status"] (Equals (JStr v)))).
    rewrite Hq in Hall. simpl in Hall. rewrite Hne in Hall. simpl in Hall.
    rewrite !elem_of_app in Hall.
    specialize (Hall ltac:(right; right; left; apply list_elem_of_here)).
    injection Hall as Hall. apply bool_decide_eq_true in Hall. congruence.
  - intros v Hq Hne. apply String.eqb_neq in Hne.
    specialize (Hall (Path ["academicInfo"; "year"]
                        (Equals (JNum (default 0 (parseInt v)))))).
    rewrite Hq in Hall. simpl in Hall. rewrite Hne in Hall. simpl in Hall.
    rewrite !elem_of_app in Hall.
    specialize (Hall ltac:(right; right; right; apply list_elem_of_here)).
    injection Hall as Hall. apply bool_decide_eq_true in Hall.
    destruct (academicInfo st !! "year"); simpl in Hall; congruence.
  - intros v r Hq Hne Hlit. apply String.eqb_neq in Hne.
    specialize (Hall (Path ["academicInfo"; "department"] (Regex v "i"))).
    rewrite Hq in Hall. simpl in Hall. rewrite Hne in Hall. simpl in Hall.
    rewrite !elem_of_app in Hall.
    specialize (Hall ltac:(right; left; apply list_elem_of_here)).
    destruct (academicInfo st !! "department") as [[d| | |]|]; simpl in Hall;
      rewrite (regexMatch_literal _ _ _ Hlit) in Hall; try done.
    exists d. split; [done|]. congruence.
  - intros v r Hq Hne Hlit. apply String.eqb_neq in Hne.
    assert (Or [ (["studentId"], Regex v "i");
                 (["userId"; "firstName"], Regex v "i");
                 (["userId"; "lastName"], Regex v "i");
                 (["userId"; "email"], Regex v "i") ] ∈ buildFilter q)
      as Hin.
    { unfold buildFilter. rewrite Hq. simpl. rewrite Hne. simpl.
      apply list_elem_of_here. }
    apply (matches_clauses _ st _ Hm) in Hin.
    rewrite search_clause_is_studentId_only in Hin.
    rewrite (regexMatch_literal _ _ _ Hlit) in Hin. congruence.
Qed.

End PageFacts.


Lemma list_filter_is_exact_witness :
  let q := pageQuery "1" "10" (Some "active") in
  let st := sampleStudent 2 "STU1" in
  (∀ v, ListStudents.Req.status q = Some v → v ≠ "" → status st = v)
  ∧ (∀ v, ListStudents.Req.year q = Some v → v ≠ "" →
       academicInfo st !! "year"
       = Some (JNum (default 0 (ListStudents.parseInt v))))
  ∧ (∀ v r, ListStudents.Req.department q = Some v → v ≠ "" →
       ListStudents.literal true v = Some r →
       ∃ d, academicInfo st !! "department" = Some (JStr d)
            ∧ ListSpec.containsI v d = true)
  ∧ (∀ v r, ListStudents.Req.search q = Some v → v ≠ "" →
       ListStudents.literal true v = Some r →
       ListSpec.containsI v (studentId st) = true).
Proof.
  apply (list_filter_is_exact (pageQuery "1" "10" (Some "active"))
           (sampleStudent 2 "STU1")).
  vm_compute. reflexivity.
Defined.

(* ===================================================================== *)
(** * The dashboard (GET /api/admin/dashboard) *)
(* ===================================================================== *)

Section DashboardFacts.

Lemma countDocuments_all {A} (m : gmap ObjectId A) :
  Query.countDocuments (λ _, true) m = size m.
Proof. unfold Query.countDocuments. by rewrite map_filter_id. Qed.

Lemma countDocuments_le {A} (cond : A → bool) (m : gmap ObjectId A) :
  (Query.countDocuments cond m ≤ size m)%nat.
Proof. unfold Query.countDocuments. apply map_size_filter. Qed.

Lemma recentStudents_stored s id st :
  (id, st) ∈ recentStudents s → students s !! id = Some st.
Proof.
  unfold recentStudents, ListStudents.newestFirst. intros Hin.
  apply subseteq_take in Hin. rewrite merge_sort_Permutation in Hin.
  by apply elem_of_map_to_list.
Qed.

(** A stored record is among the recent ones or not newer than any of
    them. *)
Lemma recentStudents_newest s id st :
  students s !! id = Some st →
  (id, st) ∈ recentStudents s
  ∨ ∀ kv, kv ∈ recentStudents s → createdAt st ≤ createdAt kv.2.
Proof.
  intros Hst. unfold recentStudents.
  set (l := ListStudents.newestFirst (map_to_list (students s))).
  assert ((id, st) ∈ l) as Hin.
  { unfold l, ListStudents.newestFirst. rewrite merge_sort_Permutation.
    by apply elem_of_map_to_list. }
  rewrite <- (take_drop 5 l) in Hin. apply elem_of_app in Hin as [Hin|Hin];
    [by left|right].
  intros kv Hkv.
  pose proof (StronglySorted_merge_sort ListStudents.newerOrSame
                (map_to_list (students s))) as Hs.
  fold (ListStudents.newestFirst (map_to_list (students s))) in Hs.
  fold l in Hs. rewrite <- (take_drop 5 l) in Hs.
  apply (StronglySorted_app_1_elem_of _ _ _ _ _ Hs Hkv Hin).
Qed.

Lemma recentEntry_Some s kv e :
  recentEntry s kv = Some e →
  ∃ u, users s !! userId kv.2 = Some u
       ∧ Dashboard._id e = kv.1
       ∧ Dashboard.name e = firstName u ++ " " ++ lastName u
       ∧ Dashboard.email e = email u
       ∧ Dashboard.status e = status kv.2
       ∧ Dashboard.createdAt e = createdAt kv.2.
Proof.
  unfold recentEntry, populate.
  destruct (users s !! userId kv.2) as [u|]; simpl; [|done].
  intros [= <-]. by exists u.
Qed.

(** X20: a 200 answer of the dashboard.  The totals are the sizes of the
    two collections; the active records are among all, and
    [inactiveStudents] is what remains, whatever the status of those
    records; [recentStudents] has five entries, or as many as there are
    records; each entry shows a stored record with the name and address of
    its owner; and every record that has no entry is at most as new as
    each one that has. *)
Theorem dashboard_statistics s stats recent :
  adminDashboard s = inr (stats, recent) →
  Dashboard.totalStudents stats = Z.of_nat (size (students s))
  ∧ Dashboard.totalUsers stats = Z.of_nat (size (users s))
  ∧ 0 ≤ Dashboard.activeStudents stats ≤ Dashboard.totalStudents stats
  ∧ Dashboard.activeStudents stats + Dashboard.inactiveStudents stats
    = Dashboard.totalStudents stats
  ∧ length recent = min 5 (size (students s))
  ∧ (∀ e, e ∈ recent →
       ∃ st u, students s !! Dashboard._id e = Some st
               ∧ users s !! userId st = Some u
               ∧ Dashboard.name e = firstName u ++ " " ++ lastName u
               ∧ Dashboard.email e = email u
               ∧ Dashboard.status e = status st
               ∧ Dashboard.createdAt e = createdAt st)
  ∧ (∀ e id st, e ∈ recent → students s !! id = Some st →
       (∀ e', e' ∈ recent → Dashboard._id e' ≠ id) →
       createdAt st ≤ Dashboard.createdAt e).
Proof.
  unfold adminDashboard. cbv zeta.
  destruct (mapM _ _) as [entries|] eqn:Hm; [|done].
  intros [= <- <-]. simpl. unfold countStudents.
  rewrite !countDocuments_all.
  pose proof (countDocuments_le (λ st, String.eqb (status st) "active")
                (students s)) as Hle.
  pose proof (length_mapM _ _ _ Hm) as Hlen.
  apply mapM_Some in Hm.
  split; [done|]. split; [done|]. split; [lia|]. split; [lia|]. split.
  { rewrite <- Hlen. unfold recentStudents, ListStudents.newestFirst.
    rewrite length_take.
    rewrite (Permutation_length (merge_sort_Permutation _ _)).
    by rewrite length_map_to_list. }
  assert (∀ e, e ∈ entries →
            ∃ kv, kv ∈ recentStudents s ∧ recentEntry s kv = Some e)
    as Hfrom.
  { intros e He. apply list_elem_of_lookup in He as [i Hi].
    destruct (Forall2_lookup_r _ _ _ _ _ Hm Hi) as (kv & Hkv & Hr).
    exists kv. split; [|done]. apply list_elem_of_lookup. by exists i. }
  assert (∀ kv, kv ∈ recentStudents s →
            ∃ e, e ∈ entries ∧ recentEntry s kv = Some e) as Hto.
  { intros kv Hkv. apply list_elem_of_lookup in Hkv as [i Hi].
    destruct (Forall2_lookup_l _ _ _ _ _ Hm Hi) as (e & He & Hr).
    exists e. split; [|done]. apply list_elem_of_lookup. by exists i. }
  split.
  - intros e He. destruct (Hfrom e He) as ([id st] & Hkv & Hr).
    apply recentEntry_Some in Hr as (u & Hu & Hid & Hn & Hmail & Hst & Hc).
    simpl in *. exists st, u. rewrite Hid.
    split; [by apply recentStudents_stored|done].
  - intros e id st He Hst Hnot.
    destruct (Hfrom e He) as (kv & Hkv & Hr).
    apply recentEntry_Some in Hr as (u & _ & _ & _ & _ & _ & ->).
    destruct (recentStudents_newest s id st Hst) as [Hin|Hold];
      [|by apply Hold].
    destruct (Hto _ Hin) as (e' & He' & Hr').
    apply recentEntry_Some in Hr' as (? & _ & Hid & _).
    by destruct (Hnot e' He').
Qed.

(** X21: the dashboard fails as a whole on one dangling reference.  It
    answers 500 exactly when one of the records it would list has an owner
    that is not stored, which cannot happen while every record has its
    owner. *)
Theorem dashboard_fails_on_orphan s :
  (∀ r, adminDashboard s = inl r →
     http r = 500
     ∧ ∃ id st, students s !! id = Some st ∧ populate s st = None)
  ∧ (∀ id st, (id, st) ∈ recentStudents s → populate s st = None →
       ∃ r, adminDashboard s = inl r)
  ∧ ((∀ id st, students s !! id = Some st → is_Some (populate s st)) →
     ∃ answer, adminDashboard s = inr answer).
Proof.
  unfold adminDashboard. cbv zeta.
  assert (∀ kv, recentEntry s kv = None ↔ populate s kv.2 = None) as Hnone.
  { intros kv. unfold recentEntry. by destruct (populate s kv.2). }
  destruct (mapM _ _) as [entries|] eqn:Hm.
  - apply mapM_Some in Hm. split; [done|]. split; [|by eexists].
    intros id st Hin Hp. apply list_elem_of_lookup in Hin as [i Hi].
    destruct (Forall2_lookup_l _ _ _ _ _ Hm Hi) as (e & _ & Hr).
    apply (Hnone (id, st)) in Hp. congruence.
  - apply mapM_None, Exists_exists in Hm as ([id st] & Hin & Hr).
    apply Hnone in Hr. apply recentStudents_stored in Hin.
    split; [|split].
    + intros r [= <-]. split; [done|]. by exists id, st.
    + intros. by eexists.
    + intros Hall. destruct (Hall id st Hin) as [u Hu]. simpl in Hr.
      congruence.
Qed.

End DashboardFacts.

(** After the account of the sample student was made an admin and
    deleted, her record has no owner and the dashboard answers 500. *)
Example dashboard_after_orphan :
  adminDashboard
    (@run sampleExternals sampleEnv sampleStore
       [ (100, PutAdminUser (Some "Bearer t.1") 2%N (roleOnlyBody "admin"));
         (200, DeleteAdminUser (Some "Bearer t.1") 2%N) ])
  = inl (serverError "Server error while fetching dashboard data"
           ["Cannot read properties of null"]).
Proof. vm_compute. reflexivity. Qed.

Lemma dashboard_statistics_witness :
  ∃ stats recent,
    adminDashboard sampleStore = inr (stats, recent)
    ∧ Dashboard.totalStudents stats = Z.of_nat (size (students sampleStore))
    ∧ Dashboard.totalUsers stats = Z.of_nat (size (users sampleStore))
    ∧ 0 ≤ Dashboard.activeStudents stats ≤ Dashboard.totalStudents stats
    ∧ Dashboard.activeStudents stats + Dashboard.inactiveStudents stats
      = Dashboard.totalStudents stats
    ∧ length recent = min 5 (size (students sampleStore))
    ∧ (∀ e, e ∈ recent →
         ∃ st u, students sampleStore !! Dashboard._id e = Some st
                 ∧ users sampleStore !! userId st = Some u
                 ∧ Dashboard.name e = firstName u ++ " " ++ lastName u
                 ∧ Dashboard.email e = email u
                 ∧ Dashboard.status e = status st
                 ∧ Dashboard.createdAt e = createdAt st)
    ∧ (∀ e id st, e ∈ recent → students sampleStore !! id = Some st →
         (∀ e', e' ∈ recent → Dashboard._id e' ≠ id) →
         createdAt st ≤ Dashboard.createdAt e).
Proof.
  eexists _, _. split; [vm_compute; reflexivity|].
  apply (dashboard_statistics sampleStore).
  vm_compute. reflexivity.
Defined.

(* ===================================================================== *)
(** * What the API can do to a Student record *)
(* ===================================================================== *)

Section RecordStepFacts.
Context `{Externals}.

Lemma studentStep_same now (m m' : gmap ObjectId Student) k :
  m' = m → studentStep now (m !! k) (m' !! k).
Proof. intros ->. by left. Qed.

Lemma studentStep_delete now (m : gmap ObjectId Student) id k :
  studentStep now (m !! k) (delete id m !! k).
Proof.
  rewrite lookup_delete. case_decide; [right; by left|by left].
Qed.

Lemma studentStep_findOneAndDelete now cond (m : gmap ObjectId Student) k :
  studentStep now (m !! k) (Query.findOneAndDelete cond m !! k).
Proof.
  unfold Query.findOneAndDelete.
  destruct (Query.findOne cond m) as [[id ?]|]; [|by left].
  apply studentStep_delete.
Qed.

Lemma studentStep_create now (m : gmap ObjectId Student) id k
  uid sid dob g ph a ac gu em :
  m !! id = None →
  studentStep now (m !! k)
    (<[id := Schema.newStudent now uid sid dob g ph a ac gu em]> m !! k).
Proof.
  intros Hid. rewrite lookup_insert. case_decide; [|by left].
  subst k. right. right. left. split; [done|]. by repeat eexists.
Qed.

Lemma studentStep_update now (m : gmap ObjectId Student) id k st d :
  m !! id = Some st →
  up_graduationDate d = graduationStamp now (up_status d) st →
  studentStep now (m !! k) (<[id := applyStudentUpdate d st]> m !! k).
Proof.
  intros Hid Hd. rewrite lookup_insert. case_decide; [|by left].
  subst k. right. right. right. by exists st, d.
Qed.

Lemma graduationStamp_whenTruthy now o st :
  graduationStamp now o st = graduationStamp now (whenTruthy o) st.
Proof.
  unfold whenTruthy, truthy_str. destruct o as [x|]; [|done].
  destruct (String.eqb_spec x "") as [->|Hne]; done.
Qed.

Lemma adminSetStatus_step s now id st k :
  studentStep now (students s !! k)
    (students (adminSetStatus s now id st).2 !! k).
Proof.
  unfold adminSetStatus. destruct (Validator.check _ _); [|by left].
  destruct (students s !! id) as [student|] eqn:Hst; [|by left].
  simpl. by apply studentStep_update.
Qed.

Lemma adminUpdateStudent_step s now id b k :
  studentStep now (students s !! k)
    (students (adminUpdateStudent s now id b).2 !! k).
Proof.
  unfold adminUpdateStudent.
  destruct (validateUpdateStudent b); [|by left].
  destruct (students s !! id) as [student|] eqn:Hst; [|by left].
  cbv zeta.
  destruct (truthy_str (UpdateStudent.firstName b)
            || truthy_str (UpdateStudent.lastName b)
            || truthy_str (UpdateStudent.email b)); simpl.
  - destruct (match UpdateStudent.email b with Some _ => _ | None => _ end);
      [by left|].
    destruct (validateStudentUpdate _); simpl; [|by left].
    apply studentStep_update; [done|]. simpl.
    apply graduationStamp_whenTruthy.
  - destruct (validateStudentUpdate _); simpl; [|by left].
    apply studentStep_update; [done|]. simpl.
    apply graduationStamp_whenTruthy.
Qed.

Lemma updateOwnProfile_step s now caller b k :
  studentStep now (students s !! k)
    (students (updateOwnProfile s caller b).2 !! k).
Proof.
  unfold updateOwnProfile.
  destruct (validateUpdateProfile b); [|by left].
  destruct (Query.findOne _ _) as [[id student]|] eqn:Hf; [|by left].
  apply findOne_Some in Hf as [Hst _].
  destruct (validateStudentUpdate _); [|by left].
  simpl. by apply studentStep_update.
Qed.

Lemma adminCreateStudent_step s now b k :
  studentStep now (students s !! k)
    (students (adminCreateStudent s now b).2 !! k).
Proof.
  unfold adminCreateStudent.
  destruct (validateCreateStudent b); [|by left].
  destruct (bool_decide _); [by left|]. destruct (bool_decide _); [by left|].
  cbv zeta. destruct (Schema.validate _); [|by left]. simpl.
  apply studentStep_create.
  apply (newObjectId_students (set_users _ s)).
Qed.

Lemma registerAccount_step env s now b firstAdmin k :
  studentStep now (students s !! k)
    (students (registerAccount env s now b firstAdmin).2 !! k).
Proof.
  unfold registerAccount. cbv zeta.
  destruct (bool_decide _); [by left|].
  destruct (String.eqb (Register.role b) "student").
  - destruct (Schema.validate _); [|by left].
    assert (studentStep now (students s !! k)
              (<[newObjectId (set_users
                   (<[newObjectId s := newUser (Register.username b)
                        (Register.email b) (Register.password b)
                        (Register.firstName b) (Register.lastName b)
                        (Register.role b) defaultIsActive]>) s) :=
                   Register.studentOf now (newObjectId s)
                     (default Register.noStudentData
                        (Register.studentData b))]> (students s) !! k))
      as Hstep.
    { apply studentStep_create.
      apply (newObjectId_students (set_users _ s)). }
    by destruct (generateToken env _).
  - destruct (generateToken env _); by left.
Qed.

Lemma register_step env s now a b k :
  studentStep now (students s !! k)
    (students (register env s now a b).2 !! k).
Proof.
  unfold register. destruct (negb _); [by left|].
  destruct (validateRegister b); [|by left]. cbv zeta.
  destruct (negb _ && negb _).
  - destruct (registerAuth env s a); [by left|].
    apply registerAccount_step.
  - apply registerAccount_step.
Qed.

Lemma deleteUser_step s now id k :
  studentStep now (students s !! k) (students (deleteUser s id).2 !! k).
Proof.
  unfold deleteUser. destruct (users s !! id) as [user|]; [|by left].
  destruct (_ && _); [by left|]. cbv zeta.
  destruct (isStudent user); [|by left]. simpl.
  apply studentStep_findOneAndDelete.
Qed.

Lemma adminDeleteStudent_step s now id k :
  studentStep now (students s !! k)
    (students (adminDeleteStudent s id).2 !! k).
Proof.
  unfold adminDeleteStudent. destruct (students s !! id); [|by left].
  simpl. apply studentStep_delete.
Qed.

Lemma login_students env s now e p :
  students (login env s now e p).2 = students s.
Proof.
  unfold login. destruct (_ ++ _)%list; [|done].
  destruct (Query.findOne _ _) as [[??]|]; [|done].
  destruct (negb _); [done|]. destruct (negb _); [done|].
  by destruct (generateToken env _).
Qed.

Lemma updateProfile_students s caller u b :
  students (updateProfile s caller u b).2 = students s.
Proof.
  unfold updateProfile. destruct (_ ++ _)%list; [|done].
  by destruct (match Profile.email b with Some _ => _ | None => _ end).
Qed.

Lemma changePassword_students s caller c n :
  students (changePassword s caller c n).2 = students s.
Proof.
  unfold changePassword. destruct (_ ++ _)%list; [|done].
  destruct (users s !! caller); [|done]. by destruct (negb _).
Qed.

Lemma createUser_students s b : students (createUser s b).2 = students s.
Proof.
  unfold createUser. destruct (validateRegister b); [|done].
  by destruct (bool_decide _).
Qed.

Lemma updateUser_students s id b :
  students (updateUser s id b).2 = students s.
Proof.
  unfold updateUser. destruct (validateUpdateUser b); [|done].
  destruct (users s !! id); [|done].
  by destruct (match UpdateUser.email b with Some _ => _ | None => _ end).
Qed.

(** Every request is one step for every record. *)
Lemma handle_student_step env s now r k :
  studentStep now (students s !! k) (students (handle env s now r).2 !! k).
Proof.
  destruct r; simpl;
    try (apply (guarded_preserves
                  (λ s', studentStep now (students s !! k)
                           (students s' !! k))); [by left|intros ???]).
  - apply register_step.
  - apply studentStep_same, login_students.
  - apply studentStep_same, updateProfile_students.
  - apply studentStep_same, changePassword_students.
  - apply adminCreateStudent_step.
  - apply adminUpdateStudent_step.
  - apply adminDeleteStudent_step.
  - apply adminSetStatus_step.
  - apply studentStep_same, createUser_students.
  - apply studentStep_same, updateUser_students.
  - apply deleteUser_step.
  - apply updateOwnProfile_step.
Qed.

(** A property of records that new documents have and stamped updates
    keep holds in every store reached from one in which it holds. *)
Lemma run_records_invariant (P : Student → Prop) env :
  (∀ now uid sid dob g ph a ac gu em,
     P (Schema.newStudent now uid sid dob g ph a ac gu em)) →
  (∀ now st d, P st →
     up_graduationDate d = graduationStamp now (up_status d) st →
     P (applyStudentUpdate d st)) →
  ∀ trace s,
    (∀ id st, students s !! id = Some st → P st) →
    ∀ id st, students (run env s trace) !! id = Some st → P st.
Proof.
  intros Hnew Hupd. induction trace as [|[now r] rest IH];
    intros s Hs; simpl; [done|].
  apply IH. intros id st Hst.
  destruct (handle_student_step env s now r id)
    as [Heq|[Heq|[[_ Heq]|(st0 & d & Hold & Heq & Hd)]]];
    rewrite Hst in Heq.
  - symmetry in Heq. by apply (Hs id).
  - done.
  - destruct Heq as (?&?&?&?&?&?&?&?&?& [= ->]). apply Hnew.
  - injection Heq as ->. apply (Hupd now); [|done]. by apply (Hs id).
Qed.

(** X22: in every store the API reaches from one in which each graduated
    record has a graduation date, each graduated record has one: both
    status-writing routes stamp the date when a record becomes
    ['graduated'], and no route removes the date or sets the status
    without it. *)
Theorem graduated_records_keep_a_date env trace s :
  graduationInvariant s → graduationInvariant (run env s trace).
Proof.
  intros Hs. unfold graduationInvariant.
  apply (run_records_invariant
           (λ st, status st = "graduated" → is_Some (graduationDate st)) env);
    [done| |exact Hs].
  intros now st d Hst Hd. simpl. rewrite Hd. unfold graduationStamp.
  destruct (up_status d) as [x|]; simpl; [|done].
  intros ->. simpl.
  destruct (String.eqb_spec (status st) "graduated") as [Hg|Hg]; simpl;
    [by apply Hst|by eexists].
Qed.

(** X23: no request writes [financialInfo] or [hostelInfo].  In every
    store the API reaches from one in which each record has the fee and
    hostel data of a new document (fee structure ['general'], no fees, no
    payment, no scholarship, not a hostelite), each record still has
    them. *)
Theorem fees_are_never_written env trace s :
  feesUntouched s → feesUntouched (run env s trace).
Proof.
  intros Hs. unfold feesUntouched.
  by apply (run_records_invariant
              (λ st, financialInfo st = Some Schema.financialInfoDefault
                     ∧ hostelInfo st = Some Schema.hostelInfoDefault) env).
Qed.

End RecordStepFacts.

Lemma sampleStore_records (P : Student → Prop) :
  P (sampleStudent 2 "STU1") →
  ∀ id st, students sampleStore !! id = Some st → P st.
Proof.
  intros HP id st Hst. unfold sampleStore in Hst. simpl in Hst.
  apply lookup_singleton_Some in Hst as [_ <-]. exact HP.
Qed.

Lemma graduated_records_keep_a_date_witness :
  graduationInvariant sampleStore
  ∧ graduationInvariant
      (@run sampleExternals sampleEnv sampleStore recordTrace).
Proof.
  assert (graduationInvariant sampleStore) as Hs.
  { refine (sampleStore_records
              (λ st, status st = "graduated" → is_Some (graduationDate st))
              _).
    discriminate. }
  split; [exact Hs|].
  exact (@graduated_records_keep_a_date sampleExternals sampleEnv
           recordTrace sampleStore Hs).
Defined.

Lemma fees_are_never_written_witness :
  feesUntouched sampleStore
  ∧ feesUntouched (@run sampleExternals sampleEnv sampleStore recordTrace).
Proof.
  assert (feesUntouched sampleStore) as Hs.
  { refine (sampleStore_records
              (λ st, financialInfo st = Some Schema.financialInfoDefault
                     ∧ hostelInfo st = Some Schema.hostelInfoDefault) _).
    by split. }
  split; [exact Hs|].
  exact (@fees_are_never_written sampleExternals sampleEnv recordTrace
           sampleStore Hs).
Defined.

Example recordTrace_statuses :
  (λ st, (status st, graduationDate st))
  <$> students (@run sampleExternals sampleEnv sampleStore recordTrace)
  = {[ 3%N := ("active", Some 400); 5%N := ("graduated", Some 200) ]}.
Proof. vm_compute. reflexivity. Qed.

(* ===================================================================== *)
(** * The tables of the PDF generator *)
(* ===================================================================== *)

Section TableFacts.
Import PDFGenerator.

(** The operations [createTable] issues are those of the cells of the
    data, each at the place of its row and column. *)
Lemma createTable_elem data colWidth startY d :
  d ∈ createTable data colWidth startY
  ↔ ∃ i j row c,
      data !! i = Some row ∧ row !! j = Some c
      ∧ (d = Rect (startX + Z.of_nat j * colWidth)
                (startY + Z.of_nat i * rowHeight) colWidth rowHeight
         ∨ d = Text c (startX + Z.of_nat j * colWidth + 5)
                 (startY + Z.of_nat i * rowHeight + 8) (colWidth - 10)).
Proof.
  unfold createTable. rewrite list_elem_of_join. split.
  - intros (ops & Hd & Hops).
    apply elem_of_lookup_imap in Hops as (i & row & -> & Hrow).
    apply list_elem_of_join in Hd as (cellOps & Hd & Hcell).
    apply elem_of_lookup_imap in Hcell as (j & c & -> & Hc).
    exists i, j, row, c. split; [done|]. split; [done|].
    apply elem_of_cons in Hd as [->|Hd]; [by left|].
    apply list_elem_of_singleton in Hd as ->. by right.
  - intros (i & j & row & c & Hrow & Hc & Hd).
    eexists. split; [|exact (elem_of_lookup_imap_2 _ data row i Hrow)].
    apply list_elem_of_join.
    eexists. split; [|exact (elem_of_lookup_imap_2 _ row c j Hc)].
    simpl. destruct Hd as [->| ->]; [apply list_elem_of_here|].
    apply list_elem_of_further, list_elem_of_here.
Qed.

(** X24: [createTable] lays the cells on a grid.  Every rectangle it
    draws has the column width and the row height 25 and lies between the
    top of the table and [startY + 25 * rows]; the text of a cell is
    placed 5 right and 8 below the corner of its rectangle; and for a
    positive column width two rectangles that share a region of the page
    are the same rectangle. *)
Theorem createTable_grid data colWidth startY :
  0 < colWidth →
  (∀ x y w h, Rect x y w h ∈ createTable data colWidth startY →
     w = colWidth ∧ h = 25
     ∧ startX ≤ x
     ∧ startY ≤ y ∧ y + h ≤ startY + 25 * Z.of_nat (length data)
     ∧ ∃ c, Text c (x + 5) (y + 8) (colWidth - 10)
            ∈ createTable data colWidth startY)
  ∧ (∀ a b, a ∈ createTable data colWidth startY →
       b ∈ createTable data colWidth startY →
       overlaps a b = true → a = b).
Proof.
  intros Hw. split.
  - intros x y w h Hin.
    apply createTable_elem in Hin as (i & j & row & c & Hrow & Hc & Hd).
    destruct Hd as [[= -> -> -> ->]|?]; [|done].
    pose proof (lookup_lt_Some _ _ _ Hrow) as Hlen.
    unfold rowHeight, startX.
    split; [done|]. split; [done|]. split; [nia|]. split; [lia|].
    split; [lia|]. exists c. apply createTable_elem.
    exists i, j, row, c. split; [done|]. split; [done|]. by right.
  - intros a b Ha Hb Hov.
    apply createTable_elem in Ha as (i & j & ? & ? & _ & _ & Ha).
    apply createTable_elem in Hb as (i' & j' & ? & ? & _ & _ & Hb).
    destruct Ha as [->| ->]; [|done].
    destruct Hb as [->| ->]; [|done].
    simpl in Hov. unfold rowHeight, startX in *.
    repeat (apply andb_prop in Hov as [Hov ?]).
    repeat match goal with
           | Hlt : (_ <? _) = true |- _ => apply Z.ltb_lt in Hlt
           end.
    assert (j = j') as -> by nia. assert (i = i') as -> by nia. done.
Qed.

End TableFacts.

Section FeeDocumentFacts.
Import PDFGenerator.

(** X25: the two tables of [generateFeeStructure] are drawn over each
    other, whoever the student: the student-information table has seven
    rows from y = 200, so its last rows reach y = 375, and the fee table
    starts at y = 320. *)
Theorem fee_structure_tables_overlap user student :
  ∃ a b, a ∈ studentInfoTable user student
         ∧ b ∈ feeBreakdownTable student
         ∧ overlaps a b = true.
Proof.
  exists (Rect 50 350 150 25), (Rect 50 345 100 25).
  split; [|split; [|done]].
  - apply createTable_elem. exists 6%nat, 0%nat. by repeat eexists; left.
  - apply createTable_elem. exists 1%nat, 0%nat. by repeat eexists; left.
Qed.

End FeeDocumentFacts.

Section FeeAmountFacts.
Context `{Externals}.

(** X26: the two fee documents (the route
    GET /api/admin/students/:id/fee-structure and [generateFeeStructure]
    of the generator) compute the balance differently: the route subtracts
    the scholarship and adds the hostel fees of a hostelite, the generator
    does neither.  They agree on every record the API can produce: from a
    store whose records have the fee data of a new document, every record
    of every store reached shows a total of 40000 and a balance of 40000
    in both. *)
Theorem fee_documents_agree_on_reachable_records env trace s :
  feesUntouched s →
  (∀ student,
     FeeStructure.balanceRow student - PDFGenerator.balance student
     = FeeStructure.hostelTerm student - FeeStructure.scholarship student)
  ∧ ∀ id st, students (run env s trace) !! id = Some st →
      FeeStructure.totalFeesRow st = 40000
      ∧ FeeStructure.balanceRow st = 40000
      ∧ PDFGenerator.balance st = 40000.
Proof.
  intros Hs. split.
  - intros student. unfold FeeStructure.balanceRow, PDFGenerator.balance,
      FeeStructure.tuition, FeeStructure.paid. lia.
  - intros id st Hst.
    assert (financialInfo st = Some Schema.financialInfoDefault
            ∧ hostelInfo st = Some Schema.hostelInfoDefault) as [Hf Hh].
    { by apply (run_records_invariant
                  (λ st, financialInfo st = Some Schema.financialInfoDefault
                         ∧ hostelInfo st = Some Schema.hostelInfoDefault)
                  env) with trace s id. }
    unfold FeeStructure.totalFeesRow, FeeStructure.balanceRow,
      PDFGenerator.balance, FeeStructure.tuition, FeeStructure.hostelTerm,
      FeeStructure.scholarship, FeeStructure.paid,
      FeeStructure.isHosteliteOf.
    rewrite Hf, Hh. done.
Qed.

End FeeAmountFacts.

Lemma createTable_grid_witness :
  (∀ x y w h,
     PDFGenerator.Rect x y w h ∈ PDFGenerator.feeBreakdownTable
                                  (sampleStudent 2 "STU1") →
     w = 100 ∧ h = 25
     ∧ PDFGenerator.startX ≤ x
     ∧ 320 ≤ y
     ∧ y + h ≤ 320 + 25 * Z.of_nat (length (PDFGenerator.feeBreakdown
                                              (sampleStudent 2 "STU1")))
     ∧ ∃ c, PDFGenerator.Text c (x + 5) (y + 8) (100 - 10)
            ∈ PDFGenerator.feeBreakdownTable (sampleStudent 2 "STU1"))
  ∧ (∀ a b, a ∈ PDFGenerator.feeBreakdownTable (sampleStudent 2 "STU1") →
       b ∈ PDFGenerator.feeBreakdownTable (sampleStudent 2 "STU1") →
       PDFGenerator.overlaps a b = true → a = b).
Proof.
  apply (createTable_grid
           (PDFGenerator.feeBreakdown (sampleStudent 2 "STU1")) 100 320).
  lia.
Defined.

Lemma fee_documents_agree_on_reachable_records_witness :
  (∀ student,
     FeeStructure.balanceRow student - PDFGenerator.balance student
     = FeeStructure.hostelTerm student - FeeStructure.scholarship student)
  ∧ ∀ id st,
      students (@run sampleExternals sampleEnv sampleStore recordTrace) !! id
      = Some st →
      FeeStructure.totalFeesRow st = 40000
      ∧ FeeStructure.balanceRow st = 40000
      ∧ PDFGenerator.balance st = 40000.
Proof.
  apply (@fee_documents_agree_on_reachable_records sampleExternals sampleEnv
           recordTrace sampleStore).
  refine (sampleStore_records
            (λ st, financialInfo st = Some Schema.financialInfoDefault
                   ∧ hostelInfo st = Some Schema.hostelInfoDefault) _).
  by split.
Defined.

(* ===================================================================== *)
(** * Contact messages *)
(* ===================================================================== *)

Section ContactFacts.
Import Contact.


(** X28: a message sent again after the mail failed is stored twice.
    When the first attempt finds the mail service failing it answers 500
    with the message already saved; the same body sent again, once the
    service works, is answered 200 and saved again. *)
Theorem contact_retry_stores_twice (down up : Transport) EMAIL_USER st b
  err :
  complete b = true →
  @saveRejects down (messageOf b) = None →
  @saveRejects up (messageOf b) = None →
  @sendMail down (mailOptions EMAIL_USER (messageOf b)) = Some err →
  @sendMail up (mailOptions EMAIL_USER (messageOf b)) = None →
  let first := @sendMessage down EMAIL_USER st b in
  let second := @sendMessage up EMAIL_USER first.2 b in
  code first.1 = 500 ∧ error first.1 = Some err
  ∧ code second.1 = 200
  ∧ saved second.2 = (saved st ++ [messageOf b; messageOf b])%list
  ∧ delivered second.2
    = (delivered st ++ [mailOptions EMAIL_USER (messageOf b)])%list.
Proof.
  intros Hc Hs1 Hs2 Hm1 Hm2. cbv zeta. unfold sendMessage.
  unfold complete in Hc. rewrite Hc. simpl. fold (messageOf b).
  rewrite Hs1, Hm1. simpl. rewrite Hs2, Hm2. simpl.
  by rewrite <- app_assoc.
Qed.

End ContactFacts.

Lemma contact_retry_stores_twice_witness :
  let first :=
    @Contact.sendMessage mailDown (Some "office@college.com") noMessages
      sampleContactBody in
  let second :=
    @Contact.sendMessage mailUp (Some "office@college.com") first.2
      sampleContactBody in
  Contact.code first.1 = 500
  ∧ Contact.error first.1 = Some "connect ETIMEDOUT"
  ∧ Contact.code second.1 = 200
  ∧ Contact.saved second.2
    = (Contact.saved noMessages
       ++ [messageOf sampleContactBody; messageOf sampleContactBody])%list
  ∧ Contact.delivered second.2
    = (Contact.delivered noMessages
       ++ [Contact.mailOptions (Some "office@college.com")
             (messageOf sampleContactBody)])%list.
Proof.
  apply (contact_retry_stores_twice mailDown mailUp
           (Some "office@college.com") noMessages sampleContactBody
           "connect ETIMEDOUT"); reflexivity.
Defined.

(* ===================================================================== *)
(** * The seeding scripts *)
(* ===================================================================== *)

Section SeedFacts.
Context `{Externals}.

Lemma findOne_None_count {A} (cond : A → bool) (m : gmap ObjectId A) :
  Query.findOne cond m = None ↔ Query.countDocuments cond m = 0%nat.
Proof. by rewrite findOne_none_iff, countDocuments_zero. Qed.

(** X29: [seedData] closes the first-admin door of the register route.
    On a store that has an admin, or in which the name and the address of
    the seeded admin are free, the script leaves a store with at least
    one admin in which every earlier document is unchanged and Users are
    still unique if they were; running it again changes nothing; and a
    registration for the role ['admin'] that carries no token is then
    refused and changes nothing. *)
Theorem seedData_closes_bootstrap s :
  Query.findOne isAdmin (users s) ≠ None
  ∨ existingUser s "admin@college.com" "admin" = None →
  (0 < adminCount (seedData s))%nat
  ∧ seedData (seedData s) = seedData s
  ∧ students (seedData s) = students s
  ∧ (∀ k u, users s !! k = Some u → users (seedData s) !! k = Some u)
  ∧ (uniqueUsers s → uniqueUsers (seedData s))
  ∧ ∀ env now b, Register.role b = "admin" →
      (register env (seedData s) now None b).2 = seedData s
      ∧ (http (register env (seedData s) now None b).1 = 401
         ∨ http (register env (seedData s) now None b).1 = 400
         ∨ http (register env (seedData s) now None b).1 = 500).
Proof.
  intros Hfree.
  assert (Query.findOne isAdmin (users (seedData s)) ≠ None) as Hadmin.
  { unfold seedData.
    destruct (Query.findOne isAdmin (users s)) eqn:Hf; [by rewrite Hf|].
    simpl. intros Hnone.
    pose proof (findOne_None _ _ Hnone (newObjectId s) adminUser) as Hc.
    rewrite lookup_insert_eq in Hc. by specialize (Hc eq_refl). }
  assert (0 < adminCount (seedData s))%nat as Hcount.
  { unfold adminCount.
    destruct (Query.countDocuments isAdmin (users (seedData s))) eqn:Hz;
      [|lia]. by apply findOne_None_count in Hz. }
  split; [done|]. split.
  { unfold seedData at 1.
    by destruct (Query.findOne isAdmin (users (seedData s))). }
  split; [unfold seedData; by destruct (Query.findOne _ _)|].
  split.
  { intros k u Hk. unfold seedData.
    destruct (Query.findOne _ _); [done|]. simpl.
    rewrite lookup_insert_ne; [done|]. intros <-.
    by rewrite newObjectId_users in Hk. }
  split.
  { intros Hu. unfold seedData.
    destruct (Query.findOne isAdmin (users s)) eqn:Hf; [done|].
    destruct Hfree as [?|Hfree]; [done|].
    apply uniqueUsers_insert_new; [done|apply newObjectId_users|done]. }
  intros env now b Hrole. unfold register.
  destruct (negb (readyState env =? 1)); [auto|].
  destruct (validateRegister b); [|auto]. cbv zeta.
  unfold isFirstAdmin. rewrite Hrole. simpl.
  replace (adminCount (seedData s) =? 0)%nat with false
    by (symmetry; apply Nat.eqb_neq; lia).
  simpl. auto.
Qed.

(** [createAdmin] looks for the address of the admin, not for the role:
    it is idempotent too, it leaves a store with an admin, and it adds the
    admin beside admins that have another address. *)
Lemma createAdmin_idempotent s :
  createAdmin (createAdmin s) = createAdmin s
  ∧ (0 < adminCount (createAdmin s)
     ∨ ∃ id u, users s !! id = Some u ∧ email u = "admin@college.com"
               ∧ role u ≠ "admin")%nat
  ∧ (Query.findOne (λ u, String.eqb (email u) "admin@college.com") (users s)
     = None →
     users (createAdmin s) !! newObjectId s = Some adminUser).
Proof.
  unfold createAdmin.
  destruct (Query.findOne _ (users s)) as [[id u]|] eqn:Hf.
  - rewrite Hf. split; [done|]. split; [|done].
    apply findOne_Some in Hf as [Hid He]. apply String.eqb_eq in He.
    destruct (String.eqb_spec (role u) "admin") as [Hr|Hr].
    + left. apply (countDocuments_pos isAdmin (users s) id u Hid).
      unfold isAdmin. by rewrite Hr.
    + right. by exists id, u.
  - split; [|split].
    + destruct (Query.findOne _ (users (set_users _ s))) eqn:Hf'; [done|].
      pose proof (findOne_None _ _ Hf' (newObjectId s) adminUser) as Hc.
      simpl in Hc. rewrite lookup_insert_eq in Hc. by specialize (Hc eq_refl).
    + left. apply (countDocuments_pos isAdmin _ (newObjectId s) adminUser);
        [simpl; apply lookup_insert_eq|done].
    + intros _. simpl. apply lookup_insert_eq.
Qed.

End SeedFacts.

Lemma seedData_closes_bootstrap_witness :
  (0 < adminCount (@seedData sampleExternals emptyStore))%nat
  ∧ @seedData sampleExternals (@seedData sampleExternals emptyStore)
    = @seedData sampleExternals emptyStore
  ∧ students (@seedData sampleExternals emptyStore) = students emptyStore
  ∧ (∀ k u, users emptyStore !! k = Some u →
            users (@seedData sampleExternals emptyStore) !! k = Some u)
  ∧ (uniqueUsers emptyStore →
     uniqueUsers (@seedData sampleExternals emptyStore))
  ∧ ∀ env now b, Register.role b = "admin" →
      (@register sampleExternals env (@seedData sampleExternals emptyStore)
         now None b).2 = @seedData sampleExternals emptyStore
      ∧ (http (@register sampleExternals env
                 (@seedData sampleExternals emptyStore) now None b).1 = 401
         ∨ http (@register sampleExternals env
                   (@seedData sampleExternals emptyStore) now None b).1 = 400
         ∨ http (@register sampleExternals env
                   (@seedData sampleExternals emptyStore) now None b).1
           = 500).
Proof.
  apply (@seedData_closes_bootstrap sampleExternals emptyStore).
  right. vm_compute. reflexivity.
Defined.

(* ===================================================================== *)
(** * What a request without an admin's token can do to the Users *)
(* ===================================================================== *)

Section PrivilegeFacts.
Context `{Externals}.

Lemma accountsKept_refl s : accountsKept s s.
Proof.
  split; [intros k u Hk; by exists u|]. intros k u' Hk Hn. congruence.
Qed.

Lemma accountsKept_same_users s s' :
  users s' = users s → accountsKept s s'.
Proof.
  intros Heq. unfold accountsKept. rewrite Heq. apply accountsKept_refl.
Qed.

Lemma accountsKept_replace s k old new :
  users s !! k = Some old →
  username new = username old → role new = role old →
  isActive new = isActive old →
  accountsKept s (set_users (<[k := new]>) s).
Proof.
  intros Hk Hn Hr Ha. split; simpl.
  - intros j u Hj. rewrite lookup_insert. case_decide; [|by exists u].
    subst j. rewrite Hk in Hj. injection Hj as <-. by exists new.
  - intros j u'. rewrite lookup_insert. case_decide; [|congruence].
    subst j. congruence.
Qed.

Lemma accountsKept_new_student s new :
  role new = "student" →
  accountsKept s (set_users (<[newObjectId s := new]>) s).
Proof.
  intros Hr. split; simpl.
  - intros j u Hj. exists u. rewrite lookup_insert_ne; [done|].
    intros <-. by rewrite newObjectId_users in Hj.
  - intros j u'. rewrite lookup_insert. case_decide; [|congruence].
    by intros [= <-].
Qed.

Lemma protect_tokenUser env s a id u :
  protect env s a = inr (id, u) → tokenUser env s a = Some u.
Proof.
  intros Hp. apply protect_inr in Hp as (token & Hb & Hj & Hu & _).
  unfold tokenUser. rewrite Hb. simpl. rewrite Hj. done.
Qed.

Lemma guarded_admin_refused env s a handler :
  hasAdminToken env s a = false →
  (guarded adminOnly env s a handler).2 = s.
Proof.
  unfold hasAdminToken, guarded. intros Hno.
  destruct (protect env s a) as [r|[id u]] eqn:Hp; [done|].
  rewrite (protect_tokenUser _ _ _ _ _ Hp) in Hno.
  unfold adminOnly, authorize, Validator.isIn. simpl.
  unfold isAdmin in Hno. rewrite Hno. done.
Qed.

Lemma registerAuth_None env s a :
  registerAuth env s a = None → hasAdminToken env s a = true.
Proof.
  unfold registerAuth, hasAdminToken, tokenUser.
  destruct (bearerToken a) as [token|]; [|done]. simpl.
  destruct (jwtVerify _ token) as [id|]; [|done]. simpl.
  destruct (users s !! id) as [u|]; [|done].
  by destruct (isAdmin u).
Qed.

Lemma registerAccount_accountsKept env s now b firstAdmin :
  Register.role b = "student" →
  accountsKept s (registerAccount env s now b firstAdmin).2.
Proof.
  intros Hrole. unfold registerAccount. cbv zeta.
  destruct (bool_decide _); [apply accountsKept_refl|].
  rewrite Hrole. simpl.
  assert (accountsKept s
            (set_users (<[newObjectId s :=
               newUser (Register.username b) (Register.email b)
                 (Register.password b) (Register.firstName b)
                 (Register.lastName b) "student" defaultIsActive]>) s))
    as Hkept by by apply accountsKept_new_student.
  destruct (Schema.validate _); [|done].
  by destruct (generateToken env _).
Qed.

(** X30: without the token of an admin nobody becomes one.  When the
    store has an admin and the request does not carry the token of a User
    with the role ['admin'], every User is still stored afterwards with
    the same name, role and [isActive] flag, and a User the request added
    has the role ['student']: such a request cannot delete, deactivate,
    promote or demote an account, nor create an admin. *)
Theorem no_escalation_without_admin_token env s now r :
  (0 < adminCount s)%nat →
  hasAdminToken env s (headerOf r) = false →
  accountsKept s (handle env s now r).2.
Proof.
  intros Hadmins Hno.
  destruct r; simpl in *;
    try (rewrite (guarded_admin_refused env s _ _ Hno);
         apply accountsKept_refl).
  - unfold register. destruct (negb _); [apply accountsKept_refl|].
    destruct (validateRegister b) eqn:Hv; [|apply accountsKept_refl].
    apply validateRegister_nil in Hv as (_ & _ & Hrole).
    apply isIn_elem_of in Hrole. cbv zeta. unfold isFirstAdmin.
    replace (adminCount s =? 0)%nat with false
      by (symmetry; apply Nat.eqb_neq; lia).
    rewrite andb_false_r. simpl.
    destruct (String.eqb_spec (Register.role b) "student") as [Hst|Hst];
      simpl; [by apply registerAccount_accountsKept|].
    destruct (registerAuth env s authorization) eqn:Hauth;
      [apply accountsKept_refl|].
    apply registerAuth_None in Hauth. congruence.
  - unfold login. destruct (_ ++ _)%list; [|apply accountsKept_refl].
    destruct (Query.findOne _ _) as [[id user]|] eqn:Hf;
      [|apply accountsKept_refl].
    apply findOne_Some in Hf as [Hid _].
    destruct (negb (isActive user)); [apply accountsKept_refl|].
    destruct (negb _); [apply accountsKept_refl|]. cbv zeta.
    assert (accountsKept s (set_users (<[id := withLastLogin now user]>) s))
      as Hkept by by apply (accountsKept_replace s id user).
    by destruct (generateToken env id).
  - apply (guarded_preserves (accountsKept s));
      [apply accountsKept_refl|]. intros id u Hid.
    unfold updateProfile. destruct (_ ++ _)%list; [|apply accountsKept_refl].
    destruct (match Profile.email b with Some _ => _ | None => _ end);
      [apply accountsKept_refl|]. simpl.
    split; simpl.
    + intros j v Hj. rewrite lookup_alter. case_decide; [|by exists v].
      subst j. rewrite Hj. simpl. by eexists.
    + intros j v'. rewrite lookup_alter. case_decide; [|congruence].
      subst j. intros Hv Hn. rewrite Hn in Hv. done.
  - apply (guarded_preserves (accountsKept s));
      [apply accountsKept_refl|]. intros id u Hid.
    unfold changePassword. destruct (_ ++ _)%list; [|apply accountsKept_refl].
    rewrite Hid. destruct (negb _); [apply accountsKept_refl|]. simpl.
    by apply (accountsKept_replace s id u).
  - apply (guarded_preserves (accountsKept s));
      [apply accountsKept_refl|]. intros id u Hid.
    apply accountsKept_same_users, updateOwnProfile_users.
Qed.

End PrivilegeFacts.

Lemma no_escalation_without_admin_token_witness :
  accountsKept sampleStore
    (@handle sampleExternals sampleEnv sampleStore 100
       (PutAdminUser (Some "Bearer t.2") 2%N (roleOnlyBody "admin"))).2.
Proof.
  apply (@no_escalation_without_admin_token sampleExternals sampleEnv
           sampleStore 100
           (PutAdminUser (Some "Bearer t.2") 2%N (roleOnlyBody "admin"))).
  - vm_compute. lia.
  - vm_compute. reflexivity.
Defined.
